(** * Anomalyse backend: the scoring pipeline of [backend/main.py]

    A shallow embedding of the request handlers [require_token],
    [predict_fraud] and [upload_csv] and of the collaborators they call
    (token decoding, the pickled pipeline, the preprocessing step, pandas
    conversions, the ORM session), followed by the properties of the
    scoring pipeline.

    Python [float]s are IEEE binary64 values, modelled by Rocq's primitive
    [float]; timestamps are integers (a count of microseconds), with one
    reserved value for pandas' [NaT]; strings are
    [string]s of 8-bit characters (header values reach the handlers decoded
    as Latin-1).  A handler is a computation over a [World] that either
    returns a value or raises a Python exception. *)

From Stdlib Require Import ZArith List String Ascii Bool Lia DecimalString Sorted.
From Stdlib Require Import OrderedTypeEx.
From Stdlib Require Import Floats.PrimFloat Floats.SpecFloat Floats.FloatOps.
Import ListNotations.

Local Open Scope string_scope.
Local Open Scope Z_scope.

(** ** Python strings *)

Module PyStr.

(** [s.startswith(p)] *)
Definition startswith (s p : string) : bool := String.prefix p s.

(** [s.endswith(p)] *)
Definition endswith (s p : string) : bool :=
  let n := String.length s in
  let k := String.length p in
  if Nat.ltb n k then false
  else String.eqb (String.substring (n - k) k s) p.

(** The scan of [s.replace(old, new)] for a non-empty [old]: left to
    right, non-overlapping; [skip] counts the characters of a match that
    are still to be dropped. *)
Fixpoint replace_scan (old new : string) (skip : nat) (s : string) : string :=
  match s with
  | EmptyString => EmptyString
  | String c rest =>
      match skip with
      | S k => replace_scan old new k rest
      | O =>
          if String.prefix old s
          then new ++ replace_scan old new (Nat.pred (String.length old)) rest
          else String c (replace_scan old new O rest)
      end
  end.

(** With an empty [old], Python puts [new] before every character and
    at the end. *)
Fixpoint replace_empty (new s : string) : string :=
  match s with
  | EmptyString => new
  | String c rest => new ++ String c (replace_empty new rest)
  end.

(** [s.replace(old, new)] *)
Definition replace (s old new : string) : string :=
  match old with
  | EmptyString => replace_empty new s
  | String _ _ => replace_scan old new O s
  end.

(** [c.isspace()] on the code points below 256. *)
Definition isspace (c : ascii) : bool :=
  let n := nat_of_ascii c in
  (Nat.leb 9 n && Nat.leb n 13) || (Nat.leb 28 n && Nat.leb n 32)
  || Nat.eqb n 133 || Nat.eqb n 160.

Fixpoint lstrip (s : string) : string :=
  match s with
  | EmptyString => EmptyString
  | String c rest => if isspace c then lstrip rest else s
  end.

Fixpoint rstrip (s : string) : string :=
  match s with
  | EmptyString => EmptyString
  | String c rest =>
      match rstrip rest with
      | EmptyString => if isspace c then EmptyString else String c EmptyString
      | r => String c r
      end
  end.

(** [s.strip()] *)
Definition strip (s : string) : string := rstrip (lstrip s).

(** [repr] of a list of strings that contain neither quotes, backslashes
    nor unprintable characters, as an f-string prints it:
    [['City', 'Category']]. *)
Definition repr_str (s : string) : string := "'" ++ s ++ "'".

Fixpoint join (sep : string) (l : list string) : string :=
  match l with
  | [] => EmptyString
  | [x] => x
  | x :: rest => x ++ sep ++ join sep rest
  end.

Definition repr_list (l : list string) : string :=
  "[" ++ join ", " (map repr_str l) ++ "]".

(** [needle in hay] on strings. *)
Fixpoint contains (hay needle : string) : bool :=
  String.prefix needle hay ||
  match hay with
  | EmptyString => false
  | String _ rest => contains rest needle
  end.

End PyStr.

(** ** Python sequences *)

Module PySeq.

Section Indexing.
Context {A : Type}.

(** [l[i]] with Python's negative indices; [None] is [IndexError]. *)
Definition getitem (l : list A) (i : Z) : option A :=
  let n := Z.of_nat (List.length l) in
  if i <? 0
  then if 0 <=? n + i then nth_error l (Z.to_nat (n + i)) else None
  else nth_error l (Z.to_nat i).

(** [l.index(x)]: the first position of [x]; [None] is [ValueError]. *)
Fixpoint index (eqb : A -> A -> bool) (x : A) (l : list A) : option nat :=
  match l with
  | [] => None
  | y :: rest =>
      if eqb y x then Some O
      else option_map S (index eqb x rest)
  end.

(** [x in l] *)
Definition contains (eqb : A -> A -> bool) (x : A) (l : list A) : bool :=
  existsb (fun y => eqb y x) l.
End Indexing.

End PySeq.

(** ** Numbers *)

(** [int(f)] on a float: truncation towards zero; [None] stands for the
    [ValueError] on a NaN and the [OverflowError] on an infinity. *)
Definition py_int (f : float) : option Z :=
  match Prim2SF f with
  | S754_zero _ => Some 0
  | S754_finite s m e =>
      let mag := if 0 <=? e then Z.pos m * 2 ^ e else Z.pos m / 2 ^ (- e) in
      Some (if s then - mag else mag)
  | S754_infinity _ | S754_nan => None
  end.

(** ** Data model *)

(** A cell of a pandas frame, as far as the handlers build or read one. *)
Inductive Cell : Type :=
| CTime (t : Z)
| CStr (s : string)
| CFloat (f : float)
| CInt (z : Z).

(** A frame: its column labels and its rows, each row aligned with the
    labels. *)
Record DataFrame : Type := {
  columns : list string;
  rows : list (list Cell)
}.

(** [models.Transaction], the ORM row of table [transactions]. *)
Module TransactionModel.
Record t : Type := {
  id : string;
  timestamp : Z;
  amount : float;
  user_id : string;
  city : string;
  category : string;
  risk_score : Z;
  status : string;
  flag_type : option string;
  flag_reason : option string;
  is_training_data : bool
}.
End TransactionModel.

Module PredictionRequest.
Record t : Type := {
  timestamp : string;
  amount : float;
  user_id : string;
  city : string;
  category : string
}.
End PredictionRequest.

Module PredictionResponse.
Record t : Type := {
  is_fraud : bool;
  risk_score : float;
  status : string
}.
End PredictionResponse.

Record UploadFile : Type := {
  filename : string;
  file : string
}.

(** The dictionary [upload_csv] returns. *)
Record UploadResult : Type := {
  success : bool;
  message : string;
  rowsProcessed : nat
}.

(** The unpickled pipeline: [classes_], [predict] and [predict_proba].
    [inl msg] is an exception whose [str] is [msg]. *)
Record Pipeline : Type := {
  classes_ : list Z;
  predict : DataFrame -> string + list Z;
  predict_proba : DataFrame -> string + list (list float)
}.

(** What is found at [MODEL_PATH]. *)
Inductive Artifact : Type :=
| Missing
| Corrupt (msg : string)
| Loadable (p : Pipeline).

(** ** Exceptions, the world and the handler monad *)

Inductive exn : Type :=
| HTTPException (status_code : Z) (detail : string)
| PyError (msg : string).

Inductive outcome (A : Type) : Type :=
| Return (a : A)
| Raise (e : exn).
Arguments Return {A} a.
Arguments Raise {A} e.

(** Calls that leave the handler, in the order they happen. *)
Inductive Event : Type :=
| EvLoad
| EvDecode (token : string)
| EvQuery (user_id : string) (before : Z)
| EvPreprocess (df : DataFrame)
| EvPredict (df : DataFrame)
| EvPredictProba (df : DataFrame)
| EvAddAll (objs : list TransactionModel.t)
| EvCommit
| EvRollback.

Record World : Type := {
  model_file : Artifact;                  (* the file at MODEL_PATH *)
  committed : list TransactionModel.t;    (* table [transactions] *)
  pending : list TransactionModel.t;      (* objects added to the session *)
  db_fault : option string;               (* the error a commit meets, if any *)
  uuid_count : nat;                       (* identifiers drawn so far *)
  trace : list Event
}.

Definition M (A : Type) : Type := World -> outcome A * World.

Definition ret {A} (a : A) : M A := fun w => (Return a, w).

Definition raise {A} (e : exn) : M A := fun w => (Raise e, w).

Definition bind {A B} (c : M A) (k : A -> M B) : M B :=
  fun w =>
    match c w with
    | (Return a, w') => k a w'
    | (Raise e, w') => (Raise e, w')
    end.

(** [try: c / except Exception as e: handler e]; [HTTPException] is an
    [Exception] too. *)
Definition try_except {A} (c : M A) (handler : exn -> M A) : M A :=
  fun w =>
    match c w with
    | (Return a, w') => (Return a, w')
    | (Raise e, w') => handler e w'
    end.

Declare Scope py_scope.
Delimit Scope py_scope with py.
Notation "x <- c ;; k" := (bind c (fun x => k))
  (at level 61, c at next level, right associativity) : py_scope.
Notation "c ;;; k" := (bind c (fun _ => k))
  (at level 61, right associativity) : py_scope.
Local Open Scope py_scope.

Definition log (ev : Event) : M unit :=
  fun w =>
    (Return tt,
     {| model_file := model_file w; committed := committed w;
        pending := pending w; db_fault := db_fault w;
        uuid_count := uuid_count w; trace := (trace w ++ [ev])%list |}).

(** The world after the events [evs]. *)
Definition emit (evs : list Event) (w : World) : World :=
  {| model_file := model_file w; committed := committed w;
     pending := pending w; db_fault := db_fault w;
     uuid_count := uuid_count w; trace := (trace w ++ evs)%list |}.

(** A library call that returns or raises. *)
Definition of_sum {A} (r : string + A) : M A :=
  match r with
  | inr a => ret a
  | inl msg => raise (PyError msg)
  end.

Definition of_option {A} (msg : string) (o : option A) : M A :=
  match o with
  | Some a => ret a
  | None => raise (PyError msg)
  end.

(** [str(e)]; Starlette prints an [HTTPException] as [status: detail]. *)
Definition exn_str (e : exn) : string :=
  match e with
  | PyError msg => msg
  | HTTPException code detail =>
      NilZero.string_of_int (Z.to_int code) ++ ": " ++ detail
  end.

Definition set_session (c p : list TransactionModel.t) (w : World) : World :=
  {| model_file := model_file w; committed := c; pending := p;
     db_fault := db_fault w; uuid_count := uuid_count w; trace := trace w |}.

(** [pd.NaT], the value [pd.to_datetime] gives where there is no time to
    read (an empty string, a missing cell).  pandas keeps it as the
    smallest 64-bit integer; it is the time of no transaction, and the
    database refuses it as a parameter of a statement. *)
Definition NaT : Z := -9223372036854775808.

(** ** Collaborators

    Code the handlers import and that is given by the environment:
    [auth_utils.decode_token], [model.preprocessing.preprocess_data], the
    pandas and builtin conversions of a cell, the CSV reader and the
    identifier generator.  [inl msg] and [None] are raised exceptions;
    [pd.to_datetime] raises on what it cannot parse and returns [NaT],
    without raising, where there is nothing to parse. *)

Class Collaborators : Type := {
  TokenPayload : Type;
  decode_token : string -> string + TokenPayload;
  preprocess_data : DataFrame -> string + DataFrame;
  to_datetime : Cell -> option Z;          (* pd.to_datetime; [Some NaT] is NaT *)
  float_of_cell : Cell -> option float;    (* float(x) *)
  str_of_cell : Cell -> string;            (* str(x) *)
  read_csv : string -> option DataFrame;   (* pd.read_csv(file, comment='#', ...) *)
  uuid4 : nat -> string;                   (* the n-th identifier drawn *)
  lookup_error : string;                   (* text of an IndexError or KeyError *)
  nat_error : string                       (* text of the error of a statement on NaT *)
}.

Section Handlers.

Context {collab : Collaborators}.

(** *** Calls to the environment *)

(** [MODEL_PATH.exists()] *)
Definition model_path_exists : M bool :=
  fun w =>
    (Return match model_file w with Missing => false | _ => true end, w).

(** [joblib.load(MODEL_PATH)] *)
Definition joblib_load : M Pipeline :=
  log EvLoad ;;;
  fun w =>
    match model_file w with
    | Loadable p => (Return p, w)
    | Corrupt msg => (Raise (PyError msg), w)
    | Missing => (Raise (PyError "No such file or directory"), w)
    end.

Definition call_decode_token (token : string) : M TokenPayload :=
  log (EvDecode token) ;;; of_sum (decode_token token).

Definition call_preprocess_data (df : DataFrame) : M DataFrame :=
  log (EvPreprocess df) ;;; of_sum (preprocess_data df).

Definition call_predict (p : Pipeline) (df : DataFrame) : M (list Z) :=
  log (EvPredict df) ;;; of_sum (predict p df).

Definition call_predict_proba (p : Pipeline) (df : DataFrame)
  : M (list (list float)) :=
  log (EvPredictProba df) ;;; of_sum (predict_proba p df).

(** [str(uuid.uuid4())] *)
Definition new_uuid : M string :=
  fun w =>
    (Return (uuid4 (uuid_count w)),
     {| model_file := model_file w; committed := committed w;
        pending := pending w; db_fault := db_fault w;
        uuid_count := S (uuid_count w); trace := trace w |}).

(** *** The session *)

(** Insertion of a row into a list ordered by descending timestamp,
    after the rows with the same timestamp. *)
Fixpoint insert_desc (r : TransactionModel.t) (l : list TransactionModel.t)
  : list TransactionModel.t :=
  match l with
  | [] => [r]
  | x :: rest =>
      if TransactionModel.timestamp x <? TransactionModel.timestamp r
      then r :: l
      else x :: insert_desc r rest
  end.

(** [ORDER BY timestamp DESC]; rows with equal timestamps keep their
    table order. *)
Definition order_by_timestamp_desc (l : list TransactionModel.t)
  : list TransactionModel.t :=
  fold_right insert_desc [] l.

(** The query of [predict_fraud]:
    [select(T).where(T.user_id == uid).where(T.timestamp < before)
     .order_by(T.timestamp.desc()).limit(50)] on the stored rows. *)
Definition select_history (table : list TransactionModel.t)
           (uid : string) (before : Z) : list TransactionModel.t :=
  firstn 50
    (order_by_timestamp_desc
       (filter (fun r =>
                  String.eqb (TransactionModel.user_id r) uid
                  && (TransactionModel.timestamp r <? before))
               table)).

(** [db.scalars(...).all()] on that query.  The bound [before] is a
    parameter of the statement: when it is [NaT] the statement cannot be
    executed and the call raises. *)
Definition query_history (uid : string) (before : Z)
  : M (list TransactionModel.t) :=
  log (EvQuery uid before) ;;;
  fun w =>
    (if before =? NaT then Raise (PyError nat_error)
     else Return (select_history (committed w) uid before), w).

(** [db.add_all(objs)] *)
Definition db_add_all (objs : list TransactionModel.t) : M unit :=
  log (EvAddAll objs) ;;;
  fun w => (Return tt, set_session (committed w) (pending w ++ objs)%list w).

(** An object the database can take: its timestamp is a time. *)
Definition storable (r : TransactionModel.t) : bool :=
  negb (TransactionModel.timestamp r =? NaT).

(** [db.commit()]: the pending objects reach the table together, or the
    commit raises and the table is as before.  The commit raises when
    the storage fails and when a pending object carries [NaT], which
    cannot be a parameter of the insertion. *)
Definition db_commit : M unit :=
  log EvCommit ;;;
  fun w =>
    match db_fault w with
    | None =>
        if forallb storable (pending w)
        then (Return tt, set_session (committed w ++ pending w)%list [] w)
        else (Raise (PyError nat_error), w)
    | Some msg => (Raise (PyError msg), w)
    end.

(** [db.rollback()] *)
Definition db_rollback : M unit :=
  log EvRollback ;;;
  fun w => (Return tt, set_session (committed w) [] w).

(** *** Frames *)

(** [pd.DataFrame(records)] for dictionaries that share their keys. *)
Definition frame_of_records (records : list (list (string * Cell)))
  : DataFrame :=
  {| columns := match records with
                | [] => []
                | d :: _ => map fst d
                end;
     rows := map (map snd) records |}.

(** [c in df.columns] *)
Definition has_column (df : DataFrame) (c : string) : bool :=
  PySeq.contains String.eqb c (columns df).

(** [df[c] = v] for a column that is not there yet. *)
Definition add_column (df : DataFrame) (c : string) (v : Cell) : DataFrame :=
  {| columns := (columns df ++ [c])%list;
     rows := map (fun r => (r ++ [v])%list) (rows df) |}.

(** [df.iloc[[-1]]] *)
Definition iloc_last (df : DataFrame) : M DataFrame :=
  r <- of_option lookup_error (PySeq.getitem (rows df) (-1)) ;;
  ret {| columns := columns df; rows := [r] |}.

(** The cell [df.iloc[i][c]], if row and column exist. *)
Definition cell_at (df : DataFrame) (i : nat) (c : string) : option Cell :=
  match PySeq.getitem (rows df) (Z.of_nat i) with
  | None => None
  | Some r =>
      match PySeq.index String.eqb c (columns df) with
      | None => None
      | Some k => nth_error r k
      end
  end.

(** [df.iloc[i][c]] *)
Definition iloc_cell (df : DataFrame) (i : nat) (c : string) : M Cell :=
  of_option lookup_error (cell_at df i c).

(** *** [require_token] *)

Definition dev_token : string := "hardcoded-dev-token-for-deployment".

Definition require_token (authorization : string) : M unit :=
  if negb (PyStr.startswith authorization "Bearer ") then
    raise (HTTPException 401 "Missing bearer token")
  else
    let token := PyStr.strip (PyStr.replace authorization "Bearer " "") in
    if String.eqb token dev_token then ret tt
    else
      try_except
        (call_decode_token token ;;; ret tt)
        (fun _ => raise (HTTPException 401 "Invalid token")).

(** *** [predict_fraud] *)

(** The dictionary built for a stored row. *)
Definition history_record (row : TransactionModel.t) : list (string * Cell) :=
  [ ("Timestamp", CTime (TransactionModel.timestamp row));
    ("UserID", CStr (TransactionModel.user_id row));
    ("Amount", CFloat (TransactionModel.amount row));
    ("City", CStr (TransactionModel.city row));
    ("Category", CStr (TransactionModel.category row));
    ("Fraud_Type", CInt 0) ].

(** The dictionary built for the transaction of the request. *)
Definition current_record (txn : PredictionRequest.t) (current_ts : Z)
  : list (string * Cell) :=
  [ ("Timestamp", CTime current_ts);
    ("UserID", CStr (PredictionRequest.user_id txn));
    ("Amount", CFloat (PredictionRequest.amount txn));
    ("City", CStr (PredictionRequest.city txn));
    ("Category", CStr (PredictionRequest.category txn));
    ("Fraud_Type", CInt 0) ].

(** [history_data] once the current transaction is appended: the rows of
    the query in the order the query gave them, then the new one. *)
Definition history_data (history_rows : list TransactionModel.t)
           (txn : PredictionRequest.t) (current_ts : Z)
  : list (list (string * Cell)) :=
  (map history_record history_rows ++ [current_record txn current_ts])%list.

(** The body of the last [try] of [predict_fraud]. *)
Definition predict_last_row (pipeline : Pipeline) (last_row : DataFrame)
  : M PredictionResponse.t :=
  preds <- call_predict pipeline last_row ;;
  pred <- of_option lookup_error (PySeq.getitem preds 0) ;;
  all_probs <- call_predict_proba pipeline last_row ;;
  probs <- of_option lookup_error (PySeq.getitem all_probs 0) ;;
  let classes := classes_ pipeline in
  fraud_prob <-
    (if PySeq.contains Z.eqb 0 classes then
       normal_idx <- of_option lookup_error (PySeq.index Z.eqb 0 classes) ;;
       p <- of_option lookup_error (PySeq.getitem probs (Z.of_nat normal_idx)) ;;
       ret (1.0 - p)%float
     else ret 1.0%float) ;;
  let risk_score := (fraud_prob * 100)%float in
  let is_fraud := negb (pred =? 0) in
  let status := if is_fraud then "Suspicious" else "Safe" in
  ret {| PredictionResponse.is_fraud := is_fraud;
         PredictionResponse.risk_score := risk_score;
         PredictionResponse.status := status |}.

(** [predict_fraud] from [# Process] on: the frame is preprocessed and
    the last row of the result is scored. *)
Definition predict_from_frame (pipeline : Pipeline) (df : DataFrame)
  : M PredictionResponse.t :=
  df_processed <- try_except (call_preprocess_data df)
                    (fun e => raise (HTTPException 500
                                       ("Preprocessing failed: " ++ exn_str e))) ;;
  last_row <- iloc_last df_processed ;;
  try_except (predict_last_row pipeline last_row)
    (fun e => raise (HTTPException 500
                       ("Prediction failed: " ++ exn_str e))).

Definition predict_fraud (txn : PredictionRequest.t)
  : M PredictionResponse.t :=
  present <- model_path_exists ;;
  if negb present then
    raise (HTTPException 500
             "Model not found. Please train using train_model.py first.")
  else
    pipeline <- try_except joblib_load
                  (fun _ => raise (HTTPException 500 "Failed to load model")) ;;
    current_ts <- try_except
                    (of_option "Unknown datetime string format"
                       (to_datetime (CStr (PredictionRequest.timestamp txn))))
                    (fun _ => raise (HTTPException 400
                                       "Invalid timestamp format")) ;;
    history_rows <- query_history (PredictionRequest.user_id txn) current_ts ;;
    let df := frame_of_records (history_data history_rows txn current_ts) in
    predict_from_frame pipeline df.

(** *** [upload_csv] *)

Definition required_cols : list string :=
  ["Timestamp"; "UserID"; "Amount"; "City"; "Category"].

(** The first lines of a turn of the loop over [enumerate(preds)]:
    [fraud_prob], [risk] and [status] of row [i]. *)
Definition risk_and_status (probs : list (list float)) (normal_idx : Z)
           (i : nat) (pred : Z) : M (float * string) :=
  fraud_prob <-
    (if negb (normal_idx =? -1) then
       row <- of_option lookup_error (PySeq.getitem probs (Z.of_nat i)) ;;
       p <- of_option lookup_error (PySeq.getitem row normal_idx) ;;
       ret (1.0 - p)%float
     else ret 1.0%float) ;;
  let risk := (fraud_prob * 100)%float in
  let status := if negb (pred =? 0) then "Suspicious" else "Safe" in
  ret (risk, status).

(** One turn of the loop: the [TransactionModel] appended to
    [new_txns].  A cell that [pd.to_datetime] reads as [NaT] gives an
    object whose timestamp is [NaT]: [to_pydatetime] leaves it so, and it
    is the commit that refuses the object. *)
Definition score_row (df : DataFrame) (probs : list (list float))
           (normal_idx : Z) (i : nat) (pred : Z) : M TransactionModel.t :=
  rs <- risk_and_status probs normal_idx i pred ;;
  let '(risk, status) := rs in
  new_id <- new_uuid ;;
  c_ts <- iloc_cell df i "Timestamp" ;;
  ts <- of_option "Unknown datetime string format" (to_datetime c_ts) ;;
  c_amount <- iloc_cell df i "Amount" ;;
  amount <- of_option "could not convert to float" (float_of_cell c_amount) ;;
  c_user <- iloc_cell df i "UserID" ;;
  c_city <- iloc_cell df i "City" ;;
  c_category <- iloc_cell df i "Category" ;;
  risk_int <- of_option "cannot convert float to integer" (py_int risk) ;;
  ret {| TransactionModel.id := new_id;
         TransactionModel.timestamp := ts;
         TransactionModel.amount := amount;
         TransactionModel.user_id := str_of_cell c_user;
         TransactionModel.city := str_of_cell c_city;
         TransactionModel.category := str_of_cell c_category;
         TransactionModel.risk_score := risk_int;
         TransactionModel.status := status;
         TransactionModel.flag_type := None;
         TransactionModel.flag_reason := None;
         TransactionModel.is_training_data := false |}.

(** The loop [for i, pred in enumerate(preds)], from index [i] on; the
    result is [new_txns]. *)
Fixpoint score_rows (df : DataFrame) (probs : list (list float))
         (normal_idx : Z) (i : nat) (preds : list Z)
  : M (list TransactionModel.t) :=
  match preds with
  | [] => ret []
  | pred :: rest =>
      t <- score_row df probs normal_idx i pred ;;
      ts <- score_rows df probs normal_idx (S i) rest ;;
      ret (t :: ts)
  end.

(** [list(classes).index(0) if 0 in classes else -1] *)
Definition normal_index (classes : list Z) : M Z :=
  if PySeq.contains Z.eqb 0 classes
  then i <- of_option lookup_error (PySeq.index Z.eqb 0 classes) ;;
       ret (Z.of_nat i)
  else ret (-1).

(** The frame handed to [preprocess_data]: [Fraud_Type] is added when
    the upload has no such column. *)
Definition with_fraud_type (df : DataFrame) : DataFrame :=
  if negb (has_column df "Fraud_Type")
  then add_column df "Fraud_Type" (CInt 0) else df.

(** The required columns that the frame lacks. *)
Definition missing_columns (df : DataFrame) : list string :=
  filter (fun c => negb (has_column df c)) required_cols.

(** [upload_csv] from [# Validate columns] on, for the loaded pipeline
    and the frame read from the file. *)
Definition upload_frame (pipeline : Pipeline) (df0 : DataFrame)
  : M UploadResult :=
  let missing := missing_columns df0 in
  if negb (Nat.eqb (List.length missing) 0) then
    raise (HTTPException 400 ("Missing columns: " ++ PyStr.repr_list missing))
  else
    let df := with_fraud_type df0 in
    df_processed <- try_except (call_preprocess_data df)
                      (fun e => raise (HTTPException 500
                                         ("Preprocessing failed: " ++ exn_str e))) ;;
    scored <- try_except
                (preds <- call_predict pipeline df_processed ;;
                 probs <- call_predict_proba pipeline df_processed ;;
                 let classes := classes_ pipeline in
                 normal_idx <- normal_index classes ;;
                 ret (preds, probs, normal_idx))
                (fun e => raise (HTTPException 500
                                   ("Model prediction failed: " ++ exn_str e))) ;;
    let '(preds, probs, normal_idx) := scored in
    new_txns <- score_rows df probs normal_idx 0 preds ;;
    try_except (db_add_all new_txns ;;; db_commit)
      (fun e => db_rollback ;;;
                raise (HTTPException 500 ("Database error: " ++ exn_str e))) ;;;
    ret {| success := true;
           message := "File processed and transactions stored.";
           rowsProcessed := List.length new_txns |}.

Definition upload_csv (file_ : UploadFile) : M UploadResult :=
  if negb (PyStr.endswith (filename file_) ".csv") then
    raise (HTTPException 400 "Only CSV files are supported")
  else
  present <- model_path_exists ;;
  if negb present then
    raise (HTTPException 400
             "Model not found. Please train using model/train.py first.")
  else
    pipeline <- try_except joblib_load
                  (fun _ => raise (HTTPException 500 "Failed to load model")) ;;
    df0 <- try_except (of_option "Error tokenizing data" (read_csv (file file_)))
             (fun _ => raise (HTTPException 400 "Unable to read CSV")) ;;
    upload_frame pipeline df0.

(** *** The routes

    FastAPI resolves the dependencies named in a handler's signature
    before it calls the handler: [get_db] opens a session and closes it
    afterwards, [require_token] reads the [Authorization] header.
    [predict_fraud] names [get_db] only; [upload_csv] names both. *)

(** [get_db]: a fresh session around the handler, closed in [finally]. *)
Definition get_db {A} (handler : M A) : M A :=
  fun w =>
    let '(r, w') := handler (set_session (committed w) [] w) in
    (r, set_session (committed w') [] w').

Definition post_predict (authorization : string) (txn : PredictionRequest.t)
  : M PredictionResponse.t :=
  get_db (predict_fraud txn).

Definition post_upload (authorization : string) (file_ : UploadFile)
  : M UploadResult :=
  require_token authorization ;;; get_db (upload_csv file_).

(** The status line of the response. *)
Definition response_status {A} (r : outcome A) : Z :=
  match r with
  | Return _ => 200
  | Raise (HTTPException code _) => code
  | Raise (PyError _) => 500
  end.

End Handlers.

Arguments select_history : simpl never.
Arguments history_data : simpl never.
Arguments frame_of_records : simpl never.
Arguments predict_from_frame : simpl never.
Arguments score_rows : simpl never.
Arguments with_fraud_type : simpl never.
Arguments missing_columns : simpl never.
Arguments has_column : simpl never.
Arguments upload_frame : simpl never.
Arguments cell_at : simpl never.
Arguments py_int : simpl never.

(** The history window as the specification describes it: the result of
    the query, reversed into ascending order, then the new transaction. *)
Definition spec_history_data
           (history_rows : list TransactionModel.t)
           (txn : PredictionRequest.t) (current_ts : Z)
  : list (list (string * Cell)) :=
  (map history_record (rev history_rows) ++ [current_record txn current_ts])%list.

(** ** A process serving requests *)

Inductive Request : Type :=
| PostPredict (authorization : string) (txn : PredictionRequest.t)
| PostUpload (authorization : string) (file_ : UploadFile).

Definition serve `{Collaborators} (r : Request) (w : World) : World :=
  match r with
  | PostPredict a txn => snd (post_predict a txn w)
  | PostUpload a f => snd (post_upload a f w)
  end.

Definition serve_all `{Collaborators} (rs : list Request) (w : World) : World :=
  fold_left (fun w r => serve r w) rs w.

(** The number of [joblib.load] calls in a trace. *)
Fixpoint count_loads (tr : list Event) : nat :=
  match tr with
  | [] => O
  | EvLoad :: rest => S (count_loads rest)
  | _ :: rest => count_loads rest
  end.

(** The [Timestamp] column of every frame handed to [preprocess_data],
    in the order of the calls. *)
Definition fed_timestamps (tr : list Event) : list (list (option Cell)) :=
  flat_map (fun ev => match ev with
                      | EvPreprocess df => [map (@hd_error Cell) (rows df)]
                      | _ => []
                      end) tr.

(** The events that score or store rows. *)
Definition scores_or_persists (ev : Event) : bool :=
  match ev with
  | EvPreprocess _ | EvPredict _ | EvPredictProba _
  | EvAddAll _ | EvCommit => true
  | _ => false
  end.

(** ** Stand-ins for the collaborators, to run the handlers on *)

Module Fixtures.

Definition features (df : DataFrame) : string + DataFrame :=
  match rows df with
  | [] => inl "empty frame"
  | _ => inr df
  end.

(** *** Times

    The texts of the examples are ISO 8601 dates with a time of day,
    [2024-01-03T00:00:00] or [2024-01-03 00:00:00]; [iso_time] reads
    such a text as the count of microseconds since 1970-01-01, and
    nothing else. *)

Definition digit (c : ascii) : option Z :=
  let n := Z.of_nat (nat_of_ascii c) in
  if (48 <=? n) && (n <=? 57) then Some (n - 48) else None.

Fixpoint number (cs : list ascii) (acc : Z) : option Z :=
  match cs with
  | [] => Some acc
  | c :: rest =>
      match digit c with
      | Some d => number rest (10 * acc + d)
      | None => None
      end
  end.

(** The digits of [s] from [start], [len] of them. *)
Definition field (s : string) (start len : nat) : option Z :=
  number (list_ascii_of_string (String.substring start len s)) 0.

Definition leap (y : Z) : bool :=
  ((y mod 4 =? 0) && negb (y mod 100 =? 0)) || (y mod 400 =? 0).

Definition days_in_month (y m : Z) : Z :=
  if m =? 2 then (if leap y then 29 else 28)
  else if (m =? 4) || (m =? 6) || (m =? 9) || (m =? 11) then 30
  else 31.

(** The days from 1970-01-01 to the day [d] of month [m] of year [y]. *)
Definition days_from_civil (y m d : Z) : Z :=
  let y' := if m <=? 2 then y - 1 else y in
  let era := y' / 400 in
  let yoe := y' - era * 400 in
  let doy := (153 * ((m + 9) mod 12) + 2) / 5 + d - 1 in
  let doe := yoe * 365 + yoe / 4 - yoe / 100 + doy in
  era * 146097 + doe - 719468.

Definition is_char (s : string) (i : nat) (cs : list string) : bool :=
  existsb (String.eqb (String.substring i 1 s)) cs.

Definition iso_time (s : string) : option Z :=
  if negb (Nat.eqb (String.length s) 19
           && is_char s 4 ["-"] && is_char s 7 ["-"]
           && is_char s 10 ["T"; " "]
           && is_char s 13 [":"] && is_char s 16 [":"])
  then None
  else
    match field s 0 4, field s 5 2, field s 8 2,
          field s 11 2, field s 14 2, field s 17 2 with
    | Some y, Some m, Some d, Some h, Some mi, Some sec =>
        if (1 <=? m) && (m <=? 12) && (1 <=? d) && (d <=? days_in_month y m)
           && (h <? 24) && (mi <? 60) && (sec <? 60)
        then Some ((((days_from_civil y m d * 24 + h) * 60 + mi) * 60 + sec)
                   * 1000000)
        else None
    | _, _, _, _, _, _ => None
    end.

(** [pd.to_datetime] on the cells of the examples: a datetime is itself,
    an empty text is [NaT], an ISO text is its time; any other text, like
    [next tuesday] or [3], is turned down. *)
Definition parse_time (c : Cell) : option Z :=
  match c with
  | CTime t => Some t
  | CStr EmptyString => Some NaT
  | CStr s => iso_time s
  | CInt _ | CFloat _ => None
  end.

(** Midnight of the first days of January 2024. *)
Definition jan1 : Z := 1704067200000000.
Definition jan2 : Z := 1704153600000000.
Definition jan3 : Z := 1704240000000000.

Definition frame_good : DataFrame :=
  {| columns := ["Timestamp"; "UserID"; "Amount"; "City"; "Category"];
     rows := [ [CStr "2024-01-01 10:00:00"; CStr "u1"; CFloat 25;
                CStr "Pune"; CStr "food"];
               [CStr "2024-01-02 11:30:00"; CStr "u2"; CFloat 9000;
                CStr "Goa"; CStr "gold"] ] |}.

Definition frame_no_city : DataFrame :=
  {| columns := ["Timestamp"; "UserID"; "Amount"; "Category"];
     rows := [ [CStr "2024-01-01 10:00:00"; CStr "u1"; CFloat 25;
                CStr "food"] ] |}.

(** A batch whose second row has an empty timestamp. *)
Definition frame_blank_time : DataFrame :=
  {| columns := ["Timestamp"; "UserID"; "Amount"; "City"; "Category"];
     rows := [ [CStr "2024-01-01 10:00:00"; CStr "u1"; CFloat 25;
                CStr "Pune"; CStr "food"];
               [CStr EmptyString; CStr "u2"; CFloat 9000;
                CStr "Goa"; CStr "gold"] ] |}.

Definition csv (content : string) : option DataFrame :=
  if String.eqb content "good" then Some frame_good
  else if String.eqb content "no-city" then Some frame_no_city
  else if String.eqb content "blank-time" then Some frame_blank_time
  else None.

#[local] Instance collab : Collaborators := {|
  TokenPayload := string;
  decode_token := fun tok =>
    if String.eqb tok "signed.jwt.token" then inr "analyst@anomalyse.bank"
    else inl "Signature verification failed";
  preprocess_data := features;
  to_datetime := parse_time;
  float_of_cell := fun c => match c with CFloat f => Some f | _ => None end;
  str_of_cell := fun c => match c with CStr s => s | _ => EmptyString end;
  read_csv := csv;
  uuid4 := fun n => "uuid-" ++ NilZero.string_of_uint (Nat.to_uint n);
  lookup_error := "index out of range";
  nat_error := "cannot convert float NaN to integer"
|}.

(** A two-class model: a row is fraud when its amount exceeds 1000. *)
Definition large (r : list Cell) : bool :=
  match nth_error r 2 with
  | Some (CFloat a) => PrimFloat.ltb 1000 a
  | _ => false
  end.

Definition pipeline : Pipeline :=
  {| classes_ := [0; 1];
     predict := fun df => inr (map (fun r => if large r then 1 else 0) (rows df));
     predict_proba := fun df =>
       inr (map (fun r => if large r then [0; 1]%float else [1; 0]%float)
                (rows df)) |}.

(** A model trained without the normal class. *)
Definition pipeline_no_normal : Pipeline :=
  {| classes_ := [1; 2];
     predict := fun df => inr (map (fun _ => 2) (rows df));
     predict_proba := fun df =>
       inr (map (fun _ => [0.25; 0.75]%float) (rows df)) |}.

Definition stored (i : string) (ts : Z) (uid : string) : TransactionModel.t :=
  {| TransactionModel.id := i;
     TransactionModel.timestamp := ts;
     TransactionModel.amount := 10;
     TransactionModel.user_id := uid;
     TransactionModel.city := "Pune";
     TransactionModel.category := "food";
     TransactionModel.risk_score := 0;
     TransactionModel.status := "Safe";
     TransactionModel.flag_type := None;
     TransactionModel.flag_reason := None;
     TransactionModel.is_training_data := false |}.

Definition world (a : Artifact) (table : list TransactionModel.t)
           (fault : option string) : World :=
  {| model_file := a; committed := table; pending := [];
     db_fault := fault; uuid_count := O; trace := [] |}.

Definition table2 : list TransactionModel.t :=
  [stored "a" jan1 "u1"; stored "b" jan2 "u1"].

Definition request (ts : string) (uid : string) (amt : float)
  : PredictionRequest.t :=
  {| PredictionRequest.timestamp := ts;
     PredictionRequest.amount := amt;
     PredictionRequest.user_id := uid;
     PredictionRequest.city := "Goa";
     PredictionRequest.category := "gold" |}.

Definition upload (name content : string) : UploadFile :=
  {| filename := name; file := content |}.

Definition dev_header : string :=
  "Bearer hardcoded-dev-token-for-deployment".

Definition last_large : DataFrame :=
  {| columns := ["Timestamp"; "UserID"; "Amount"; "City"; "Category";
                 "Fraud_Type"];
     rows := [[CTime jan3; CStr "u1"; CFloat 5000; CStr "Goa"; CStr "gold";
               CInt 0]] |}.

Definition good_txns : list TransactionModel.t :=
  [ {| TransactionModel.id := "uuid-0";
       TransactionModel.timestamp := 1704103200000000;
       TransactionModel.amount := 25;
       TransactionModel.user_id := "u1";
       TransactionModel.city := "Pune";
       TransactionModel.category := "food";
       TransactionModel.risk_score := 0;
       TransactionModel.status := "Safe";
       TransactionModel.flag_type := None;
       TransactionModel.flag_reason := None;
       TransactionModel.is_training_data := false |};
    {| TransactionModel.id := "uuid-1";
       TransactionModel.timestamp := 1704195000000000;
       TransactionModel.amount := 9000;
       TransactionModel.user_id := "u2";
       TransactionModel.city := "Goa";
       TransactionModel.category := "gold";
       TransactionModel.risk_score := 100;
       TransactionModel.status := "Suspicious";
       TransactionModel.flag_type := None;
       TransactionModel.flag_reason := None;
       TransactionModel.is_training_data := false |} ].

End Fixtures.

(** ** The decision rule as the specification words it *)

Definition spec_fraud_probability (p_normal : float) : float :=
  (1 - p_normal)%float.

Definition spec_risk_score (fraud_probability : float) : float :=
  (fraud_probability * 100)%float.

Definition spec_status (label : Z) : string :=
  if label =? 0 then "Safe" else "Suspicious".

Definition spec_scored (label : Z) (p_normal : float) : PredictionResponse.t :=
  {| PredictionResponse.is_fraud := negb (label =? 0);
     PredictionResponse.risk_score :=
       spec_risk_score (spec_fraud_probability p_normal);
     PredictionResponse.status := spec_status label |}.

(** The order of a list that runs from the newest row to the oldest. *)
Definition newer_or_equal (a b : TransactionModel.t) : Prop :=
  TransactionModel.timestamp b <= TransactionModel.timestamp a.

(** The index of label 0 among the classes, or the sentinel [-1]. *)
Definition normal_idx_of (classes : list Z) : Z :=
  match PySeq.index Z.eqb 0 classes with
  | Some k => Z.of_nat k
  | None => -1
  end.

(** The world after [n] identifiers are drawn. *)
Definition draw (n : nat) (w : World) : World :=
  {| model_file := model_file w; committed := committed w;
     pending := pending w; db_fault := db_fault w;
     uuid_count := (n + uuid_count w)%nat; trace := trace w |}.

(** The fraud probability of row [i] of a batch, when the probabilities
    reach that far. *)
Definition fraud_prob_at (probs : list (list float)) (normal_idx : Z) (i : nat)
  : option float :=
  if normal_idx =? -1 then Some 1%float
  else match PySeq.getitem probs (Z.of_nat i) with
       | None => None
       | Some row =>
           match PySeq.getitem row normal_idx with
           | None => None
           | Some p => Some (1 - p)%float
           end
       end.

(** The stored transaction of row [i] of a batch with label [pred] and
    identifier [new_id], when the row has its five cells, the timestamp
    converts to a time, the amount converts and the risk is a finite
    number: what a turn of the loop of [upload_csv] appends, when nothing
    raises, and the database can take. *)
Definition build_txn `{Collaborators} (df : DataFrame)
           (probs : list (list float)) (normal_idx : Z) (i : nat)
           (pred : Z) (new_id : string) : option TransactionModel.t :=
  match fraud_prob_at probs normal_idx i,
        cell_at df i "Timestamp", cell_at df i "Amount",
        cell_at df i "UserID", cell_at df i "City", cell_at df i "Category" with
  | Some fraud_prob, Some c_ts, Some c_amount,
    Some c_user, Some c_city, Some c_category =>
      match to_datetime c_ts, float_of_cell c_amount,
            py_int (fraud_prob * 100)%float with
      | Some ts, Some amount, Some risk_int =>
          if ts =? NaT then None
          else
          Some {| TransactionModel.id := new_id;
                  TransactionModel.timestamp := ts;
                  TransactionModel.amount := amount;
                  TransactionModel.user_id := str_of_cell c_user;
                  TransactionModel.city := str_of_cell c_city;
                  TransactionModel.category := str_of_cell c_category;
                  TransactionModel.risk_score := risk_int;
                  TransactionModel.status := spec_status pred;
                  TransactionModel.flag_type := None;
                  TransactionModel.flag_reason := None;
                  TransactionModel.is_training_data := false |}
      | _, _, _ => None
      end
  | _, _, _, _, _, _ => None
  end.

(** A computation that leaves the file of the model alone and only
    appends events accepted by [ok] to the trace. *)
Definition emits_only (ok : Event -> bool) {A} (c : M A) : Prop :=
  forall w,
    model_file (snd (c w)) = model_file w
    /\ exists evs,
         trace (snd (c w)) = (trace w ++ evs)%list /\ forallb ok evs = true.

(** [MODEL_PATH.exists()] as a function of the world. *)
Definition model_present (a : Artifact) : bool :=
  match a with Missing => false | _ => true end.

(** The token that [require_token] extracts from the header. *)
Definition token_of (authorization : string) : string :=
  PyStr.strip (PyStr.replace authorization "Bearer " "").

(** The headers that [require_token] lets through. *)
Definition authorized `{Collaborators} (authorization : string) : bool :=
  PyStr.startswith authorization "Bearer "
  && (String.eqb (token_of authorization) dev_token
      || match decode_token (token_of authorization) with
         | inr _ => true
         | inl _ => false
         end).

(** The requests that get as far as [joblib.load]. *)
Definition loads_model `{Collaborators} (a : Artifact) (r : Request) : bool :=
  match r with
  | PostPredict _ _ => model_present a
  | PostUpload authorization file_ =>
      authorized authorization
      && PyStr.endswith (filename file_) ".csv"
      && model_present a
  end.

Definition not_load (ev : Event) : bool :=
  match ev with EvLoad => false | _ => true end.

(** * The other routes of [backend/main.py] *)

(** ** Values of [json.loads] *)

#[local] Unset Elimination Schemes.

Inductive Json : Type :=
| JNull
| JBool (b : bool)
| JNum (raw : string)
| JStr (s : string)
| JList (items : list Json)
| JDict (entries : list (string * Json)).

#[local] Set Elimination Schemes.

(** [d.get(key)] on a dictionary, whose keys are distinct; [None] in
    Python is [JNull]. *)
Fixpoint dict_get (entries : list (string * Json)) (key : string) : Json :=
  match entries with
  | [] => JNull
  | (k, v) :: rest => if String.eqb k key then v else dict_get rest key
  end.

(** [x.get(key)]: only a dictionary has the method; [None] is the
    [AttributeError] of the other values. *)
Definition json_get (x : Json) (key : string) : option Json :=
  match x with
  | JDict entries => Some (dict_get entries key)
  | _ => None
  end.

(** ** Records of the other routes *)

Module User.
Record t : Type := {
  id : Z;
  email : string;
  password_hash : string;
  role : string
}.
End User.

Record LoginRequest : Type := {
  login_email : string;
  login_password : string
}.

Record TokenResponse : Type := {
  access_token : string;
  token_type : string
}.

(** The pydantic model [Transaction] of the listing. *)
Module TransactionOut.
Record t : Type := {
  id : string;
  timestamp : string;
  amount : float;
  user_id : string;
  city : string;
  category : string;
  riskScore : float;
  status : string;
  flag_type : option string;
  flag_reason : option string;
  flags : list (list (string * string))
}.
End TransactionOut.

(** A row of [fraudTrend]: a day and its two counts. *)
Record TrendRow : Type := {
  trend_date : Z;
  fraudCount : nat;
  safeCount : nat
}.

Record MetricsResponse : Type := {
  totalTransactions : nat;
  flaggedTransactions : nat;
  overallRiskScore : float;
  fraudTrend : list TrendRow;
  riskDistribution : list (string * nat)
}.

(** The dictionary [clear_transactions] returns. *)
Record ClearResult : Type := {
  clear_success : bool;
  deleted : nat
}.

(** ** Collaborators of the other routes

    [auth_utils.hash_password], [verify_password] and
    [create_access_token], [json.loads], [datetime.isoformat], [float] on
    an integer, the identifier the database gives a new user and the
    [AVG] of the database ([None] is its [NULL] on no rows). *)

Class AppCollaborators : Type := {
  hash_password : string -> string;
  verify_password : string -> string -> bool;
  create_access_token : string -> string;
  json_loads : string -> option Json;
  isoformat : Z -> string;
  float_of_int : Z -> option float;
  next_user_id : list User.t -> Z;
  sql_avg : list Z -> option float
}.

Section OtherRoutes.

Context {collab : Collaborators} {app : AppCollaborators}.

(** *** The seeded user and [login] *)

(** [db.scalar(select(User).where(User.email == email))]; the emails
    are compared exactly, as the default SQLite database compares
    them. *)
Definition user_by_email (users : list User.t) (email : string)
  : option User.t :=
  find (fun u => String.eqb (User.email u) email) users.

(** The block that runs when the module is imported: the default analyst
    is added unless a user with that email exists. *)
Definition seed_default_user (users : list User.t) : list User.t :=
  match user_by_email users "analyst@anomalyse.bank" with
  | Some _ => users
  | None =>
      (users ++ [ {| User.id := next_user_id users;
                     User.email := "analyst@anomalyse.bank";
                     User.password_hash := hash_password "password123";
                     User.role := "analyst" |} ])%list
  end.

Definition login (users : list User.t) (payload : LoginRequest)
  : outcome TokenResponse :=
  match user_by_email users (login_email payload) with
  | None => Raise (HTTPException 401 "Invalid credentials")
  | Some user =>
      if negb (verify_password (login_password payload)
                 (User.password_hash user))
      then Raise (HTTPException 401 "Invalid credentials")
      else Return {| access_token := create_access_token (login_email payload);
                     token_type := "bearer" |}
  end.

(** *** [get_transactions] *)

(** Truth of an optional string: [None] and the empty string are false. *)
Definition truthy (s : option string) : bool :=
  match s with
  | Some (String _ _) => true
  | _ => false
  end.

(** [s or ""] *)
Definition or_empty (s : option string) : string :=
  match s with
  | Some x => x
  | None => EmptyString
  end.

Definition json_of_option (s : option string) : Json :=
  match s with
  | Some x => JStr x
  | None => JNull
  end.

(** [[{"type": r.flag_type, "reason": r.flag_reason or ""}]] *)
Definition legacy_flags (flag_type : string) (flag_reason : option string)
  : list Json :=
  [JDict [("type", JStr flag_type); ("reason", JStr (or_empty flag_reason))]].

(** The body of the [try] of [get_transactions]: the parsed list and the
    primary type and reason; [None] is an exception. *)
Definition parse_json_flags (flag_type : string) (primary : Json * Json)
  : option (list Json * Json * Json) :=
  match json_loads flag_type with
  | None => None
  | Some (JList items) =>
      match items with
      | [] => Some ([], fst primary, snd primary)
      | first :: _ =>
          match json_get first "type", json_get first "reason" with
          | Some t, Some r => Some (items, t, r)
          | _, _ => None
          end
      end
  | Some _ => Some ([], fst primary, snd primary)
  end.

(** [flags_list], [primary_type] and [primary_reason] of a stored row. *)
Definition row_flags (r : TransactionModel.t) : list Json * Json * Json :=
  let flag_type := TransactionModel.flag_type r in
  let flag_reason := TransactionModel.flag_reason r in
  let primary := (json_of_option flag_type, json_of_option flag_reason) in
  if truthy flag_type
     && (PyStr.startswith (or_empty flag_type) "["
         || PyStr.startswith (or_empty flag_type) "{")
  then
    match parse_json_flags (or_empty flag_type) primary with
    | Some parsed => parsed
    | None => (legacy_flags (or_empty flag_type) flag_reason,
               fst primary, snd primary)
    end
  else if truthy flag_type
  then (legacy_flags (or_empty flag_type) flag_reason, fst primary, snd primary)
  else ([], fst primary, snd primary).

(** Validation of an [Optional[str]] field, as pydantic 2 does it (the
    settings come from [pydantic_settings]): a string or [None], nothing
    is converted. *)
Definition as_optional_str (x : Json) : option (option string) :=
  match x with
  | JNull => Some None
  | JStr s => Some (Some s)
  | _ => None
  end.

(** Validation of a [Dict[str, str]] value. *)
Fixpoint as_str_entries (entries : list (string * Json))
  : option (list (string * string)) :=
  match entries with
  | [] => Some []
  | (k, JStr v) :: rest =>
      option_map (cons (k, v)) (as_str_entries rest)
  | _ => None
  end.

Definition as_str_dict (x : Json) : option (list (string * string)) :=
  match x with
  | JDict entries => as_str_entries entries
  | _ => None
  end.

(** Validation of a [List[Dict[str, str]]] field. *)
Fixpoint as_flags (items : list Json) : option (list (list (string * string))) :=
  match items with
  | [] => Some []
  | x :: rest =>
      match as_str_dict x, as_flags rest with
      | Some d, Some ds => Some (d :: ds)
      | _, _ => None
      end
  end.

(** The [Transaction] built for a stored row; [None] is the exception of
    [float] or of the validation of the model. *)
Definition transaction_out (r : TransactionModel.t) : option TransactionOut.t :=
  let '(flags_list, primary_type, primary_reason) := row_flags r in
  match float_of_int (TransactionModel.risk_score r),
        as_optional_str primary_type, as_optional_str primary_reason,
        as_flags flags_list with
  | Some risk, Some ft, Some fr, Some fl =>
      Some {| TransactionOut.id := TransactionModel.id r;
              TransactionOut.timestamp := isoformat (TransactionModel.timestamp r);
              TransactionOut.amount := TransactionModel.amount r;
              TransactionOut.user_id := TransactionModel.user_id r;
              TransactionOut.city := TransactionModel.city r;
              TransactionOut.category := TransactionModel.category r;
              TransactionOut.riskScore := risk;
              TransactionOut.status := TransactionModel.status r;
              TransactionOut.flag_type := ft;
              TransactionOut.flag_reason := fr;
              TransactionOut.flags := fl |}
  | _, _, _, _ => None
  end.

(** The loop of [get_transactions] over the rows of the query. *)
Fixpoint transactions_out (rows_ : list TransactionModel.t)
  : option (list TransactionOut.t) :=
  match rows_ with
  | [] => Some []
  | r :: rest =>
      match transaction_out r with
      | None => None
      | Some t => option_map (cons t) (transactions_out rest)
      end
  end.

Definition get_transactions : M (list TransactionOut.t) :=
  fun w =>
    (match transactions_out (order_by_timestamp_desc (committed w)) with
     | Some out => Return out
     | None => Raise (PyError "validation error")
     end, w).

(** *** [get_metrics] *)

(** [func.date(timestamp)]: the day of a timestamp, as a count of days. *)
Definition sql_date (ts : Z) : Z := ts / 86400000000.

(** Insertion of a day into an ascending list without repetition. *)
Fixpoint insert_day (d : Z) (days : list Z) : list Z :=
  match days with
  | [] => [d]
  | x :: rest =>
      if d <? x then d :: days
      else if d =? x then days
      else x :: insert_day d rest
  end.

(** The groups of [GROUP BY date(timestamp) ORDER BY date(timestamp)]. *)
Definition days_of (table : list TransactionModel.t) : list Z :=
  fold_right insert_day []
    (map (fun r => sql_date (TransactionModel.timestamp r)) table).

(** [SUM(CASE WHEN status = s THEN 1 ELSE 0 END)] within the group of a
    day. *)
Definition count_on (table : list TransactionModel.t) (d : Z) (s : string)
  : nat :=
  List.length
    (filter (fun r => (sql_date (TransactionModel.timestamp r) =? d)
                      && String.eqb (TransactionModel.status r) s) table).

Definition fraud_trend (table : list TransactionModel.t) : list TrendRow :=
  map (fun d => {| trend_date := d;
                   fraudCount := count_on table d "Suspicious";
                   safeCount := count_on table d "Safe" |})
      (days_of table).

(** The count of the rows whose status is [s]. *)
Definition count_status (table : list TransactionModel.t) (s : string) : nat :=
  List.length (filter (fun r => String.eqb (TransactionModel.status r) s) table).

(** Insertion of a status into an ascending list without repetition;
    the texts are compared byte by byte. *)
Fixpoint insert_status (s : string) (l : list string) : list string :=
  match l with
  | [] => [s]
  | x :: rest =>
      match String.compare s x with
      | Lt => s :: l
      | Eq => l
      | Gt => x :: insert_status s rest
      end
  end.

(** The groups of [GROUP BY status], in the order in which the default
    SQLite database returns them: it sorts the rows to group them, so the
    groups come out by ascending status. *)
Definition statuses_of (table : list TransactionModel.t) : list string :=
  fold_right insert_status [] (map TransactionModel.status table).

(** The groups of [GROUP BY status] with their counts. *)
Definition risk_distribution (table : list TransactionModel.t)
  : list (string * nat) :=
  map (fun s => (s, count_status table s)) (statuses_of table).

(** [float(avg_risk) if avg_risk else 0.0], [avg_risk] being the average
    or 0. *)
Definition overall_risk (table : list TransactionModel.t) : float :=
  match sql_avg (map TransactionModel.risk_score table) with
  | None => 0%float
  | Some a => if PrimFloat.is_zero a then 0%float else a
  end.

Definition metrics_of (table : list TransactionModel.t) : MetricsResponse :=
  {| totalTransactions := List.length table;
     flaggedTransactions := count_status table "Suspicious";
     overallRiskScore := overall_risk table;
     fraudTrend := fraud_trend table;
     riskDistribution := risk_distribution table |}.

Definition get_metrics : M MetricsResponse :=
  fun w => (Return (metrics_of (committed w)), w).

(** *** [clear_transactions] *)

(** [db.execute(delete(TransactionModel))], [db.commit()] and the count:
    the pending objects are flushed before the statement runs, so it
    removes them too; a commit that raises leaves the table as it was. *)
Definition clear_transactions : M ClearResult :=
  log EvCommit ;;;
  fun w =>
    match db_fault w with
    | None =>
        (Return {| clear_success := true;
                   deleted := List.length (committed w ++ pending w) |},
         set_session [] [] w)
    | Some msg => (Raise (PyError msg), w)
    end.

(** *** The routes *)

Definition get_transactions_route (authorization : string)
  : M (list TransactionOut.t) :=
  require_token authorization ;;; get_db get_transactions.

Definition get_metrics_route (authorization : string) : M MetricsResponse :=
  require_token authorization ;;; get_db get_metrics.

Definition clear_transactions_route (authorization : string) : M ClearResult :=
  require_token authorization ;;; get_db clear_transactions.

End OtherRoutes.

Arguments days_of : simpl never.
Arguments statuses_of : simpl never.

(** ** Stand-ins for the collaborators of the other routes *)

Module AppFixtures.

(** A JSON string literal. *)
Definition q (s : string) : string :=
  String (ascii_of_nat 34) s ++ String (ascii_of_nat 34) EmptyString.

Definition json_flag_list : string :=
  Eval vm_compute in
    "[{" ++ q "type" ++ ": " ++ q "velocity" ++ ", "
         ++ q "reason" ++ ": " ++ q "five in a minute" ++ "}]".

Definition json_flag_object : string :=
  Eval vm_compute in "{" ++ q "type" ++ ": " ++ q "velocity" ++ "}".

Definition tail_of (s : string) : string :=
  match s with
  | EmptyString => EmptyString
  | String _ rest => rest
  end.

Definition json_flag_list_tail : string :=
  Eval vm_compute in tail_of json_flag_list.

Definition json_flag_object_tail : string :=
  Eval vm_compute in tail_of json_flag_object.

Definition loads (s : string) : option Json :=
  if String.eqb s json_flag_list
  then Some (JList [JDict [("type", JStr "velocity");
                           ("reason", JStr "five in a minute")]])
  else if String.eqb s json_flag_object
  then Some (JDict [("type", JStr "velocity")])
  else if String.eqb s "[1]" then Some (JList [JNum "1"])
  else None.

#[local] Instance app : AppCollaborators := {|
  hash_password := fun p => "hashed:" ++ p;
  verify_password := fun p h => String.eqb ("hashed:" ++ p) h;
  create_access_token := fun subject =>
    if String.eqb subject "analyst@anomalyse.bank" then "signed.jwt.token"
    else "unsigned." ++ subject;
  json_loads := loads;
  isoformat := fun ts => NilZero.string_of_int (Z.to_int ts);
  float_of_int := fun z =>
    Some (SF2Prim (binary_normalize prec emax z 0 false));
  next_user_id := fun users => 1 + Z.of_nat (List.length users);
  sql_avg := fun _ => None
|}.

Definition flagged (i : string) (ts : Z) (st : string) (ft fr : option string)
  : TransactionModel.t :=
  {| TransactionModel.id := i;
     TransactionModel.timestamp := ts;
     TransactionModel.amount := 10;
     TransactionModel.user_id := "u1";
     TransactionModel.city := "Pune";
     TransactionModel.category := "food";
     TransactionModel.risk_score := 40;
     TransactionModel.status := st;
     TransactionModel.flag_type := ft;
     TransactionModel.flag_reason := fr;
     TransactionModel.is_training_data := false |}.

Definition legacy_row : TransactionModel.t :=
  flagged "a" 1 "Suspicious" (Some "velocity") (Some "five in a minute").

Definition json_row : TransactionModel.t :=
  flagged "b" 2 "Suspicious" (Some json_flag_list) (Some "stale reason").

Definition object_row : TransactionModel.t :=
  flagged "c" 3 "Suspicious" (Some json_flag_object) None.

Definition other_user_row : TransactionModel.t :=
  Fixtures.stored "z" 1 "u2".

End AppFixtures.

(** * Properties *)

(** ** Sequences and strings *)

Lemma getitem_of_nat {A} (l : list A) (k : nat) :
  PySeq.getitem l (Z.of_nat k) = nth_error l k.
Proof.
  unfold PySeq.getitem.
  destruct (Z.ltb_spec (Z.of_nat k) 0) as [Hneg | _]; [lia |].
  now rewrite Nat2Z.id.
Qed.

Lemma getitem_last {A} (l : list A) (x : A) :
  PySeq.getitem (l ++ [x]) (-1) = Some x.
Proof.
  unfold PySeq.getitem. cbn [Z.ltb Z.compare].
  rewrite length_app. cbn [List.length].
  destruct (Z.leb_spec 0 (Z.of_nat (List.length l + 1) + -1)) as [_ | H]; [| lia].
  replace (Z.to_nat (Z.of_nat (List.length l + 1) + -1)) with (List.length l) by lia.
  rewrite nth_error_app2 by lia.
  now rewrite Nat.sub_diag.
Qed.

Lemma index_Some_contains {A} (eqb : A -> A -> bool) (x : A) (l : list A) (k : nat) :
  PySeq.index eqb x l = Some k -> PySeq.contains eqb x l = true.
Proof.
  revert k. induction l as [| y l IH]; intros k H; cbn in *; [discriminate |].
  destruct (eqb y x); [reflexivity |].
  destruct (PySeq.index eqb x l) as [j |]; [| discriminate].
  cbn. now apply (IH j).
Qed.

Lemma contains_zero_false (classes : list Z) :
  ~ In 0 classes -> PySeq.contains Z.eqb 0 classes = false.
Proof.
  intros Hnot. unfold PySeq.contains.
  destruct (existsb (fun y => y =? 0) classes) eqn:E; [| reflexivity].
  apply existsb_exists in E. destruct E as [y [Hin Hy]].
  apply Z.eqb_eq in Hy. subst y. contradiction.
Qed.

Lemma index_zero_first (classes : list Z) (k : nat) :
  PySeq.index Z.eqb 0 classes = Some k ->
  nth_error classes k = Some 0 /\
  forall j, (j < k)%nat -> nth_error classes j <> Some 0.
Proof.
  revert k. induction classes as [| y l IH]; intros k H; cbn in H; [discriminate |].
  destruct (Z.eqb_spec y 0) as [-> | Hy].
  - injection H as <-. split; [reflexivity | intros j Hj; lia].
  - destruct (PySeq.index Z.eqb 0 l) as [j |] eqn:E; [| discriminate].
    injection H as <-. destruct (IH j eq_refl) as [Hnth Hfirst].
    split; [exact Hnth |].
    intros [| i] Hi; cbn; [congruence | apply Hfirst; lia].
Qed.

Section Properties.

Context {collab : Collaborators}.

(** Unfolding of the monad and of the calls to the environment. *)
Ltac run :=
  repeat progress
    (unfold call_predict, call_predict_proba, call_preprocess_data,
       call_decode_token, model_path_exists, joblib_load,
       bind, try_except, ret, raise, of_option, of_sum, log;
     cbn).

(** ** The token check *)

(** C10. A request whose [Authorization] header is [Bearer ] followed
    by the literal development token passes [require_token] with the
    world untouched: no event is logged, so [decode_token] is not
    called, whatever [decode_token] would answer.  The same holds for
    every header that starts with [Bearer ] and whose token, once the
    prefix is removed and blanks are stripped, is that literal. *)
Theorem require_token_dev_token :
  forall (authorization : string) (w : World),
    PyStr.startswith authorization "Bearer " = true ->
    PyStr.strip (PyStr.replace authorization "Bearer " "") = dev_token ->
    require_token authorization w = (Return tt, w)
    /\ trace (snd (require_token authorization w)) = trace w
    /\ require_token ("Bearer " ++ dev_token) w = (Return tt, w).
Proof.
  intros authorization w Hprefix Htoken.
  assert (Hgen : require_token authorization w = (Return tt, w)).
  { unfold require_token. rewrite Hprefix, Htoken. cbn [negb].
    now rewrite String.eqb_refl. }
  split; [exact Hgen |]. split; [now rewrite Hgen |].
  reflexivity.
Qed.

(** ** The risk mapper *)

(** C1. When label 0 is among the classes, first at position [k], the
    response of a single prediction and the risk and status of a batch
    row are those of the decision rule: fraud probability one minus the
    probability at [k], risk score that times 100, status Suspicious
    exactly for a non-zero label.  With label 0 and probability 1 the
    score is 0 and the status Safe; with a non-zero label and
    probability 0 the score is 100 and the status Suspicious. *)
Theorem risk_mapper_rule :
  forall (p : Pipeline) (k : nat),
    PySeq.index Z.eqb 0 (classes_ p) = Some k ->
    nth_error (classes_ p) k = Some 0
    /\ (forall last pred preds probs all_probs pn w,
        predict p last = inr (pred :: preds) ->
        predict_proba p last = inr (probs :: all_probs) ->
        nth_error probs k = Some pn ->
        fst (predict_last_row p last w) = Return (spec_scored pred pn))
    /\ (forall probs i pred row pn w,
           nth_error probs i = Some row ->
           nth_error row k = Some pn ->
           normal_index (classes_ p) w = (Return (Z.of_nat k), w)
           /\ risk_and_status probs (Z.of_nat k) i pred w =
                (Return (spec_risk_score (spec_fraud_probability pn),
                         spec_status pred), w))
    /\ spec_scored 0 1 =
         {| PredictionResponse.is_fraud := false;
            PredictionResponse.risk_score := 0;
            PredictionResponse.status := "Safe" |}
    /\ (forall pred, pred <> 0 ->
          spec_scored pred 0 =
            {| PredictionResponse.is_fraud := true;
               PredictionResponse.risk_score := 100;
               PredictionResponse.status := "Suspicious" |}).
Proof.
  intros p k Hk.
  pose proof (index_Some_contains _ _ _ _ Hk) as Hin.
  split; [exact (proj1 (index_zero_first _ _ Hk)) |].
  split; [| split; [| split]].
  - intros last pred preds probs all_probs pn w Hpred Hproba Hpn.
    unfold predict_last_row. run. rewrite Hpred. cbn.
    rewrite Hproba. cbn. rewrite Hin, Hk. cbn.
    rewrite getitem_of_nat, Hpn. cbn.
    unfold spec_scored, spec_status, spec_risk_score, spec_fraud_probability.
    now destruct (pred =? 0).
  - intros probs i pred row pn w Hrow Hpn. split.
    + unfold normal_index. run. now rewrite Hin, Hk.
    + unfold risk_and_status. run.
      assert (Hne : (Z.of_nat k =? -1) = false) by (apply Z.eqb_neq; lia).
      rewrite Hne. cbn.
      rewrite getitem_of_nat, Hrow. cbn.
      rewrite getitem_of_nat, Hpn. cbn.
      unfold spec_status. now destruct (pred =? 0).
  - reflexivity.
  - intros pred Hpred. unfold spec_scored, spec_status.
    apply Z.eqb_neq in Hpred. now rewrite Hpred.
Qed.

(** C3. When label 0 is not among the classes, the fraud probability is
    the constant 1: a single prediction answers risk score 100, and for
    a batch the index is the sentinel [-1], the risk of every row is
    100 and the stored integer is 100, whatever the probabilities. *)
Theorem risk_mapper_without_normal_class :
  forall (p : Pipeline),
    ~ In 0 (classes_ p) ->
    (forall last pred preds probs all_probs w,
        predict p last = inr (pred :: preds) ->
        predict_proba p last = inr (probs :: all_probs) ->
        fst (predict_last_row p last w) =
          Return {| PredictionResponse.is_fraud := negb (pred =? 0);
                    PredictionResponse.risk_score := 100;
                    PredictionResponse.status := spec_status pred |})
    /\ (forall w, normal_index (classes_ p) w = (Return (-1), w))
    /\ (forall probs i pred w,
           risk_and_status probs (-1) i pred w =
             (Return (100%float, spec_status pred), w))
    /\ py_int 100 = Some 100.
Proof.
  intros p Habsent. apply contains_zero_false in Habsent.
  split; [| split; [| split]].
  - intros last pred preds probs all_probs w Hpred Hproba.
    unfold predict_last_row. run. rewrite Hpred. cbn.
    rewrite Hproba. cbn. rewrite Habsent. cbn.
    unfold spec_status. now destruct (pred =? 0).
  - intros w. unfold normal_index. now rewrite Habsent.
  - intros probs i pred w. unfold risk_and_status. run.
    unfold spec_status. now destruct (pred =? 0).
  - reflexivity.
Qed.

(** ** The history query *)

Lemma insert_desc_In (r x : TransactionModel.t) (l : list TransactionModel.t) :
  In x (insert_desc r l) <-> x = r \/ In x l.
Proof.
  induction l as [| y l IH]; cbn.
  - intuition.
  - destruct (TransactionModel.timestamp y <? TransactionModel.timestamp r).
    + cbn. intuition.
    + cbn. rewrite IH. intuition.
Qed.

Lemma insert_desc_length (r : TransactionModel.t) (l : list TransactionModel.t) :
  List.length (insert_desc r l) = S (List.length l).
Proof.
  induction l as [| y l IH]; cbn; [reflexivity |].
  destruct (TransactionModel.timestamp y <? TransactionModel.timestamp r);
    cbn; [reflexivity | now rewrite IH].
Qed.

Lemma insert_desc_sorted (r : TransactionModel.t) (l : list TransactionModel.t) :
  StronglySorted newer_or_equal l ->
  StronglySorted newer_or_equal (insert_desc r l).
Proof.
  induction 1 as [| y l Hsorted IH Hy]; cbn.
  - repeat constructor.
  - destruct (Z.ltb_spec (TransactionModel.timestamp y)
                         (TransactionModel.timestamp r)) as [Hlt | Hge].
    + constructor; [now constructor |].
      constructor; [unfold newer_or_equal; lia |].
      rewrite Forall_forall in Hy |- *. intros x Hx.
      specialize (Hy x Hx). unfold newer_or_equal in *. lia.
    + constructor; [exact IH |].
      rewrite Forall_forall in Hy |- *. intros x Hx.
      apply insert_desc_In in Hx. destruct Hx as [-> | Hx].
      * unfold newer_or_equal. lia.
      * now apply Hy.
Qed.

Lemma order_by_In (x : TransactionModel.t) (l : list TransactionModel.t) :
  In x (order_by_timestamp_desc l) <-> In x l.
Proof.
  unfold order_by_timestamp_desc.
  induction l as [| y l IH]; cbn; [reflexivity |].
  rewrite insert_desc_In, IH. intuition.
Qed.

Lemma order_by_length (l : list TransactionModel.t) :
  List.length (order_by_timestamp_desc l) = List.length l.
Proof.
  unfold order_by_timestamp_desc.
  induction l as [| y l IH]; cbn; [reflexivity |].
  now rewrite insert_desc_length, IH.
Qed.

Lemma order_by_sorted (l : list TransactionModel.t) :
  StronglySorted newer_or_equal (order_by_timestamp_desc l).
Proof.
  unfold order_by_timestamp_desc.
  induction l as [| y l IH]; cbn; [constructor |].
  now apply insert_desc_sorted.
Qed.

Lemma sorted_app_inv (l1 l2 : list TransactionModel.t) :
  StronglySorted newer_or_equal (l1 ++ l2) ->
  StronglySorted newer_or_equal l1
  /\ forall a b, In a l1 -> In b l2 -> newer_or_equal a b.
Proof.
  induction l1 as [| x l1 IH]; cbn; intros Hs.
  - split; [constructor | intros a b []].
  - inversion Hs as [| ? ? Hrest Hall]; subst.
    destruct (IH Hrest) as [Hs1 Hcross].
    rewrite Forall_forall in Hall.
    split.
    + constructor; [exact Hs1 |].
      apply Forall_forall. intros y Hy. apply Hall, in_or_app. now left.
    + intros a b [-> | Ha] Hb.
      * apply Hall, in_or_app. now right.
      * now apply Hcross.
Qed.

(** What the query of [predict_fraud] returns: at most 50 rows, all of
    the user and strictly before [before], newest first, and no stored
    row of the user before [before] that was left out is newer than a
    row that was kept. *)
Lemma select_history_spec (table : list TransactionModel.t)
      (uid : string) (before : Z) :
  let hist := select_history table uid before in
  (List.length hist <= 50)%nat
  /\ (forall r, In r hist ->
        In r table /\ TransactionModel.user_id r = uid
        /\ TransactionModel.timestamp r < before)
  /\ StronglySorted newer_or_equal hist
  /\ (forall r r', In r hist ->
        In r' table -> TransactionModel.user_id r' = uid ->
        TransactionModel.timestamp r' < before -> ~ In r' hist ->
        newer_or_equal r r').
Proof.
  cbv zeta. unfold select_history.
  set (keep := fun r : TransactionModel.t =>
                 (TransactionModel.user_id r =? uid)%string
                 && (TransactionModel.timestamp r <? before)).
  set (sorted := order_by_timestamp_desc (filter keep table)).
  assert (Hsplit : sorted = (firstn 50 sorted ++ skipn 50 sorted)%list)
    by (symmetry; apply firstn_skipn).
  assert (Hsorted : StronglySorted newer_or_equal sorted)
    by apply order_by_sorted.
  assert (Hkeep : forall r, In r sorted <->
                            In r table /\ TransactionModel.user_id r = uid
                            /\ TransactionModel.timestamp r < before).
  { intros r. unfold sorted. rewrite order_by_In, filter_In. unfold keep.
    rewrite andb_true_iff, String.eqb_eq, Z.ltb_lt. reflexivity. }
  rewrite Hsplit in Hsorted. apply sorted_app_inv in Hsorted.
  destruct Hsorted as [Hfirst Hcross].
  split; [apply firstn_le_length |].
  split; [| split; [exact Hfirst |]].
  - intros r Hr. apply Hkeep. rewrite Hsplit. apply in_or_app. now left.
  - intros r r' Hr Hr' Huid Hts Hout. apply Hcross; [exact Hr |].
    assert (Hin : In r' sorted) by now apply Hkeep.
    rewrite Hsplit in Hin. apply in_app_or in Hin.
    destruct Hin as [Hin | Hin]; [contradiction | exact Hin].
Qed.

(** The query returns every row that qualifies, up to 50 of them. *)
Lemma select_history_length (table : list TransactionModel.t)
      (uid : string) (before : Z) :
  List.length (select_history table uid before) =
    Nat.min 50
      (List.length
         (filter (fun r =>
                    String.eqb (TransactionModel.user_id r) uid
                    && (TransactionModel.timestamp r <? before))
                 table)).
Proof.
  unfold select_history. now rewrite length_firstn, order_by_length.
Qed.

Lemma select_history_nil (table : list TransactionModel.t)
      (uid : string) (before : Z) :
  (forall r, In r table -> TransactionModel.user_id r = uid ->
             before <= TransactionModel.timestamp r) ->
  select_history table uid before = [].
Proof.
  intros Hnone.
  destruct (select_history table uid before) as [| r l] eqn:E; [reflexivity |].
  destruct (select_history_spec table uid before) as [_ [Hin _]].
  rewrite E in Hin. destruct (Hin r (or_introl eq_refl)) as [Ht [Hu Hlt]].
  specialize (Hnone r Ht Hu). lia.
Qed.

(** ** Traces *)

Section Emits.

Variable ok : Event -> bool.

Lemma emits_quiet {A} (c : M A) :
  (forall w, model_file (snd (c w)) = model_file w) ->
  (forall w, trace (snd (c w)) = trace w) -> emits_only ok c.
Proof.
  intros Hm H w. split; [apply Hm |].
  exists []. now rewrite H, app_nil_r.
Qed.

Lemma emits_ret {A} (a : A) : emits_only ok (ret a).
Proof. now apply emits_quiet. Qed.

Lemma emits_raise {A} (e : exn) : emits_only ok (@raise A e).
Proof. now apply emits_quiet. Qed.

Lemma emits_log (ev : Event) : ok ev = true -> emits_only ok (log ev).
Proof.
  intros Hev w. split; [reflexivity |].
  exists [ev]. cbn. now rewrite Hev.
Qed.

Lemma emits_bind {A B} (c : M A) (k : A -> M B) :
  emits_only ok c -> (forall a, emits_only ok (k a)) ->
  emits_only ok (bind c k).
Proof.
  intros Hc Hk w. unfold bind.
  destruct (Hc w) as [Hm [evs [Htr Hok]]].
  destruct (c w) as [[a | e] w1]; cbn in *.
  - destruct (Hk a w1) as [Hm' [evs' [Htr' Hok']]].
    split; [congruence |].
    exists (evs ++ evs')%list. rewrite Htr', Htr, app_assoc.
    split; [reflexivity |]. now rewrite forallb_app, Hok, Hok'.
  - split; [exact Hm |]. now exists evs.
Qed.

Lemma emits_try {A} (c : M A) (handler : exn -> M A) :
  emits_only ok c -> (forall e, emits_only ok (handler e)) ->
  emits_only ok (try_except c handler).
Proof.
  intros Hc Hh w. unfold try_except.
  destruct (Hc w) as [Hm [evs [Htr Hok]]].
  destruct (c w) as [[a | e] w1]; cbn in *.
  - split; [exact Hm |]. now exists evs.
  - destruct (Hh e w1) as [Hm' [evs' [Htr' Hok']]].
    split; [congruence |].
    exists (evs ++ evs')%list. rewrite Htr', Htr, app_assoc.
    split; [reflexivity |]. now rewrite forallb_app, Hok, Hok'.
Qed.

Lemma emits_of_option {A} (msg : string) (o : option A) :
  emits_only ok (of_option msg o).
Proof. destruct o; [apply emits_ret | apply emits_raise]. Qed.

Lemma emits_of_sum {A} (r : string + A) : emits_only ok (of_sum r).
Proof. destruct r; [apply emits_raise | apply emits_ret]. Qed.

Lemma emits_get_db {A} (handler : M A) :
  emits_only ok handler -> emits_only ok (get_db handler).
Proof.
  intros H w. unfold get_db.
  destruct (H (set_session (committed w) [] w)) as [Hm [evs [Htr Hok]]].
  destruct (handler (set_session (committed w) [] w)) as [r w1].
  cbn in *. split; [exact Hm |]. now exists evs.
Qed.

(** A step that reads or updates the session, the counter of
    identifiers or nothing at all. *)
Lemma emits_session {A} (f : World -> outcome A)
      (c p : World -> list TransactionModel.t) (n : World -> nat) :
  emits_only ok
    (fun w => (f w,
               {| model_file := model_file w; committed := c w;
                  pending := p w; db_fault := db_fault w;
                  uuid_count := n w; trace := trace w |})).
Proof. now apply emits_quiet. Qed.

End Emits.

Ltac emits :=
  repeat lazymatch goal with
    | |- emits_only _ (ret _) => apply emits_ret
    | |- emits_only _ (raise _) => apply emits_raise
    | |- emits_only _ (of_option _ _) => apply emits_of_option
    | |- emits_only _ (of_sum _) => apply emits_of_sum
    | |- emits_only _ (log _) => apply emits_log; solve [auto]
    | |- emits_only _ (bind _ _) => apply emits_bind; [| intros ?]
    | |- emits_only _ (try_except _ _) => apply emits_try; [| intros ?]
    | |- emits_only _ (if ?b then _ else _) => destruct b
    | |- emits_only _ (let '(_, _) := ?x in _) => destruct x
    | |- emits_only _ (fun _ => _) =>
        apply emits_quiet; intros ?; reflexivity
    end.

Lemma count_loads_app (a b : list Event) :
  count_loads (a ++ b) = (count_loads a + count_loads b)%nat.
Proof.
  induction a as [| ev a IH]; cbn; [reflexivity |].
  destruct ev; cbn; now rewrite IH.
Qed.

Lemma count_loads_not_load (evs : list Event) :
  forallb not_load evs = true -> count_loads evs = O.
Proof.
  induction evs as [| ev evs IH]; cbn; [reflexivity |].
  destruct ev; cbn; try discriminate; exact IH.
Qed.

Section EmitsHandlers.

Variable ok : Event -> bool.

Hypothesis ok_decode : forall tok, ok (EvDecode tok) = true.
Hypothesis ok_query : forall uid before, ok (EvQuery uid before) = true.
Hypothesis ok_preprocess : forall df, ok (EvPreprocess df) = true.
Hypothesis ok_predict : forall df, ok (EvPredict df) = true.
Hypothesis ok_predict_proba : forall df, ok (EvPredictProba df) = true.
Hypothesis ok_add_all : forall objs, ok (EvAddAll objs) = true.
Hypothesis ok_commit : ok EvCommit = true.
Hypothesis ok_rollback : ok EvRollback = true.

Lemma require_token_emits (authorization : string) :
  emits_only ok (require_token authorization).
Proof. unfold require_token, call_decode_token. emits. Qed.

Lemma predict_last_row_emits (p : Pipeline) (last_row : DataFrame) :
  emits_only ok (predict_last_row p last_row).
Proof.
  unfold predict_last_row, call_predict, call_predict_proba. emits.
Qed.

Lemma predict_from_frame_emits (p : Pipeline) (df : DataFrame) :
  emits_only ok (predict_from_frame p df).
Proof.
  unfold predict_from_frame, call_preprocess_data, iloc_last. emits.
  apply predict_last_row_emits.
Qed.

Lemma score_rows_emits df probs normal_idx preds :
  forall i, emits_only ok (score_rows df probs normal_idx i preds).
Proof.
  induction preds as [| pred rest IH]; intros i.
  - unfold score_rows. emits.
  - change (score_rows df probs normal_idx i (pred :: rest))
      with (t <- score_row df probs normal_idx i pred ;;
            ts <- score_rows df probs normal_idx (S i) rest ;;
            ret (t :: ts)).
    apply emits_bind; [| intros t; apply emits_bind; [apply IH | intros; emits]].
    unfold score_row, risk_and_status, iloc_cell, new_uuid. emits.
Qed.

(** [predict_fraud] after the model is loaded. *)
Lemma predict_fraud_tail_emits (p : Pipeline) (txn : PredictionRequest.t) :
  emits_only ok
    (current_ts <- try_except
                     (of_option "Unknown datetime string format"
                        (to_datetime (CStr (PredictionRequest.timestamp txn))))
                     (fun _ => raise (HTTPException 400
                                        "Invalid timestamp format")) ;;
     history_rows <- query_history (PredictionRequest.user_id txn) current_ts ;;
     predict_from_frame p
       (frame_of_records (history_data history_rows txn current_ts))).
Proof.
  unfold query_history. emits. apply predict_from_frame_emits.
Qed.

Lemma db_add_all_emits (objs : list TransactionModel.t) :
  emits_only ok (db_add_all objs).
Proof. unfold db_add_all, set_session. emits. Qed.

Lemma db_rollback_emits : emits_only ok db_rollback.
Proof. unfold db_rollback, set_session. emits. Qed.

Lemma db_commit_emits : emits_only ok db_commit.
Proof.
  unfold db_commit. emits.
  intros w. destruct (db_fault w); [| destruct (forallb storable (pending w))];
    cbn; (split; [reflexivity |]); exists []; now rewrite app_nil_r.
Qed.

Lemma upload_frame_emits (p : Pipeline) (df0 : DataFrame) :
  emits_only ok (upload_frame p df0).
Proof.
  unfold upload_frame, call_preprocess_data, call_predict,
    call_predict_proba, normal_index.
  cbv zeta. emits;
    first [ apply score_rows_emits | apply db_add_all_emits
          | apply db_commit_emits | apply db_rollback_emits ].
Qed.

(** [upload_csv] after the model is loaded. *)
Lemma upload_csv_tail_emits (p : Pipeline) (file_ : UploadFile) :
  emits_only ok
    (df0 <- try_except
              (of_option "Error tokenizing data" (read_csv (file file_)))
              (fun _ => raise (HTTPException 400 "Unable to read CSV")) ;;
     upload_frame p df0).
Proof. emits. apply upload_frame_emits. Qed.

End EmitsHandlers.

(** ** Single predictions *)

(** Up to the preprocessing step, [predict_fraud] loads the model, parses
    the timestamp and runs the query; nothing else has happened. *)
Lemma predict_fraud_window (txn : PredictionRequest.t) (w : World)
      (p : Pipeline) (ts : Z) :
  model_file w = Loadable p ->
  to_datetime (CStr (PredictionRequest.timestamp txn)) = Some ts ->
  ts <> NaT ->
  predict_fraud txn w =
    predict_from_frame p
      (frame_of_records
         (history_data
            (select_history (committed w) (PredictionRequest.user_id txn) ts)
            txn ts))
      (emit [EvQuery (PredictionRequest.user_id txn) ts] (emit [EvLoad] w)).
Proof.
  intros Hmodel Hts Htime. unfold predict_fraud, query_history. run.
  repeat (rewrite Hmodel; run). rewrite Hts. cbn.
  destruct (Z.eqb_spec ts NaT) as [Heq | _]; [contradiction |].
  rewrite <- Hmodel. reflexivity.
Qed.

Lemma try_preprocess_run (df : DataFrame) (h : exn -> exn) (w : World) :
  exists o,
    try_except (call_preprocess_data df) (fun e => raise (h e)) w =
      (o, emit [EvPreprocess df] w).
Proof.
  unfold call_preprocess_data. run.
  destruct (preprocess_data df); eexists; reflexivity.
Qed.

(** The first thing [predict_from_frame] does is to hand its frame to
    [preprocess_data]. *)
Lemma predict_from_frame_feeds (p : Pipeline) (df : DataFrame) (w : World) :
  exists evs,
    trace (snd (predict_from_frame p df w)) =
      (trace w ++ EvPreprocess df :: evs)%list.
Proof.
  unfold predict_from_frame. unfold bind at 1.
  match goal with
  | |- context [try_except _ (fun e => raise (@?h e)) w] =>
      destruct (try_preprocess_run df h w) as [o Ho]
  end.
  rewrite Ho. destruct o as [dfp | e].
  - assert (Hrest : emits_only (fun _ => true)
                      (last_row <- iloc_last dfp ;;
                       try_except (predict_last_row p last_row)
                         (fun e => raise (HTTPException 500
                                            ("Prediction failed: " ++ exn_str e))))).
    { unfold iloc_last. emits. now apply predict_last_row_emits. }
    destruct (Hrest (emit [EvPreprocess df] w)) as [_ [evs [Htr _]]].
    exists evs. rewrite Htr. cbn. now rewrite <- app_assoc.
  - exists []. reflexivity.
Qed.


(** C9. For a user without stored transactions before the new
    timestamp, the query is empty, the frame handed to
    [preprocess_data] has the new transaction as its only row, and when
    preprocessing and the model answer for that one row the handler
    returns a response with its three fields: the label decides
    [is_fraud] and the status, which is Safe or Suspicious, and the risk
    score is 100 times one minus the probability that the model gives
    to label 0, or 100 when label 0 is not among the classes. *)
Theorem empty_history_is_scored :
  forall (txn : PredictionRequest.t) (w : World) (p : Pipeline) (ts : Z)
         (dfp : DataFrame) (pred : Z) (preds : list Z)
         (probs : list float) (all_probs : list (list float)),
    model_file w = Loadable p ->
    to_datetime (CStr (PredictionRequest.timestamp txn)) = Some ts ->
    ts <> NaT ->
    (forall r, In r (committed w) ->
               TransactionModel.user_id r = PredictionRequest.user_id txn ->
               ts <= TransactionModel.timestamp r) ->
    let df := frame_of_records [current_record txn ts] in
    preprocess_data df = inr dfp ->
    List.length (rows dfp) = List.length (rows df) ->
    predict p dfp = inr (pred :: preds) ->
    predict_proba p dfp = inr (probs :: all_probs) ->
    (forall k, PySeq.index Z.eqb 0 (classes_ p) = Some k ->
               nth_error probs k <> None) ->
    select_history (committed w) (PredictionRequest.user_id txn) ts = []
    /\ In (EvPreprocess df) (trace (snd (predict_fraud txn w)))
    /\ exists resp,
         fst (predict_fraud txn w) = Return resp
         /\ PredictionResponse.is_fraud resp = negb (pred =? 0)
         /\ PredictionResponse.status resp = spec_status pred
         /\ (PredictionResponse.status resp = "Safe"
             \/ PredictionResponse.status resp = "Suspicious")
         /\ (forall k pn,
               PySeq.index Z.eqb 0 (classes_ p) = Some k ->
               nth_error probs k = Some pn ->
               PredictionResponse.risk_score resp = ((1 - pn) * 100)%float
               /\ resp = spec_scored pred pn)
         /\ (PySeq.index Z.eqb 0 (classes_ p) = None ->
             PredictionResponse.risk_score resp = 100%float).
Proof.
  intros txn w p ts dfp pred preds probs all_probs
         Hmodel Hts Htime Hnone df Hpre Hlen Hpred Hproba Hrange.
  pose proof (select_history_nil _ _ _ Hnone) as Hnil.
  pose proof (predict_fraud_window txn w p ts Hmodel Hts Htime) as Hrun.
  rewrite Hnil in Hrun. change (history_data [] txn ts)
    with [current_record txn ts] in Hrun. fold df in Hrun.
  split; [exact Hnil |]. split.
  - rewrite Hrun.
    destruct (predict_from_frame_feeds p df
                (emit [EvQuery (PredictionRequest.user_id txn) ts]
                   (emit [EvLoad] w))) as [evs Htr].
    rewrite Htr. apply in_or_app. right. now left.
  - assert (Hone : exists r, rows dfp = [r]).
    { cbn in Hlen. destruct (rows dfp) as [| r [| r' l]]; try discriminate.
      now exists r. }
    destruct Hone as [r Hr].
    assert (Hlast : {| columns := columns dfp; rows := [r] |} = dfp)
      by (destruct dfp; cbn in *; now subst).
    rewrite Hrun. unfold predict_from_frame, iloc_last, predict_last_row. run.
    rewrite Hpre. cbn. rewrite Hr. cbn. rewrite Hlast, Hpred. cbn.
    rewrite Hproba. cbn.
    assert (Hstatus : forall b : bool,
               (if b then "Suspicious" else "Safe") = "Safe"
               \/ (if b then "Suspicious" else "Safe") = "Suspicious")
      by (intros []; auto).
    assert (Hspec : (if negb (pred =? 0) then "Suspicious" else "Safe")
                    = spec_status pred)
      by (unfold spec_status; now destruct (pred =? 0)).
    destruct (PySeq.contains Z.eqb 0 (classes_ p)) eqn:Hin; cbn.
    + destruct (PySeq.index Z.eqb 0 (classes_ p)) as [k |] eqn:Hk; cbn.
      * rewrite getitem_of_nat.
        destruct (nth_error probs k) as [pn |] eqn:Hpn;
          [| now destruct (Hrange k eq_refl)].
        cbn. eexists. split; [reflexivity |]. cbn.
        split; [reflexivity |]. split; [exact Hspec |].
        split; [apply Hstatus |]. split; [| discriminate].
        intros k' pn' Hk' Hpn'. injection Hk' as <-.
        rewrite Hpn in Hpn'. injection Hpn' as <-.
        split; [reflexivity |].
        unfold spec_scored, spec_risk_score, spec_fraud_probability.
        now rewrite Hspec.
      * exfalso. unfold PySeq.contains in Hin.
        apply existsb_exists in Hin. destruct Hin as [y [Hy Hy0]].
        apply Z.eqb_eq in Hy0. subst y.
        clear - Hy Hk. induction (classes_ p) as [| c l IH]; [easy |].
        cbn in Hk. destruct (Z.eqb_spec c 0); [discriminate |].
        destruct Hy as [-> | Hy]; [congruence |].
        destruct (PySeq.index Z.eqb 0 l); [discriminate | now apply IH].
    + eexists. split; [reflexivity |]. cbn.
      split; [reflexivity |]. split; [exact Hspec |].
      split; [apply Hstatus |]. split; [| reflexivity].
      intros k pn Hk _. apply index_Some_contains in Hk. congruence.
Qed.

(** ** Batches *)

Lemma risk_and_status_at (probs : list (list float)) (normal_idx : Z)
      (i : nat) (pred : Z) (fraud_prob : float) (w : World) :
  fraud_prob_at probs normal_idx i = Some fraud_prob ->
  risk_and_status probs normal_idx i pred w =
    (Return ((fraud_prob * 100)%float, spec_status pred), w).
Proof.
  unfold fraud_prob_at, risk_and_status, spec_status. intros H. run.
  destruct (normal_idx =? -1); cbn.
  - injection H as <-. now destruct (pred =? 0).
  - destruct (PySeq.getitem probs (Z.of_nat i)) as [row |]; [| discriminate].
    cbn. destruct (PySeq.getitem row normal_idx) as [p |]; [| discriminate].
    cbn. injection H as <-. now destruct (pred =? 0).
Qed.

(** A turn of the loop on a row that [build_txn] accepts draws one
    identifier and returns the transaction built from that row. *)
Lemma score_row_build (df : DataFrame) (probs : list (list float))
      (normal_idx : Z) (i : nat) (pred : Z) (t : TransactionModel.t)
      (w : World) :
  build_txn df probs normal_idx i pred (uuid4 (uuid_count w)) = Some t ->
  score_row df probs normal_idx i pred w = (Return t, draw 1 w).
Proof.
  unfold build_txn, score_row. intros H.
  destruct (fraud_prob_at probs normal_idx i) as [fp |] eqn:Hfp;
    [| discriminate].
  unfold bind at 1. rewrite (risk_and_status_at _ _ _ _ _ _ Hfp).
  unfold iloc_cell, new_uuid.
  destruct (cell_at df i "Timestamp") as [c_ts |]; [| discriminate].
  destruct (cell_at df i "Amount") as [c_amount |]; [| discriminate].
  destruct (cell_at df i "UserID") as [c_user |]; [| discriminate].
  destruct (cell_at df i "City") as [c_city |]; [| discriminate].
  destruct (cell_at df i "Category") as [c_category |]; [| discriminate].
  run.
  destruct (to_datetime c_ts) as [ts |]; [| discriminate]. run.
  destruct (float_of_cell c_amount) as [amount |]; [| discriminate]. run.
  destruct (py_int (fp * 100)) as [risk_int |]; [| discriminate]. run.
  destruct (ts =? NaT); [discriminate |].
  injection H as <-. reflexivity.
Qed.

(** A row that [build_txn] accepts can be stored. *)
Lemma build_txn_storable (df : DataFrame) (probs : list (list float))
      (normal_idx : Z) (i : nat) (pred : Z) (new_id : string)
      (t : TransactionModel.t) :
  build_txn df probs normal_idx i pred new_id = Some t -> storable t = true.
Proof.
  unfold build_txn, storable. intros H.
  destruct (fraud_prob_at probs normal_idx i); [| discriminate].
  destruct (cell_at df i "Timestamp") as [c_ts |]; [| discriminate].
  destruct (cell_at df i "Amount") as [c_amount |]; [| discriminate].
  destruct (cell_at df i "UserID"); [| discriminate].
  destruct (cell_at df i "City"); [| discriminate].
  destruct (cell_at df i "Category"); [| discriminate].
  destruct (to_datetime c_ts) as [ts |]; [| discriminate].
  destruct (float_of_cell c_amount); [| discriminate].
  destruct (py_int _); [| discriminate].
  destruct (ts =? NaT) eqn:E; [discriminate |].
  injection H as <-. cbn. now rewrite E.
Qed.

Lemma draw_draw (n m : nat) (w : World) :
  draw n (draw m w) = draw (n + m) w.
Proof. unfold draw. cbn. f_equal. lia. Qed.

(** The loop over a batch whose rows [build_txn] accepts returns one
    transaction per label, the [j]-th built from row [i + j], label [j]
    and the [j]-th identifier drawn. *)
Lemma score_rows_build (df : DataFrame) (probs : list (list float))
      (normal_idx : Z) (preds : list Z) :
  forall (i : nat) (w : World),
    (forall j pred new_id, (j < List.length preds)%nat ->
       build_txn df probs normal_idx (i + j) pred new_id <> None) ->
    exists new_txns,
      score_rows df probs normal_idx i preds w =
        (Return new_txns, draw (List.length preds) w)
      /\ List.length new_txns = List.length preds
      /\ forall j pred, nth_error preds j = Some pred ->
           nth_error new_txns j =
             build_txn df probs normal_idx (i + j) pred
               (uuid4 (j + uuid_count w)).
Proof.
  induction preds as [| pred rest IH]; intros i w Hvalid.
  - exists []. unfold score_rows, draw. cbn.
    split; [now destruct w |].
    split; [reflexivity |]. intros [| j] pred H; discriminate.
  - change (score_rows df probs normal_idx i (pred :: rest))
      with (t <- score_row df probs normal_idx i pred ;;
            ts <- score_rows df probs normal_idx (S i) rest ;;
            ret (t :: ts)).
    destruct (build_txn df probs normal_idx i pred (uuid4 (uuid_count w)))
      as [t |] eqn:Ht.
    2: { exfalso. apply (Hvalid O pred (uuid4 (uuid_count w))); [cbn; lia |].
         now rewrite Nat.add_0_r. }
    destruct (IH (S i) (draw 1 w)) as [ts [Hrun [Hlen Hnth]]].
    { intros j pred' new_id Hj.
      replace (S i + j)%nat with (i + S j)%nat by lia.
      apply Hvalid. cbn. lia. }
    exists (t :: ts). unfold bind at 1.
    rewrite (score_row_build _ _ _ _ _ _ _ Ht).
    unfold bind at 1. rewrite Hrun. cbn [ret].
    split; [now rewrite draw_draw, Nat.add_1_r |].
    split; [cbn; now rewrite Hlen |].
    intros [| j] pred' Hj; cbn in Hj |- *.
    + injection Hj as <-. now rewrite Nat.add_0_r.
    + rewrite (Hnth j pred' Hj). cbn.
      replace (S (i + j)) with (i + S j)%nat by lia.
      now replace (j + S (uuid_count w))%nat with (S (j + uuid_count w)) by lia.
Qed.

(** The error a commit of the objects [objs] meets, if any. *)
Definition commit_error (w : World) (objs : list TransactionModel.t)
  : option string :=
  match db_fault w with
  | Some msg => Some msg
  | None => if forallb storable objs then None else Some nat_error
  end.

(** The three steps that store a batch. *)
Lemma persist_run (new_txns : list TransactionModel.t) (w : World) :
  try_except (db_add_all new_txns ;;; db_commit)
    (fun e => db_rollback ;;;
              raise (HTTPException 500 ("Database error: " ++ exn_str e))) w =
    match commit_error w (pending w ++ new_txns) with
    | None =>
        (Return tt,
         set_session (committed w ++ pending w ++ new_txns)%list []
           (emit [EvAddAll new_txns; EvCommit] w))
    | Some msg =>
        (Raise (HTTPException 500 ("Database error: " ++ msg)),
         set_session (committed w) []
           (emit [EvAddAll new_txns; EvCommit; EvRollback] w))
    end.
Proof.
  unfold commit_error, db_add_all, db_commit, db_rollback, set_session, emit.
  run.
  destruct (db_fault w) as [msg |] eqn:E; cbn.
  - now rewrite <- !app_assoc.
  - destruct (forallb storable (pending w ++ new_txns)); cbn;
      now rewrite <- !app_assoc.
Qed.

Lemma bind_return {A B} (c : M A) (k : A -> M B) (w w' : World) (a : A) :
  c w = (Return a, w') -> bind c k w = k a w'.
Proof. intros H. unfold bind. now rewrite H. Qed.

Lemma bind_raise {A B} (c : M A) (k : A -> M B) (w w' : World) (e : exn) :
  c w = (Raise e, w') -> bind c k w = (Raise e, w').
Proof. intros H. unfold bind. now rewrite H. Qed.

Lemma index_None_contains {A} (eqb : A -> A -> bool) (x : A) (l : list A) :
  PySeq.index eqb x l = None -> PySeq.contains eqb x l = false.
Proof.
  induction l as [| y l IH]; cbn; [reflexivity |].
  destruct (eqb y x); [discriminate |].
  destruct (PySeq.index eqb x l); [discriminate |].
  intros _. now apply IH.
Qed.

Lemma normal_index_run (classes : list Z) (w : World) :
  normal_index classes w = (Return (normal_idx_of classes), w).
Proof.
  unfold normal_index, normal_idx_of.
  destruct (PySeq.index Z.eqb 0 classes) as [k |] eqn:Hk.
  - rewrite (index_Some_contains _ _ _ _ Hk). reflexivity.
  - now rewrite (index_None_contains _ _ _ Hk).
Qed.

Lemma preprocess_ok (df dfp : DataFrame) (h : exn -> M DataFrame) (w : World) :
  preprocess_data df = inr dfp ->
  try_except (call_preprocess_data df) h w =
    (Return dfp, emit [EvPreprocess df] w).
Proof. intros H. run. now rewrite H. Qed.

Lemma scored_ok (p : Pipeline) (dfp : DataFrame) (preds : list Z)
      (probs : list (list float))
      (h : exn -> M (list Z * list (list float) * Z)) (w : World) :
  predict p dfp = inr preds ->
  predict_proba p dfp = inr probs ->
  try_except
    (preds <- call_predict p dfp ;;
     probs <- call_predict_proba p dfp ;;
     let classes := classes_ p in
     normal_idx <- normal_index classes ;;
     ret (preds, probs, normal_idx)) h w =
    (Return (preds, probs, normal_idx_of (classes_ p)),
     emit [EvPredictProba dfp] (emit [EvPredict dfp] w)).
Proof.
  intros Hpred Hproba. unfold try_except.
  erewrite bind_return.
  2: { unfold call_predict. run. rewrite Hpred. reflexivity. }
  erewrite bind_return.
  2: { unfold call_predict_proba. run. rewrite Hproba. reflexivity. }
  cbv zeta. erewrite bind_return by apply normal_index_run.
  reflexivity.
Qed.

(** [upload_csv] up to the validation of the columns: the model is
    loaded and the file is read. *)
Lemma upload_csv_frame (file_ : UploadFile) (w : World) (p : Pipeline)
      (df0 : DataFrame) :
  PyStr.endswith (filename file_) ".csv" = true ->
  model_file w = Loadable p ->
  read_csv (file file_) = Some df0 ->
  upload_csv file_ w = upload_frame p df0 (emit [EvLoad] w).
Proof.
  intros Hname Hmodel Hread. unfold upload_csv. rewrite Hname. run.
  repeat (rewrite Hmodel; run). rewrite Hread. cbn.
  rewrite <- Hmodel. reflexivity.
Qed.

(** The run of [upload_frame] on a batch that passes every step before
    the commit. *)
Lemma upload_frame_run (p : Pipeline) (df0 dfp : DataFrame)
      (preds : list Z) (probs : list (list float)) (w : World) :
  pending w = [] ->
  missing_columns df0 = [] ->
  preprocess_data (with_fraud_type df0) = inr dfp ->
  predict p dfp = inr preds ->
  predict_proba p dfp = inr probs ->
  (forall i pred new_id, (i < List.length preds)%nat ->
     build_txn (with_fraud_type df0) probs (normal_idx_of (classes_ p))
       i pred new_id <> None) ->
  exists new_txns,
    List.length new_txns = List.length preds
    /\ (forall i pred, nth_error preds i = Some pred ->
          nth_error new_txns i =
            build_txn (with_fraud_type df0) probs
              (normal_idx_of (classes_ p)) i pred (uuid4 (i + uuid_count w)))
    /\ upload_frame p df0 w =
         let w1 := draw (List.length preds)
                     (emit [EvPredictProba dfp]
                        (emit [EvPredict dfp]
                           (emit [EvPreprocess (with_fraud_type df0)] w))) in
         match db_fault w with
         | None =>
             (Return {| success := true;
                        message := "File processed and transactions stored.";
                        rowsProcessed := List.length preds |},
              set_session (committed w ++ pending w ++ new_txns)%list []
                (emit [EvAddAll new_txns; EvCommit] w1))
         | Some msg =>
             (Raise (HTTPException 500 ("Database error: " ++ msg)),
              set_session (committed w) []
                (emit [EvAddAll new_txns; EvCommit; EvRollback] w1))
         end.
Proof.
  intros Hpending Hmissing Hpre Hpred Hproba Hvalid.
  set (df := with_fraud_type df0) in *.
  set (w3 := emit [EvPredictProba dfp]
               (emit [EvPredict dfp] (emit [EvPreprocess df] w))).
  destruct (score_rows_build df probs (normal_idx_of (classes_ p)) preds O w3)
    as [new_txns [Hrun [Hlen Hnth]]].
  { intros j pred new_id Hj. now apply Hvalid. }
  assert (Hstorable : forallb storable new_txns = true).
  { apply forallb_forall. intros t Ht.
    destruct (In_nth_error _ _ Ht) as [i Hi].
    assert (Hlt : (i < List.length preds)%nat).
    { rewrite <- Hlen. apply nth_error_Some. congruence. }
    destruct (nth_error preds i) as [pred |] eqn:Hpi;
      [| apply nth_error_None in Hpi; lia].
    rewrite (Hnth i pred Hpi) in Hi.
    exact (build_txn_storable _ _ _ _ _ _ _ Hi). }
  exists new_txns. split; [exact Hlen |]. split; [exact Hnth |].
  unfold upload_frame. rewrite Hmissing. cbn [List.length Nat.eqb negb].
  cbv zeta. fold df.
  erewrite bind_return by (apply preprocess_ok; exact Hpre).
  erewrite bind_return by (apply scored_ok; eassumption).
  cbv beta iota. fold w3. erewrite bind_return by exact Hrun.
  unfold bind at 1. rewrite persist_run. unfold commit_error.
  change (db_fault (draw (List.length preds) w3)) with (db_fault w).
  change (pending (draw (List.length preds) w3)) with (pending w).
  rewrite Hpending. cbn [app]. rewrite Hstorable.
  destruct (db_fault w) as [msg |]; cbn [ret]; now rewrite ?Hlen.
Qed.


(** ** Validation of the columns *)

Lemma missing_columns_nil (df : DataFrame) :
  missing_columns df = [] <->
  forall c, In c required_cols -> has_column df c = true.
Proof.
  unfold missing_columns. split.
  - intros H c Hc. destruct (has_column df c) eqn:E; [reflexivity |].
    assert (Hin : In c (filter (fun c => negb (has_column df c)) required_cols))
      by (apply filter_In; now rewrite E).
    rewrite H in Hin. destruct Hin.
  - intros H.
    destruct (filter (fun c => negb (has_column df c)) required_cols)
      as [| c l] eqn:E; [reflexivity |].
    assert (Hin : In c (filter (fun c => negb (has_column df c)) required_cols))
      by (rewrite E; now left).
    apply filter_In in Hin. destruct Hin as [Hc Hneg].
    rewrite (H c Hc) in Hneg. discriminate.
Qed.

(** The detail of the error names every required column that the frame
    lacks. *)
Lemma missing_columns_named (df : DataFrame) (c : string) :
  In c required_cols -> has_column df c = false ->
  PyStr.contains
    ("Missing columns: " ++ PyStr.repr_list (missing_columns df)) c = true.
Proof.
  unfold missing_columns, required_cols. intros Hc Hmiss. cbn [filter].
  destruct (has_column df "Timestamp") eqn:E1;
    destruct (has_column df "UserID") eqn:E2;
    destruct (has_column df "Amount") eqn:E3;
    destruct (has_column df "City") eqn:E4;
    destruct (has_column df "Category") eqn:E5;
    cbn [negb];
    repeat (destruct Hc as [<- | Hc]; [try congruence; vm_compute; reflexivity |]);
    destruct Hc.
Qed.

(** ** The model file *)

Lemma load_ok (p : Pipeline) (h : exn -> M Pipeline) (w : World) :
  model_file w = Loadable p ->
  try_except joblib_load h w = (Return p, emit [EvLoad] w).
Proof. intros H. run. rewrite H. cbn. rewrite <- H. reflexivity. Qed.

Lemma predict_fraud_model_missing (txn : PredictionRequest.t) (w : World) :
  model_file w = Missing ->
  predict_fraud txn w =
    (Raise (HTTPException 500
              "Model not found. Please train using train_model.py first."), w).
Proof. intros H. unfold predict_fraud. run. now rewrite H. Qed.

Lemma predict_fraud_model_corrupt (txn : PredictionRequest.t) (w : World)
      (msg : string) :
  model_file w = Corrupt msg ->
  predict_fraud txn w =
    (Raise (HTTPException 500 "Failed to load model"), emit [EvLoad] w).
Proof.
  intros H. unfold predict_fraud. run. repeat (rewrite H; run).
  rewrite <- H. reflexivity.
Qed.

Lemma upload_csv_model_corrupt (file_ : UploadFile) (w : World) (msg : string) :
  PyStr.endswith (filename file_) ".csv" = true ->
  model_file w = Corrupt msg ->
  upload_csv file_ w =
    (Raise (HTTPException 500 "Failed to load model"), emit [EvLoad] w).
Proof.
  intros Hname H. unfold upload_csv. rewrite Hname. run.
  repeat (rewrite H; run). rewrite <- H. reflexivity.
Qed.

Lemma upload_csv_missing_run (file_ : UploadFile) (w : World) :
  PyStr.endswith (filename file_) ".csv" = true ->
  model_file w = Missing ->
  upload_csv file_ w =
    (Raise (HTTPException 400
              "Model not found. Please train using model/train.py first."), w).
Proof. intros Hname H. unfold upload_csv. rewrite Hname. run. now rewrite H. Qed.

(** C8, on the upload path with the file of the model missing: the
    handler stops before it loads, reads, scores or stores anything, and
    the status it raises is 400, which is not a server error. *)
Theorem upload_csv_model_missing :
  forall (file_ : UploadFile) (w : World),
    PyStr.endswith (filename file_) ".csv" = true ->
    model_file w = Missing ->
    upload_csv file_ w =
      (Raise (HTTPException 400
                "Model not found. Please train using model/train.py first."), w)
    /\ response_status (fst (upload_csv file_ w)) = 400
    /\ ~ (500 <= response_status (fst (upload_csv file_ w)) < 600).
Proof.
  intros file_ w Hname H.
  rewrite (upload_csv_missing_run file_ w Hname H). cbn.
  repeat split; lia.
Qed.

(** ** Loads of the model per request *)

Lemma require_token_run (authorization : string) (w : World) :
  exists evs,
    require_token authorization w =
      ((if authorized authorization then Return tt
        else Raise (HTTPException 401
                      (if PyStr.startswith authorization "Bearer "
                       then "Invalid token" else "Missing bearer token"))),
       emit evs w)
    /\ forallb not_load evs = true
    /\ forallb (fun ev => negb (scores_or_persists ev)) evs = true.
Proof.
  unfold require_token, authorized, token_of.
  destruct (PyStr.startswith authorization "Bearer "); cbn [negb andb].
  - destruct (String.eqb _ dev_token); cbn [orb].
    + exists []. unfold emit. rewrite app_nil_r. now destruct w.
    + exists [EvDecode (PyStr.strip (PyStr.replace authorization "Bearer " ""))].
      run. now destruct (decode_token _).
  - exists []. unfold emit. rewrite app_nil_r. now destruct w.
Qed.

(** ** A batch with a missing column *)

(** C5.  The required columns are those of the record of a
    transaction, under the headers the upload carries them:
    [Timestamp], [UserID], [Amount], [City] and [Category].  For every
    batch that lacks one of them, the validation is the first thing done
    with the batch: it fails with status 400 and a detail that lists
    every missing column, in a world that is left exactly as it was, so
    before any row is handled.  An upload of a file that holds such a
    batch gives that answer once the model is loaded; and whatever the
    header, the name of the file and the state of the model, a request
    that uploads such a batch fails, stores nothing, and neither
    preprocesses, scores nor adds a row. *)
Theorem upload_missing_columns :
  forall (p : Pipeline) (df0 : DataFrame) (w : World),
    missing_columns df0 <> [] ->
    let detail := "Missing columns: " ++ PyStr.repr_list (missing_columns df0) in
    upload_frame p df0 w = (Raise (HTTPException 400 detail), w)
    /\ (forall c, In c (missing_columns df0) <->
                  In c required_cols /\ has_column df0 c = false)
    /\ (forall c, In c (missing_columns df0) -> PyStr.contains detail c = true)
    /\ (forall (file_ : UploadFile) (w0 : World),
          PyStr.endswith (filename file_) ".csv" = true ->
          model_file w0 = Loadable p ->
          read_csv (file file_) = Some df0 ->
          upload_csv file_ w0 =
            (Raise (HTTPException 400 detail), emit [EvLoad] w0))
    /\ (forall (authorization : string) (file_ : UploadFile) (w0 : World),
          read_csv (file file_) = Some df0 ->
          let r := post_upload authorization file_ w0 in
          (exists e, fst r = Raise e)
          /\ committed (snd r) = committed w0
          /\ exists evs,
               trace (snd r) = (trace w0 ++ evs)%list
               /\ forallb (fun ev => negb (scores_or_persists ev)) evs = true).
Proof.
  intros p df0 w Hmissing detail.
  assert (Hin : forall c, In c (missing_columns df0) <->
                          In c required_cols /\ has_column df0 c = false).
  { intros c. unfold missing_columns. rewrite filter_In.
    now rewrite negb_true_iff. }
  assert (Hframe : forall q w1,
             upload_frame q df0 w1 = (Raise (HTTPException 400 detail), w1)).
  { intros q w1. unfold upload_frame. cbv zeta. fold detail.
    destruct (missing_columns df0) as [| c l]; [now destruct Hmissing |].
    reflexivity. }
  split; [apply Hframe |]. split; [exact Hin |]. split; [| split].
  - intros c Hc. apply Hin in Hc. destruct Hc as [Hreq Hlack].
    now apply missing_columns_named.
  - intros file_ w0 Hname Hmodel Hread.
    rewrite (upload_csv_frame file_ w0 p df0 Hname Hmodel Hread).
    apply Hframe.
  - intros authorization file_ w0 Hread. cbv zeta.
    unfold post_upload, bind.
    destruct (require_token_run authorization w0) as [evs0 [Hrun0 [_ Hok0]]].
    rewrite Hrun0.
    destruct (authorized authorization).
    2: { cbn. split; [eexists; reflexivity |]. split; [reflexivity |].
         now exists evs0. }
    unfold get_db.
    set (w1 := set_session (committed (emit evs0 w0)) [] (emit evs0 w0)).
    assert (Hup : exists e evs,
               upload_csv file_ w1 = (Raise e, emit evs w1)
               /\ forallb (fun ev => negb (scores_or_persists ev)) evs = true).
    { destruct (PyStr.endswith (filename file_) ".csv") eqn:Hname.
      2: { exists (HTTPException 400 "Only CSV files are supported"), [].
           unfold upload_csv. rewrite Hname. cbn. unfold emit.
           rewrite app_nil_r. split; [now destruct w1 | reflexivity]. }
      destruct (model_file w1) as [| msg | q] eqn:Hmodel.
      - eexists. exists [].
        rewrite (upload_csv_missing_run file_ w1 Hname Hmodel).
        unfold emit. rewrite app_nil_r.
        split; [now destruct w1 | reflexivity].
      - eexists. exists [EvLoad].
        rewrite (upload_csv_model_corrupt file_ w1 msg Hname Hmodel).
        split; reflexivity.
      - eexists. exists [EvLoad].
        rewrite (upload_csv_frame file_ w1 q df0 Hname Hmodel Hread), Hframe.
        split; reflexivity. }
    destruct Hup as [e [evs [Hup Hok]]]. rewrite Hup. cbn.
    split; [eexists; reflexivity |]. split; [reflexivity |].
    exists (evs0 ++ evs)%list. rewrite app_assoc.
    split; [reflexivity |]. now rewrite forallb_app, Hok0, Hok.
Qed.

Lemma predict_fraud_loads (txn : PredictionRequest.t) (w : World) :
  model_file (snd (predict_fraud txn w)) = model_file w
  /\ exists evs,
       trace (snd (predict_fraud txn w)) = (trace w ++ evs)%list
       /\ count_loads evs = if model_present (model_file w) then 1%nat else O.
Proof.
  destruct (model_file w) as [| msg | p] eqn:Hmodel.
  - rewrite (predict_fraud_model_missing _ _ Hmodel). cbn.
    split; [exact Hmodel |]. exists []. now rewrite app_nil_r.
  - rewrite (predict_fraud_model_corrupt _ _ _ Hmodel). cbn.
    split; [exact Hmodel |]. now exists [EvLoad].
  - remember (predict_fraud txn w) as x eqn:Hx.
    unfold predict_fraud in Hx. unfold bind at 1 in Hx.
    unfold model_path_exists at 1 in Hx.
    rewrite Hmodel in Hx. cbn [negb] in Hx.
    erewrite bind_return in Hx by (apply load_ok; exact Hmodel).
    cbv beta in Hx. subst x.
    destruct (predict_fraud_tail_emits not_load) with (p := p) (txn := txn)
                                                    (w := emit [EvLoad] w)
      as [Hm [evs [Htr Hok]]]; try reflexivity.
    split; [now rewrite Hm |].
    exists (EvLoad :: evs). rewrite Htr. cbn [emit trace].
    rewrite <- app_assoc. split; [reflexivity |].
    cbn. now rewrite (count_loads_not_load _ Hok).
Qed.

Lemma upload_csv_loads (file_ : UploadFile) (w : World) :
  model_file (snd (upload_csv file_ w)) = model_file w
  /\ exists evs,
       trace (snd (upload_csv file_ w)) = (trace w ++ evs)%list
       /\ count_loads evs =
            if PyStr.endswith (filename file_) ".csv"
               && model_present (model_file w)
            then 1%nat else O.
Proof.
  destruct (PyStr.endswith (filename file_) ".csv") eqn:Hname.
  2: { unfold upload_csv. rewrite Hname. cbn.
       split; [reflexivity |]. exists []. now rewrite app_nil_r. }
  destruct (model_file w) as [| msg | p] eqn:Hmodel.
  - rewrite (upload_csv_missing_run file_ w Hname Hmodel). cbn.
    split; [exact Hmodel |]. exists []. now rewrite app_nil_r.
  - rewrite (upload_csv_model_corrupt _ _ _ Hname Hmodel). cbn.
    split; [exact Hmodel |]. now exists [EvLoad].
  - remember (upload_csv file_ w) as x eqn:Hx.
    unfold upload_csv in Hx. rewrite Hname in Hx. cbn [negb] in Hx.
    unfold bind at 1 in Hx. unfold model_path_exists at 1 in Hx.
    rewrite Hmodel in Hx. cbn [negb] in Hx.
    erewrite bind_return in Hx by (apply load_ok; exact Hmodel).
    cbv beta in Hx. subst x.
    destruct (upload_csv_tail_emits not_load) with (p := p) (file_ := file_)
                                                 (w := emit [EvLoad] w)
      as [Hm [evs [Htr Hok]]]; try reflexivity.
    split; [now rewrite Hm |].
    exists (EvLoad :: evs). rewrite Htr. cbn [emit trace].
    rewrite <- app_assoc. split; [reflexivity |].
    cbn. now rewrite (count_loads_not_load _ Hok).
Qed.

Lemma get_db_fields {A} (handler : M A) (w : World) :
  let w0 := set_session (committed w) [] w in
  model_file (snd (get_db handler w)) = model_file (snd (handler w0))
  /\ trace (snd (get_db handler w)) = trace (snd (handler w0))
  /\ fst (get_db handler w) = fst (handler w0).
Proof.
  cbv zeta. unfold get_db.
  destruct (handler (set_session (committed w) [] w)) as [r w1].
  now cbn.
Qed.

(** A request leaves the file of the model alone and loads it once when
    it gets as far as the load, and not at all otherwise. *)
Lemma serve_loads (r : Request) (w : World) :
  model_file (serve r w) = model_file w
  /\ count_loads (trace (serve r w)) =
       (count_loads (trace w)
        + if loads_model (model_file w) r then 1 else 0)%nat.
Proof.
  destruct r as [authorization txn | authorization file_];
    unfold serve, loads_model.
  - unfold post_predict.
    destruct (get_db_fields (predict_fraud txn) w) as [Hm [Htr _]].
    destruct (predict_fraud_loads txn (set_session (committed w) [] w))
      as [Hm' [evs [Htr' Hcount]]].
    rewrite Hm, Htr, Hm', Htr'. cbn [set_session model_file trace] in *.
    split; [reflexivity |]. now rewrite count_loads_app, Hcount.
  - unfold post_upload. unfold bind.
    destruct (require_token_run authorization w) as [evs0 [Hrun [Hok0 _]]].
    rewrite Hrun.
    destruct (authorized authorization); cbn [andb].
    + destruct (get_db_fields (upload_csv file_) (emit evs0 w)) as [Hm [Htr _]].
      destruct (upload_csv_loads file_
                  (set_session (committed (emit evs0 w)) [] (emit evs0 w)))
        as [Hm' [evs [Htr' Hcount]]].
      rewrite Hm, Htr, Hm', Htr'. cbn [set_session model_file trace emit] in *.
      split; [reflexivity |].
      rewrite !count_loads_app, Hcount, (count_loads_not_load _ Hok0). lia.
    + cbn. split; [reflexivity |].
      rewrite count_loads_app, (count_loads_not_load _ Hok0). lia.
Qed.

(** C7, as the code has it.  The pipeline is not kept between requests:
    a prediction for which the file of the model exists, and an upload
    that passes the token check and the check of the file name and for
    which the file exists, each deserialize the model once, and no other
    request loads it.  Over a sequence of requests the number of loads
    is the number of such requests, so at most one per request. *)
Theorem model_loaded_once_per_request :
  forall (rs : list Request) (w : World),
    model_file (serve_all rs w) = model_file w
    /\ count_loads (trace (serve_all rs w)) =
         (count_loads (trace w)
          + List.length (filter (loads_model (model_file w)) rs))%nat
    /\ (count_loads (trace (serve_all rs w))
        <= count_loads (trace w) + List.length rs)%nat.
Proof.
  assert (Hmain : forall rs w,
             model_file (serve_all rs w) = model_file w
             /\ count_loads (trace (serve_all rs w)) =
                  (count_loads (trace w)
                   + List.length (filter (loads_model (model_file w)) rs))%nat).
  { induction rs as [| r rs IH]; intros w; cbn [serve_all fold_left].
    - cbn. split; [reflexivity | lia].
    - destruct (serve_loads r w) as [Hm Hcount].
      destruct (IH (serve r w)) as [Hm' Hcount'].
      unfold serve_all in *. rewrite Hm', Hcount', Hm, Hcount.
      split; [reflexivity |]. cbn [filter].
      destruct (loads_model (model_file w) r); cbn [List.length]; lia. }
  intros rs w. destruct (Hmain rs w) as [Hm Hcount].
  split; [exact Hm |]. split; [exact Hcount |].
  rewrite Hcount. pose proof (filter_length_le (loads_model (model_file w)) rs).
  lia.
Qed.

(** ** The routes and the token *)

(** The upload route stops at the token check for a header that
    [require_token] rejects: status 401, nothing loaded, scored or
    stored. *)
Lemma post_upload_unauthorized (authorization : string) (file_ : UploadFile)
      (w : World) :
  authorized authorization = false ->
  response_status (fst (post_upload authorization file_ w)) = 401
  /\ committed (snd (post_upload authorization file_ w)) = committed w
  /\ exists evs,
       trace (snd (post_upload authorization file_ w)) = (trace w ++ evs)%list
       /\ forallb not_load evs = true
       /\ forallb (fun ev => negb (scores_or_persists ev)) evs = true.
Proof.
  intros Hauth. unfold post_upload, bind.
  destruct (require_token_run authorization w) as [evs [Hrun [Hok Hok']]].
  rewrite Hrun, Hauth. cbn.
  split; [reflexivity |]. split; [reflexivity |]. now exists evs.
Qed.

(** The prediction route never looks at the header. *)
Lemma post_predict_any_header (a b : string) (txn : PredictionRequest.t) :
  post_predict a txn = post_predict b txn.
Proof. reflexivity. Qed.

End Properties.

(** * The handlers on concrete requests *)

Module Runs.

Import Fixtures.

#[local] Existing Instance Fixtures.collab.

(** C10 at a header with blanks around the token, in a world where
    [decode_token] would reject it. *)
Lemma require_token_dev_token_witness :
  require_token "Bearer  hardcoded-dev-token-for-deployment "
    (world Missing [] None)
  = (Return tt, world Missing [] None).
Proof.
  exact (proj1 (require_token_dev_token
                  "Bearer  hardcoded-dev-token-for-deployment "
                  (world Missing [] None) eq_refl eq_refl)).
Defined.

(** C1 at the two-class model, whose label 0 is at position 0, on a row
    that the model labels 1 with probability 0 for label 0. *)
Lemma risk_mapper_rule_witness :
  fst (predict_last_row pipeline last_large (world (Loadable pipeline) [] None))
  = Return {| PredictionResponse.is_fraud := true;
              PredictionResponse.risk_score := 100;
              PredictionResponse.status := "Suspicious" |}.
Proof.
  exact (proj1 (proj2 (risk_mapper_rule pipeline 0 eq_refl))
           last_large 1 [] [0; 1]%float [] 0%float
           (world (Loadable pipeline) [] None) eq_refl eq_refl eq_refl).
Defined.

Lemma no_normal_class : ~ In 0 (classes_ pipeline_no_normal).
Proof. cbn. intros [H | [H | []]]; discriminate H. Defined.

(** C3 at a model trained on the labels 1 and 2 only. *)
Lemma risk_mapper_without_normal_class_witness :
  fst (predict_last_row pipeline_no_normal last_large
         (world (Loadable pipeline_no_normal) [] None))
  = Return {| PredictionResponse.is_fraud := true;
              PredictionResponse.risk_score := 100;
              PredictionResponse.status := "Suspicious" |}.
Proof.
  exact (proj1 (risk_mapper_without_normal_class pipeline_no_normal
                  no_normal_class)
           last_large 2 [] [0.25; 0.75]%float []
           (world (Loadable pipeline_no_normal) [] None) eq_refl eq_refl).
Defined.

Lemma jan3_is_a_time : jan3 <> NaT.
Proof. discriminate. Defined.

Lemma jan3_parses :
  to_datetime (CStr "2024-01-03T00:00:00") = Some jan3.
Proof. vm_compute. reflexivity. Defined.



(** C9: a first transaction of user [u9], which the model labels 0 with
    probability 1. *)
Lemma empty_history_is_scored_witness :
  select_history table2 "u9" jan3 = []
  /\ fst (predict_fraud (request "2024-01-03T00:00:00" "u9" 50)
            (world (Loadable pipeline) table2 None))
     = Return {| PredictionResponse.is_fraud := false;
                 PredictionResponse.risk_score := 0;
                 PredictionResponse.status := "Safe" |}.
Proof.
  destruct (empty_history_is_scored
              (request "2024-01-03T00:00:00" "u9" 50)
              (world (Loadable pipeline) table2 None)
              pipeline jan3
              (frame_of_records
                 [current_record (request "2024-01-03T00:00:00" "u9" 50) jan3])
              0 [] [1; 0]%float [])
    as [Hnil [_ [resp [Hrun [_ [_ [_ [Hrule _]]]]]]]];
    try reflexivity.
  - exact jan3_is_a_time.
  - intros r [<- | [<- | []]] Huid; discriminate Huid.
  - intros [| [| k]] Hk; cbn in Hk |- *; congruence.
  - split; [exact Hnil |]. rewrite Hrun.
    now rewrite (proj2 (Hrule 0%nat 1%float eq_refl eq_refl)).
Defined.


(** The same batch against a storage that accepts the commit. *)
Lemma upload_batch_stored :
  let w := world (Loadable pipeline) table2 None in
  let r := get_db (upload_csv (upload "batch.csv" "good")) w in
  fst r = Return {| success := true;
                    message := "File processed and transactions stored.";
                    rowsProcessed := 2 |}
  /\ committed (snd r) = (table2 ++ good_txns)%list
  /\ pending (snd r) = [].
Proof. cbv zeta. repeat split; vm_compute; reflexivity. Qed.

Lemma no_city_is_missing : missing_columns frame_no_city <> [].
Proof. vm_compute. discriminate. Defined.

(** C5: a batch without the column [City]. *)
Lemma upload_missing_columns_witness :
  upload_csv (upload "batch.csv" "no-city")
    (world (Loadable pipeline) table2 None)
  = (Raise (HTTPException 400 "Missing columns: ['City']"),
     emit [EvLoad] (world (Loadable pipeline) table2 None)).
Proof.
  exact (proj1 (proj2 (proj2 (proj2
           (upload_missing_columns pipeline frame_no_city
              (world (Loadable pipeline) table2 None) no_city_is_missing))))
           (upload "batch.csv" "no-city")
           (world (Loadable pipeline) table2 None)
           eq_refl eq_refl eq_refl).
Defined.

(** C8: an upload while the file of the model is missing. *)
Lemma upload_csv_model_missing_witness :
  response_status
    (fst (upload_csv (upload "batch.csv" "good") (world Missing table2 None)))
  = 400.
Proof.
  exact (proj1 (proj2 (upload_csv_model_missing
                         (upload "batch.csv" "good")
                         (world Missing table2 None) eq_refl eq_refl))).
Defined.

(** The prediction path answers the same condition with status 500. *)
Lemma predict_model_missing_status :
  response_status
    (fst (post_predict "" (request "2024-01-03T00:00:00" "u1" 50) (world Missing table2 None)))
  = 500.
Proof. reflexivity. Qed.

(** C7: two predictions in a row deserialize the model twice. *)
Lemma model_loaded_twice :
  let w := world (Loadable pipeline) table2 None in
  let rs := [PostPredict "" (request "2024-01-03T00:00:00" "u1" 50);
             PostPredict "" (request "2024-01-04T00:00:00" "u1" 60)] in
  count_loads (trace (serve_all rs w)) = 2%nat
  /\ ~ (count_loads (trace (serve_all rs w)) <= 1)%nat.
Proof.
  cbv zeta.
  assert (H : count_loads
                (trace (serve_all
                          [PostPredict "" (request "2024-01-03T00:00:00" "u1" 50);
                           PostPredict "" (request "2024-01-04T00:00:00" "u1" 60)]
                          (world (Loadable pipeline) table2 None))) = 2%nat)
    by (vm_compute; reflexivity).
  rewrite H. split; [reflexivity | lia].
Qed.

(** C6: a prediction request without an [Authorization] header is
    answered with a prediction, although [require_token] rejects that
    header and the upload route answers it with status 401. *)
Theorem predict_without_token :
  let w := world (Loadable pipeline) table2 None in
  fst (post_predict "" (request "2024-01-03T00:00:00" "u1" 5000) w)
    = Return {| PredictionResponse.is_fraud := true;
                PredictionResponse.risk_score := 100;
                PredictionResponse.status := "Suspicious" |}
  /\ fst (require_token "" w) = Raise (HTTPException 401 "Missing bearer token")
  /\ fst (post_upload "" (upload "batch.csv" "good") w)
     = Raise (HTTPException 401 "Missing bearer token")
  /\ authorized "" = false.
Proof. cbv zeta. repeat split; vm_compute; reflexivity. Qed.

End Runs.

(** * Further properties of the handlers *)

(** A computation that changes nothing but the trace, to which it
    appends events accepted by [ok]. *)
Definition logs_only (ok : Event -> bool) {A} (c : M A) : Prop :=
  forall w, exists evs, snd (c w) = emit evs w /\ forallb ok evs = true.

(** A computation whose exceptions all satisfy [E]. *)
Definition raises_only (E : exn -> Prop) {A} (c : M A) : Prop :=
  forall w e, fst (c w) = Raise e -> E e.

(** A computation whose results all satisfy [P]. *)
Definition returns_only {A} (P : A -> Prop) (c : M A) : Prop :=
  forall w a, fst (c w) = Return a -> P a.

(** The events of a prediction: the model is loaded and called, the
    history is read, and nothing is decoded or stored. *)
Definition reads_only (ev : Event) : bool :=
  match ev with
  | EvLoad | EvQuery _ _ | EvPreprocess _ | EvPredict _ | EvPredictProba _ => true
  | EvDecode _ | EvAddAll _ | EvCommit | EvRollback => false
  end.

(** What [upload_csv] stores: rows that are not training data, carry no
    flag and are Safe or Suspicious. *)
Definition scored_row (t : TransactionModel.t) : Prop :=
  TransactionModel.is_training_data t = false
  /\ TransactionModel.flag_type t = None
  /\ TransactionModel.flag_reason t = None
  /\ (TransactionModel.status t = "Safe"
      \/ TransactionModel.status t = "Suspicious").

(** A frame whose rows have one cell per column. *)
Definition aligned (df : DataFrame) : Prop :=
  Forall (fun r => List.length r = List.length (columns df)) (rows df).

(** A string without blank characters. *)
Fixpoint no_blank (s : string) : bool :=
  match s with
  | EmptyString => true
  | String c rest => negb (PyStr.isspace c) && no_blank rest
  end.

Arguments select_history : simpl never.
Arguments order_by_timestamp_desc : simpl never.

Lemma emit_nil (w : World) : emit [] w = w.
Proof. destruct w. unfold emit. cbn. now rewrite app_nil_r. Qed.

Lemma emit_emit (a b : list Event) (w : World) :
  emit b (emit a w) = emit (a ++ b) w.
Proof. unfold emit. cbn. now rewrite app_assoc. Qed.

Section Behaviour.

Context {collab : Collaborators}.

(** ** Computations that only log *)

Section LogsOnly.

Variable ok : Event -> bool.

Lemma logs_quiet {A} (c : M A) :
  (forall w, snd (c w) = w) -> logs_only ok c.
Proof. intros H w. exists []. now rewrite H, emit_nil. Qed.

Lemma logs_ret {A} (a : A) : logs_only ok (ret a).
Proof. now apply logs_quiet. Qed.

Lemma logs_raise {A} (e : exn) : logs_only ok (@raise A e).
Proof. now apply logs_quiet. Qed.

Lemma logs_log (ev : Event) : ok ev = true -> logs_only ok (log ev).
Proof. intros H w. exists [ev]. cbn. now rewrite H. Qed.

Lemma logs_bind {A B} (c : M A) (k : A -> M B) :
  logs_only ok c -> (forall a, logs_only ok (k a)) -> logs_only ok (bind c k).
Proof.
  intros Hc Hk w. unfold bind.
  destruct (Hc w) as [evs [Hw Hok]].
  destruct (c w) as [[a | e] w1]; cbn in Hw; subst w1.
  - destruct (Hk a (emit evs w)) as [evs' [Hw' Hok']].
    exists (evs ++ evs')%list. rewrite Hw', emit_emit.
    split; [reflexivity |]. now rewrite forallb_app, Hok, Hok'.
  - now exists evs.
Qed.

Lemma logs_try {A} (c : M A) (handler : exn -> M A) :
  logs_only ok c -> (forall e, logs_only ok (handler e)) ->
  logs_only ok (try_except c handler).
Proof.
  intros Hc Hh w. unfold try_except.
  destruct (Hc w) as [evs [Hw Hok]].
  destruct (c w) as [[a | e] w1]; cbn in Hw; subst w1.
  - now exists evs.
  - destruct (Hh e (emit evs w)) as [evs' [Hw' Hok']].
    exists (evs ++ evs')%list. rewrite Hw', emit_emit.
    split; [reflexivity |]. now rewrite forallb_app, Hok, Hok'.
Qed.

Lemma logs_of_option {A} (msg : string) (o : option A) :
  logs_only ok (of_option msg o).
Proof. destruct o; [apply logs_ret | apply logs_raise]. Qed.

Lemma logs_of_sum {A} (r : string + A) : logs_only ok (of_sum r).
Proof. destruct r; [apply logs_raise | apply logs_ret]. Qed.

End LogsOnly.

Ltac logs :=
  repeat lazymatch goal with
    | |- logs_only _ (ret _) => apply logs_ret
    | |- logs_only _ (raise _) => apply logs_raise
    | |- logs_only _ (of_option _ _) => apply logs_of_option
    | |- logs_only _ (of_sum _) => apply logs_of_sum
    | |- logs_only _ (log _) => apply logs_log; reflexivity
    | |- logs_only _ (bind _ _) => apply logs_bind; [| intros ?]
    | |- logs_only _ (try_except _ _) => apply logs_try; [| intros ?]
    | |- logs_only _ (if ?b then _ else _) => destruct b
    | |- logs_only _ (fun _ => _) => apply logs_quiet; intros ?; reflexivity
    end.

Lemma predict_fraud_logs (txn : PredictionRequest.t) :
  logs_only reads_only (predict_fraud txn).
Proof.
  unfold predict_fraud, model_path_exists, joblib_load, query_history,
    predict_from_frame, call_preprocess_data, iloc_last, predict_last_row,
    call_predict, call_predict_proba.
  logs.
  apply logs_quiet. intros w. now destruct (model_file w).
Qed.

(** X1. A prediction request never writes: whatever the header, the
    request and the world, the table, the counter of identifiers, the
    model file and the fault of the storage are as before, no object is
    pending, and the events of the request are loads, the history query
    and calls of the preprocessing and of the model only. *)
Theorem post_predict_read_only :
  forall (authorization : string) (txn : PredictionRequest.t) (w : World),
    let w' := snd (post_predict authorization txn w) in
    committed w' = committed w
    /\ pending w' = []
    /\ uuid_count w' = uuid_count w
    /\ model_file w' = model_file w
    /\ db_fault w' = db_fault w
    /\ exists evs,
         trace w' = (trace w ++ evs)%list /\ forallb reads_only evs = true.
Proof.
  intros authorization txn w. cbv zeta. unfold post_predict, get_db.
  destruct (predict_fraud_logs txn (set_session (committed w) [] w))
    as [evs [Hw Hok]].
  destruct (predict_fraud txn (set_session (committed w) [] w)) as [r w1].
  cbn in Hw. subst w1. cbn.
  repeat split. now exists evs.
Qed.

(** ** Results and exceptions *)

Lemma returns_bind {A B} (P : B -> Prop) (c : M A) (k : A -> M B) :
  (forall a, returns_only P (k a)) -> returns_only P (bind c k).
Proof.
  intros Hk w b. unfold bind.
  destruct (c w) as [[a | e] w1]; [apply Hk | discriminate].
Qed.

Lemma returns_try {A} (P : A -> Prop) (c : M A) (handler : exn -> M A) :
  returns_only P c -> (forall e, returns_only P (handler e)) ->
  returns_only P (try_except c handler).
Proof.
  intros Hc Hh w a. unfold try_except.
  specialize (Hc w). destruct (c w) as [[a' | e] w1]; [exact (Hc a) | apply Hh].
Qed.

Lemma returns_raise {A} (P : A -> Prop) (e : exn) : returns_only P (@raise A e).
Proof. intros w a H. discriminate H. Qed.

Lemma returns_ret {A} (P : A -> Prop) (a : A) : P a -> returns_only P (ret a).
Proof. intros H w a' E. cbn in E. now injection E as <-. Qed.

Lemma raises_bind {A B} (E : exn -> Prop) (c : M A) (k : A -> M B) :
  raises_only E c -> (forall a, raises_only E (k a)) ->
  raises_only E (bind c k).
Proof.
  intros Hc Hk w e. unfold bind. specialize (Hc w).
  destruct (c w) as [[a | e'] w1]; [apply Hk |].
  cbn. intros H. injection H as <-. now apply Hc.
Qed.

Lemma raises_try {A} (E : exn -> Prop) (c : M A) (handler : exn -> M A) :
  (forall e, raises_only E (handler e)) -> raises_only E (try_except c handler).
Proof.
  intros Hh w e. unfold try_except.
  destruct (c w) as [[a | e'] w1]; [discriminate | apply Hh].
Qed.

Lemma raises_raise {A} (E : exn -> Prop) (e : exn) :
  E e -> raises_only E (@raise A e).
Proof. intros H w e' Heq. cbn in Heq. now injection Heq as <-. Qed.

Lemma raises_ret {A} (E : exn -> Prop) (a : A) : raises_only E (ret a).
Proof. intros w e H. discriminate H. Qed.

Lemma raises_of_option {A} (E : exn -> Prop) (msg : string) (o : option A) :
  E (PyError msg) -> raises_only E (of_option msg o).
Proof. intros H. destruct o; [apply raises_ret | now apply raises_raise]. Qed.

(** The response of a prediction names one verdict twice. *)
Definition consistent (resp : PredictionResponse.t) : Prop :=
  PredictionResponse.status resp =
    if PredictionResponse.is_fraud resp then "Suspicious" else "Safe".

(** X2. Whenever a prediction is answered, its status is Suspicious
    exactly when [is_fraud] is set and Safe otherwise, for every model,
    every preprocessing and every stored history. *)
Theorem predict_response_consistent :
  forall (authorization : string) (txn : PredictionRequest.t) (w : World)
         (resp : PredictionResponse.t),
    fst (post_predict authorization txn w) = Return resp ->
    PredictionResponse.status resp =
      (if PredictionResponse.is_fraud resp then "Suspicious" else "Safe")
    /\ (PredictionResponse.is_fraud resp = true <->
        PredictionResponse.status resp = "Suspicious").
Proof.
  intros authorization txn w resp H.
  assert (Hc : returns_only consistent (predict_fraud txn)).
  { unfold predict_fraud. apply returns_bind. intros present.
    destruct (negb present); [apply returns_raise |].
    apply returns_bind. intros pipeline.
    apply returns_bind. intros current_ts.
    apply returns_bind. intros history_rows.
    unfold predict_from_frame.
    apply returns_bind. intros df_processed.
    apply returns_bind. intros last_row.
    apply returns_try; [| intros e; apply returns_raise].
    unfold predict_last_row.
    repeat (apply returns_bind; intros ?).
    apply returns_ret. unfold consistent. cbn. reflexivity. }
  unfold post_predict, get_db in H.
  specialize (Hc (set_session (committed w) [] w) resp).
  destruct (predict_fraud txn (set_session (committed w) [] w)) as [r w1].
  cbn in H, Hc. specialize (Hc H). unfold consistent in Hc.
  split; [exact Hc |]. rewrite Hc.
  destruct (PredictionResponse.is_fraud resp); split; intros E;
    (reflexivity || discriminate E).
Qed.

Lemma returns_bind_with {A B} (R : A -> Prop) (P : B -> Prop)
      (c : M A) (k : A -> M B) :
  returns_only R c -> (forall a, R a -> returns_only P (k a)) ->
  returns_only P (bind c k).
Proof.
  intros Hc Hk w b. unfold bind. specialize (Hc w).
  destruct (c w) as [[a | e] w1]; [| discriminate].
  apply Hk. now apply Hc.
Qed.

Lemma raises_of_sum {A} (E : exn -> Prop) (r : string + A) :
  (forall msg, E (PyError msg)) -> raises_only E (of_sum r).
Proof. intros H. destruct r; [now apply raises_raise | apply raises_ret]. Qed.

Lemma raises_log (E : exn -> Prop) (ev : Event) : raises_only E (log ev).
Proof. intros w e H. discriminate H. Qed.

Ltac raises :=
  repeat lazymatch goal with
    | |- raises_only _ (ret _) => apply raises_ret
    | |- raises_only _ (raise _) => apply raises_raise; cbn; auto
    | |- raises_only _ (of_option _ _) => apply raises_of_option; cbn; auto
    | |- raises_only _ (of_sum _) => apply raises_of_sum; intros ?; cbn; auto
    | |- raises_only _ (log _) => apply raises_log
    | |- raises_only _ (bind _ _) => apply raises_bind; [| intros ?]
    | |- raises_only _ (try_except _ _) => apply raises_try; intros ?
    | |- raises_only _ (if ?b then _ else _) => destruct b
    | |- raises_only _ (let '(_, _) := ?x in _) => destruct x
    end.

(** The exceptions that leave [predict_fraud]. *)
Definition predict_error (txn : PredictionRequest.t) (e : exn) : Prop :=
  response_status (@Raise PredictionResponse.t e) = 500
  \/ (e = HTTPException 400 "Invalid timestamp format"
      /\ to_datetime (CStr (PredictionRequest.timestamp txn)) = None).

Lemma predict_fraud_raises (txn : PredictionRequest.t) :
  raises_only (predict_error txn) (predict_fraud txn).
Proof.
  unfold predict_fraud, predict_error. apply raises_bind.
  { intros w e H. discriminate H. }
  intros present. destruct (negb present); [raises |].
  apply raises_bind; [raises |]. intros pipeline.
  destruct (to_datetime (CStr (PredictionRequest.timestamp txn))) as [ts |] eqn:Hts.
  - apply raises_bind.
    { intros w e H. discriminate H. }
    intros current_ts.
    unfold query_history, predict_from_frame, iloc_last. raises.
    intros w e H. cbn [fst] in H.
    destruct (current_ts =? NaT); [injection H as <-; now left | discriminate H].
  - apply raises_bind; [raises |]. intros current_ts.
    unfold query_history, predict_from_frame, iloc_last. raises.
    intros w e H. cbn [fst] in H.
    destruct (current_ts =? NaT); [injection H as <-; now left | discriminate H].
Qed.

(** X3. A prediction request that fails is answered with status 500,
    except that a timestamp on which [pd.to_datetime] raises is answered
    with status 400 and the detail [Invalid timestamp format]; that
    answer is given exactly when the model loads and [pd.to_datetime]
    raises, and then neither the history is read nor the model called.
    A timestamp that [pd.to_datetime] reads as [NaT] passes that check:
    the history query then raises, the error is not caught, the answer
    is a status 500, and the handler stops at the query, before any
    preprocessing. *)
Theorem predict_error_statuses :
  forall (authorization : string) (txn : PredictionRequest.t) (w : World),
    (forall e, fst (post_predict authorization txn w) = Raise e ->
               response_status (@Raise PredictionResponse.t e) = 500
               \/ e = HTTPException 400 "Invalid timestamp format")
    /\ (fst (post_predict authorization txn w)
          = Raise (HTTPException 400 "Invalid timestamp format")
        <-> (exists p, model_file w = Loadable p)
            /\ to_datetime (CStr (PredictionRequest.timestamp txn)) = None)
    /\ ((exists p, model_file w = Loadable p) ->
        to_datetime (CStr (PredictionRequest.timestamp txn)) = None ->
        trace (snd (post_predict authorization txn w))
          = (trace w ++ [EvLoad])%list)
    /\ ((exists p, model_file w = Loadable p) ->
        to_datetime (CStr (PredictionRequest.timestamp txn)) = Some NaT ->
        fst (post_predict authorization txn w) = Raise (PyError nat_error)
        /\ response_status (fst (post_predict authorization txn w)) = 500
        /\ trace (snd (post_predict authorization txn w))
           = (trace w ++ [EvLoad; EvQuery (PredictionRequest.user_id txn) NaT])%list).
Proof.
  intros authorization txn w.
  set (w0 := set_session (committed w) [] w).
  assert (Hfields : fst (post_predict authorization txn w)
                      = fst (predict_fraud txn w0)
                    /\ trace (snd (post_predict authorization txn w))
                         = trace (snd (predict_fraud txn w0))).
  { unfold post_predict, get_db. fold w0.
    now destruct (predict_fraud txn w0) as [r w1]. }
  destruct Hfields as [Hfst Htrace]. rewrite Hfst, Htrace.
  assert (Hbad : forall p, model_file w = Loadable p ->
                  to_datetime (CStr (PredictionRequest.timestamp txn)) = None ->
                  predict_fraud txn w0
                    = (Raise (HTTPException 400 "Invalid timestamp format"),
                       emit [EvLoad] w0)).
  { intros p Hmodel Hts. unfold predict_fraud.
    unfold bind at 1. unfold model_path_exists at 1.
    change (model_file w0) with (model_file w). rewrite Hmodel. cbn [negb].
    erewrite bind_return by (apply load_ok; exact Hmodel).
    unfold bind at 1, try_except. now rewrite Hts. }
  assert (Hnat : forall p, model_file w = Loadable p ->
                  to_datetime (CStr (PredictionRequest.timestamp txn)) = Some NaT ->
                  predict_fraud txn w0
                    = (Raise (PyError nat_error),
                       emit [EvQuery (PredictionRequest.user_id txn) NaT]
                         (emit [EvLoad] w0))).
  { intros p Hmodel Hts. unfold predict_fraud.
    unfold bind at 1. unfold model_path_exists at 1.
    change (model_file w0) with (model_file w). rewrite Hmodel. cbn [negb].
    erewrite bind_return by (apply load_ok; exact Hmodel).
    unfold bind at 1, try_except. rewrite Hts. cbn [of_option ret].
    unfold bind at 1, query_history, bind, log. reflexivity. }
  split; [| split; [| split]].
  4: { intros [p Hmodel] Hts. rewrite (Hnat p Hmodel Hts). cbn.
       split; [reflexivity |]. split; [reflexivity |].
       now rewrite <- app_assoc. }
  - intros e He. destruct (predict_fraud_raises txn w0 e He) as [H | [H _]];
      [now left | now right].
  - split.
    + intros He.
      destruct (predict_fraud_raises txn w0 _ He) as [H | [_ Hts]];
        [discriminate H |].
      split; [| exact Hts].
      destruct (model_file w) as [| msg | p] eqn:Hmodel.
      * rewrite (predict_fraud_model_missing txn w0 Hmodel) in He. discriminate He.
      * rewrite (predict_fraud_model_corrupt txn w0 msg Hmodel) in He.
        discriminate He.
      * now exists p.
    + intros [[p Hmodel] Hts]. now rewrite (Hbad p Hmodel Hts).
  - intros [p Hmodel] Hts. now rewrite (Hbad p Hmodel Hts).
Qed.

(** ** Uploads *)

(** A computation that leaves the table, the session and the fault of the
    storage alone. *)
Definition keeps_session {A} (c : M A) : Prop :=
  forall w,
    committed (snd (c w)) = committed w
    /\ pending (snd (c w)) = pending w
    /\ db_fault (snd (c w)) = db_fault w.

(** A computation that, started on the table [tbl] with nothing pending,
    either returns with [Q] or raises with the table and the session as
    they were. *)
Definition atomic {A} (tbl : list TransactionModel.t) (c : M A)
           (Q : A -> World -> Prop) : Prop :=
  forall w, committed w = tbl -> pending w = [] ->
    match c w with
    | (Return a, w') => Q a w'
    | (Raise _, w') => committed w' = tbl /\ pending w' = []
    end.

Lemma keeps_ret {A} (a : A) : keeps_session (ret a).
Proof. intros w. now cbn. Qed.

Lemma keeps_raise {A} (e : exn) : keeps_session (@raise A e).
Proof. intros w. now cbn. Qed.

Lemma keeps_log (ev : Event) : keeps_session (log ev).
Proof. intros w. now cbn. Qed.

Lemma keeps_bind {A B} (c : M A) (k : A -> M B) :
  keeps_session c -> (forall a, keeps_session (k a)) -> keeps_session (bind c k).
Proof.
  intros Hc Hk w. unfold bind. destruct (Hc w) as [H1 [H2 H3]].
  destruct (c w) as [[a | e] w1]; cbn in *.
  - destruct (Hk a w1) as [H1' [H2' H3']]. repeat split; congruence.
  - now repeat split.
Qed.

Lemma keeps_try {A} (c : M A) (handler : exn -> M A) :
  keeps_session c -> (forall e, keeps_session (handler e)) ->
  keeps_session (try_except c handler).
Proof.
  intros Hc Hh w. unfold try_except. destruct (Hc w) as [H1 [H2 H3]].
  destruct (c w) as [[a | e] w1]; cbn in *.
  - now repeat split.
  - destruct (Hh e w1) as [H1' [H2' H3']]. repeat split; congruence.
Qed.

Lemma keeps_of_option {A} (msg : string) (o : option A) :
  keeps_session (of_option msg o).
Proof. destruct o; [apply keeps_ret | apply keeps_raise]. Qed.

Lemma keeps_of_sum {A} (r : string + A) : keeps_session (of_sum r).
Proof. destruct r; [apply keeps_raise | apply keeps_ret]. Qed.

Ltac keeps :=
  repeat lazymatch goal with
    | |- keeps_session (ret _) => apply keeps_ret
    | |- keeps_session (raise _) => apply keeps_raise
    | |- keeps_session (of_option _ _) => apply keeps_of_option
    | |- keeps_session (of_sum _) => apply keeps_of_sum
    | |- keeps_session (log _) => apply keeps_log
    | |- keeps_session (bind _ _) => apply keeps_bind; [| intros ?]
    | |- keeps_session (try_except _ _) => apply keeps_try; [| intros ?]
    | |- keeps_session (if ?b then _ else _) => destruct b
    | |- keeps_session (let '(_, _) := ?x in _) => destruct x
    | |- keeps_session (fun _ => _) => intros ?; cbn; repeat split; reflexivity
    end.

Lemma atomic_bind {A B} (tbl : list TransactionModel.t) (R : A -> Prop)
      (c : M A) (k : A -> M B) (Q : B -> World -> Prop) :
  keeps_session c -> returns_only R c ->
  (forall a, R a -> atomic tbl (k a) Q) ->
  atomic tbl (bind c k) Q.
Proof.
  intros Hkeep Hret Hk w Htbl Hpend. unfold bind.
  destruct (Hkeep w) as [H1 [H2 _]]. specialize (Hret w).
  destruct (c w) as [[a | e] w1]; cbn in *.
  - apply (Hk a (Hret a eq_refl) w1); congruence.
  - split; congruence.
Qed.

Lemma atomic_raise {A} (tbl : list TransactionModel.t) (e : exn)
      (Q : A -> World -> Prop) :
  atomic tbl (raise e) Q.
Proof. intros w Htbl Hpend. now cbn. Qed.

Lemma returns_any {A} (c : M A) : returns_only (fun _ => True) c.
Proof. intros w a _. exact I. Qed.

Lemma score_row_keeps df probs normal_idx i pred :
  keeps_session (score_row df probs normal_idx i pred).
Proof. unfold score_row, risk_and_status, iloc_cell, new_uuid. keeps. Qed.

Lemma score_rows_keeps df probs normal_idx preds :
  forall i, keeps_session (score_rows df probs normal_idx i preds).
Proof.
  induction preds as [| pred rest IH]; intros i.
  - unfold score_rows. keeps.
  - change (score_rows df probs normal_idx i (pred :: rest))
      with (t <- score_row df probs normal_idx i pred ;;
            ts <- score_rows df probs normal_idx (S i) rest ;;
            ret (t :: ts)).
    apply keeps_bind; [apply score_row_keeps |]. intros t.
    apply keeps_bind; [apply IH | intros; apply keeps_ret].
Qed.

Lemma score_row_returns df probs normal_idx i pred :
  returns_only scored_row (score_row df probs normal_idx i pred).
Proof.
  unfold score_row.
  apply returns_bind_with
    with (R := fun rs : float * string => snd rs = "Safe" \/ snd rs = "Suspicious").
  - unfold risk_and_status. apply returns_bind. intros fraud_prob.
    apply returns_ret. cbn. destruct (negb (pred =? 0)); auto.
  - intros [risk status] Hstatus. cbn in Hstatus.
    repeat (apply returns_bind; intros ?).
    apply returns_ret. unfold scored_row. cbn. auto.
Qed.

Lemma score_rows_returns df probs normal_idx preds :
  forall i,
    returns_only (fun new_txns => List.length new_txns = List.length preds
                                  /\ Forall scored_row new_txns)
      (score_rows df probs normal_idx i preds).
Proof.
  induction preds as [| pred rest IH]; intros i.
  - unfold score_rows. apply returns_ret. now split.
  - change (score_rows df probs normal_idx i (pred :: rest))
      with (t <- score_row df probs normal_idx i pred ;;
            ts <- score_rows df probs normal_idx (S i) rest ;;
            ret (t :: ts)).
    apply returns_bind_with with (R := scored_row);
      [apply score_row_returns |]. intros t Ht.
    eapply returns_bind_with; [apply IH |]. intros ts [Hlen Hall].
    apply returns_ret. cbn. split; [now rewrite Hlen | now constructor].
Qed.

(** What a successful upload leaves behind. *)
Definition stored_batch (tbl : list TransactionModel.t) (r : UploadResult)
           (w' : World) : Prop :=
  exists new_txns,
    committed w' = (tbl ++ new_txns)%list
    /\ pending w' = []
    /\ List.length new_txns = rowsProcessed r
    /\ success r = true
    /\ Forall scored_row new_txns.

Lemma upload_frame_atomic (tbl : list TransactionModel.t) (p : Pipeline)
      (df0 : DataFrame) :
  atomic tbl (upload_frame p df0) (stored_batch tbl).
Proof.
  unfold upload_frame. cbv zeta.
  destruct (negb _); [apply atomic_raise |].
  apply atomic_bind with (R := fun _ => True);
    [unfold call_preprocess_data; keeps | apply returns_any |].
  intros df_processed _.
  apply atomic_bind with (R := fun _ => True);
    [unfold call_predict, call_predict_proba, normal_index; keeps
    | apply returns_any |].
  intros [[preds probs] normal_idx] _.
  eapply atomic_bind;
    [apply score_rows_keeps | apply score_rows_returns |].
  cbv beta. intros new_txns [Hlen Hall] w Htbl Hpend.
  unfold bind at 1. rewrite persist_run, Htbl, Hpend.
  destruct (commit_error w ([] ++ new_txns)) as [msg |]; cbn.
  - now split.
  - exists new_txns. now repeat split.
Qed.

Lemma upload_csv_atomic (tbl : list TransactionModel.t) (file_ : UploadFile) :
  atomic tbl (upload_csv file_) (stored_batch tbl).
Proof.
  unfold upload_csv. destruct (negb _); [apply atomic_raise |].
  apply atomic_bind with (R := fun _ => True);
    [unfold model_path_exists; keeps | apply returns_any |].
  intros present _. destruct (negb present); [apply atomic_raise |].
  apply atomic_bind with (R := fun _ => True);
    [| apply returns_any |].
  { unfold joblib_load. keeps.
    intros w1. destruct (model_file w1); cbn; now repeat split. }
  intros pipeline _.
  apply atomic_bind with (R := fun _ => True);
    [keeps | apply returns_any |].
  intros df0 _. apply upload_frame_atomic.
Qed.

(** X4. An upload stores all of its rows or none.  Whatever the file, the
    model, the preprocessing and the storage do: when the handler
    returns, the table has grown by exactly [rowsProcessed] rows, put
    after the old ones, each Safe or Suspicious, without flags and not
    training data; when it raises, at any step, the table is as it was.
    No object is left pending in either case. *)
Theorem upload_all_or_nothing :
  forall (file_ : UploadFile) (w : World),
    let r := get_db (upload_csv file_) w in
    pending (snd r) = []
    /\ match fst r with
       | Return res =>
           exists new_txns,
             committed (snd r) = (committed w ++ new_txns)%list
             /\ List.length new_txns = rowsProcessed res
             /\ success res = true
             /\ Forall scored_row new_txns
       | Raise _ => committed (snd r) = committed w
       end.
Proof.
  intros file_ w. cbv zeta.
  set (w0 := set_session (committed w) [] w).
  pose proof (upload_csv_atomic (committed w) file_ w0 eq_refl eq_refl) as Hat.
  unfold get_db. fold w0.
  destruct (upload_csv file_ w0) as [[res | e] w1]; cbn.
  - destruct Hat as [new_txns [Hc [Hp [Hlen [Hs Hall]]]]].
    split; [reflexivity |]. now exists new_txns.
  - destruct Hat as [Hc Hp]. now split.
Qed.

Lemma raises_never {A} (E : exn -> Prop) (c : M A) :
  (forall w, exists a, fst (c w) = Return a) -> raises_only E c.
Proof. intros H w e He. destruct (H w) as [a Ha]. congruence. Qed.

Section PythonErrors.

Variable E : exn -> Prop.
Hypothesis E_py : forall msg, E (PyError msg).

Lemma joblib_load_raises : raises_only E joblib_load.
Proof.
  unfold joblib_load. apply raises_bind; [apply raises_log |]. intros _.
  intros w e H. destruct (model_file w); cbn in H;
    [injection H as <- | injection H as <- | discriminate H]; apply E_py.
Qed.

Lemma db_commit_raises : raises_only E db_commit.
Proof.
  unfold db_commit. apply raises_bind; [apply raises_log |]. intros _.
  intros w e H.
  destruct (db_fault w); [| destruct (forallb storable (pending w))];
    cbn in H; [injection H as <- | discriminate H | injection H as <-];
    apply E_py.
Qed.

Lemma score_rows_raises df probs normal_idx preds :
  forall i, raises_only E (score_rows df probs normal_idx i preds).
Proof.
  induction preds as [| pred rest IH]; intros i.
  - unfold score_rows. apply raises_ret.
  - change (score_rows df probs normal_idx i (pred :: rest))
      with (t <- score_row df probs normal_idx i pred ;;
            ts <- score_rows df probs normal_idx (S i) rest ;;
            ret (t :: ts)).
    apply raises_bind; [| intros t; apply raises_bind;
                            [apply IH | intros; apply raises_ret]].
    unfold score_row, risk_and_status, iloc_cell, new_uuid.
    repeat lazymatch goal with
      | |- raises_only _ (ret _) => apply raises_ret
      | |- raises_only _ (of_option _ _) => apply raises_of_option; apply E_py
      | |- raises_only _ (bind _ _) => apply raises_bind; [| intros ?]
      | |- raises_only _ (if ?b then _ else _) => destruct b
      | |- raises_only _ (let '(_, _) := ?x in _) => destruct x
      | |- raises_only _ (fun _ => _) =>
          apply raises_never; intros ?; eexists; reflexivity
      end.
Qed.

End PythonErrors.

(** The status codes of the upload route. *)
Definition upload_error (e : exn) : Prop :=
  response_status (@Raise UploadResult e) = 400
  \/ response_status (@Raise UploadResult e) = 401
  \/ response_status (@Raise UploadResult e) = 500.

Definition handler_error (e : exn) : Prop :=
  response_status (@Raise UploadResult e) = 400
  \/ response_status (@Raise UploadResult e) = 500.

Lemma upload_csv_raises (file_ : UploadFile) :
  raises_only handler_error (upload_csv file_).
Proof.
  assert (Hpy : forall msg, handler_error (PyError msg)) by (intros; now right).
  unfold upload_csv, model_path_exists, upload_frame,
    call_preprocess_data, call_predict, call_predict_proba, normal_index,
    db_add_all, db_rollback.
  cbv zeta.
  repeat lazymatch goal with
    | |- raises_only _ (ret _) => apply raises_ret
    | |- raises_only _ (raise _) =>
        apply raises_raise; unfold handler_error; cbn; auto
    | |- raises_only _ (of_option _ _) => apply raises_of_option; apply Hpy
    | |- raises_only _ (of_sum _) => apply raises_of_sum; apply Hpy
    | |- raises_only _ (log _) => apply raises_log
    | |- raises_only _ (bind _ _) => apply raises_bind; [| intros ?]
    | |- raises_only _ (try_except _ _) => apply raises_try; intros ?
    | |- raises_only _ (if ?b then _ else _) => destruct b
    | |- raises_only _ (let '(_, _) := ?x in _) => destruct x
    | |- raises_only _ (score_rows _ _ _ _ _) =>
        apply score_rows_raises; exact Hpy
    | |- raises_only _ (fun _ => _) =>
        apply raises_never; intros ?; eexists; reflexivity
    end.
Qed.

(** X5. A failed upload is answered with status 400, 401 or 500 and no
    other, whatever fails, and status 401 is given only to a header that
    the token check rejects. *)
Theorem upload_error_statuses :
  forall (authorization : string) (file_ : UploadFile) (w : World) (e : exn),
    fst (post_upload authorization file_ w) = Raise e ->
    upload_error e
    /\ (response_status (@Raise UploadResult e) = 401 ->
        authorized authorization = false).
Proof.
  intros authorization file_ w e H.
  pose proof (upload_csv_raises file_) as Hup.
  unfold post_upload, bind in H.
  destruct (require_token_run authorization w) as [evs [Hrun _]].
  rewrite Hrun in H.
  destruct (authorized authorization) eqn:Hauth.
  - unfold get_db in H.
    specialize (Hup (set_session (committed (emit evs w)) [] (emit evs w)) e).
    destruct (upload_csv file_ _) as [r w1]. cbn in H, Hup.
    destruct (Hup H) as [H4 | H5].
    + split; [now left | intros H1; rewrite H4 in H1; discriminate H1].
    + split; [now right; right | intros H1; rewrite H5 in H1; discriminate H1].
  - cbn in H. injection H as <-. split; [right; now left | reflexivity].
Qed.

(** ** The [Fraud_Type] column *)

Lemma index_lt_length {A} (eqb : A -> A -> bool) (x : A) (l : list A) (k : nat) :
  PySeq.index eqb x l = Some k -> (k < List.length l)%nat.
Proof.
  revert k. induction l as [| y l IH]; intros k H; cbn in H; [discriminate |].
  destruct (eqb y x).
  - injection H as <-. cbn. lia.
  - destruct (PySeq.index eqb x l) as [j |]; [| discriminate].
    injection H as <-. cbn. specialize (IH j eq_refl). lia.
Qed.

Lemma index_app_left {A} (eqb : A -> A -> bool) (x : A) (l l' : list A) (k : nat) :
  PySeq.index eqb x l = Some k -> PySeq.index eqb x (l ++ l') = Some k.
Proof.
  revert k. induction l as [| y l IH]; intros k H; cbn in H |- *; [discriminate |].
  destruct (eqb y x); [exact H |].
  destruct (PySeq.index eqb x l) as [j |]; [| discriminate].
  now rewrite (IH j eq_refl).
Qed.

Lemma contains_index {A} (eqb : A -> A -> bool) (x : A) (l : list A) :
  PySeq.contains eqb x l = true -> exists k, PySeq.index eqb x l = Some k.
Proof.
  destruct (PySeq.index eqb x l) as [k |] eqn:E; [now exists k |].
  intros H. rewrite (index_None_contains _ _ _ E) in H. discriminate H.
Qed.

Lemma index_app_right {A} (eqb : A -> A -> bool) (x : A) (l : list A) :
  PySeq.index eqb x l = None -> eqb x x = true ->
  PySeq.index eqb x (l ++ [x]) = Some (List.length l).
Proof.
  intros H Hrefl. induction l as [| y l IH]; cbn in H |- *.
  - now rewrite Hrefl.
  - destruct (eqb y x); [discriminate |].
    destruct (PySeq.index eqb x l); [discriminate |].
    now rewrite IH.
Qed.

(** X6. The column [Fraud_Type] that [upload_csv] adds does not disturb
    the upload: a frame that has the column is passed on as it is; on a
    frame without it, whose rows have one cell per column, every cell of
    every column that was there reads as before, the new column reads 0
    in every row, the rows are as many as before and the same required
    columns are missing. *)
Theorem with_fraud_type_preserves :
  forall (df : DataFrame),
    aligned df ->
    (has_column df "Fraud_Type" = true -> with_fraud_type df = df)
    /\ List.length (rows (with_fraud_type df)) = List.length (rows df)
    /\ (forall i c, has_column df c = true ->
          cell_at (with_fraud_type df) i c = cell_at df i c)
    /\ (has_column df "Fraud_Type" = false ->
        forall i, (i < List.length (rows df))%nat ->
          cell_at (with_fraud_type df) i "Fraud_Type" = Some (CInt 0))
    /\ missing_columns (with_fraud_type df) = missing_columns df.
Proof.
  intros df Haligned. unfold with_fraud_type.
  destruct (has_column df "Fraud_Type") eqn:Hhas; cbn [negb].
  { repeat split; try reflexivity. intros H. discriminate H. }
  assert (Hcell : forall i c, has_column df c = true ->
            cell_at (add_column df "Fraud_Type" (CInt 0)) i c = cell_at df i c).
  { intros i c Hc. unfold cell_at, add_column. cbn [rows columns].
    rewrite !getitem_of_nat, nth_error_map.
    destruct (nth_error (rows df) i) as [r |] eqn:Hr; cbn; [| reflexivity].
    destruct (contains_index _ _ _ Hc) as [k Hk].
    rewrite (index_app_left _ _ _ _ _ Hk), Hk.
    apply nth_error_app1.
    unfold aligned in Haligned. rewrite Forall_forall in Haligned.
    rewrite (Haligned r (nth_error_In _ _ Hr)).
    eapply index_lt_length. exact Hk. }
  split; [intros H; discriminate H |].
  split; [unfold add_column; cbn; apply length_map |].
  split; [exact Hcell |]. split.
  - intros _ i Hi. unfold cell_at, add_column. cbn [rows columns].
    rewrite getitem_of_nat, nth_error_map.
    destruct (nth_error (rows df) i) as [r |] eqn:Hr; cbn.
    + assert (Hnone : PySeq.index String.eqb "Fraud_Type" (columns df) = None).
      { destruct (PySeq.index String.eqb "Fraud_Type" (columns df)) as [k |] eqn:E;
          [| reflexivity].
        unfold has_column in Hhas.
        rewrite (index_Some_contains _ _ _ _ E) in Hhas. discriminate Hhas. }
      rewrite (index_app_right _ _ _ Hnone (String.eqb_refl _)).
      unfold aligned in Haligned. rewrite Forall_forall in Haligned.
      rewrite <- (Haligned r (nth_error_In _ _ Hr)).
      rewrite nth_error_app2 by lia. now rewrite Nat.sub_diag.
    + apply nth_error_None in Hr. lia.
  - unfold missing_columns. apply filter_ext_in. intros c Hc.
    destruct (has_column df c) eqn:Hdf.
    + destruct (contains_index _ _ _ Hdf) as [k Hk].
      unfold has_column, add_column. cbn [columns].
      now rewrite (index_Some_contains _ _ _ _ (index_app_left _ _ _ _ _ Hk)).
    + unfold has_column, add_column, PySeq.contains in *. cbn [columns].
      rewrite existsb_app, Hdf. cbn.
      unfold required_cols in Hc.
      repeat (destruct Hc as [<- | Hc]; [reflexivity |]). destruct Hc.
Qed.

(** ** The token in the header *)

Lemma prefix_bearer_blank (s : string) :
  no_blank s = true -> String.prefix "Bearer " s = false.
Proof.
  intros H.
  do 7 (destruct s as [| ? s]; [reflexivity |];
        cbn [String.prefix];
        match goal with
        | |- (if ascii_dec ?a ?b then _ else _) = _ =>
            destruct (ascii_dec a b) as [<- |]; [| reflexivity]
        end;
        cbn [no_blank] in H; apply andb_true_iff in H; destruct H as [Hc H];
        try (vm_compute in Hc; discriminate Hc); clear Hc).
Qed.

Lemma no_blank_tail (c : ascii) (s : string) :
  no_blank (String c s) = true -> no_blank s = true.
Proof. cbn. intros H. now apply andb_true_iff in H. Qed.

Lemma replace_bearer_blank (s : string) :
  no_blank s = true -> PyStr.replace_scan "Bearer " "" 0 s = s.
Proof.
  induction s as [| c s IH]; intros H; [reflexivity |].
  cbn [PyStr.replace_scan]. rewrite (prefix_bearer_blank _ H).
  now rewrite (IH (no_blank_tail _ _ H)).
Qed.

Lemma rstrip_no_blank (s : string) : no_blank s = true -> PyStr.rstrip s = s.
Proof.
  induction s as [| c s IH]; intros H; [reflexivity |].
  cbn [PyStr.rstrip]. rewrite (IH (no_blank_tail _ _ H)).
  cbn in H. apply andb_true_iff in H. destruct H as [Hc _].
  apply negb_true_iff in Hc. rewrite Hc. now destruct s.
Qed.

Lemma lstrip_no_blank (s : string) : no_blank s = true -> PyStr.lstrip s = s.
Proof.
  destruct s as [| c s]; intros H; [reflexivity |].
  cbn in H |- *. apply andb_true_iff in H. destruct H as [Hc _].
  apply negb_true_iff in Hc. now rewrite Hc.
Qed.

Lemma startswith_bearer (s : string) :
  PyStr.startswith ("Bearer " ++ s) "Bearer " = true.
Proof.
  unfold PyStr.startswith. cbn [String.prefix append].
  repeat match goal with
         | |- context [ascii_dec ?a ?a] =>
             destruct (ascii_dec a a) as [_ | Hne]; [| now destruct Hne]
         end.
  now destruct s.
Qed.

Lemma replace_bearer_prefix (s : string) :
  PyStr.replace ("Bearer " ++ s) "Bearer " "" = PyStr.replace s "Bearer " "".
Proof.
  pose proof (startswith_bearer s) as Hp. unfold PyStr.startswith in Hp.
  unfold PyStr.replace.
  change ("Bearer " ++ s) with (String "B" ("earer " ++ s)) in *.
  cbn [PyStr.replace_scan]. rewrite Hp. reflexivity.
Qed.

(** X7. The token is read back from the header: for a token without
    blank characters, the header [Bearer ] followed by the token yields
    exactly that token, so the request passes [require_token] exactly
    when the token is the development token or [decode_token] accepts it,
    and a rejection is the 401 [Invalid token]. *)
Theorem token_round_trip :
  forall (tok : string) (w : World),
    no_blank tok = true ->
    token_of ("Bearer " ++ tok) = tok
    /\ authorized ("Bearer " ++ tok)
       = (String.eqb tok dev_token
          || match decode_token tok with inr _ => true | inl _ => false end)
    /\ fst (require_token ("Bearer " ++ tok) w)
       = (if authorized ("Bearer " ++ tok) then Return tt
          else Raise (HTTPException 401 "Invalid token")).
Proof.
  intros tok w H.
  assert (Htok : token_of ("Bearer " ++ tok) = tok).
  { unfold token_of. rewrite replace_bearer_prefix.
    unfold PyStr.replace, PyStr.strip.
    now rewrite (replace_bearer_blank _ H), (lstrip_no_blank _ H),
      (rstrip_no_blank _ H). }
  split; [exact Htok |]. split.
  - unfold authorized. now rewrite Htok, startswith_bearer.
  - destruct (require_token_run ("Bearer " ++ tok) w) as [evs [Hrun _]].
    now rewrite Hrun, startswith_bearer.
Qed.

(** X8. [require_token] removes every [Bearer ] of the header, not the
    first one only: a header that repeats the prefix is treated like the
    header without the repetition, with the same answer and the same
    call of [decode_token]. *)
Theorem repeated_bearer_prefix :
  forall (header : string) (w : World),
    PyStr.startswith header "Bearer " = true ->
    token_of ("Bearer " ++ header) = token_of header
    /\ require_token ("Bearer " ++ header) w = require_token header w.
Proof.
  intros header w H.
  assert (Htok : token_of ("Bearer " ++ header) = token_of header)
    by (unfold token_of; now rewrite replace_bearer_prefix).
  split; [exact Htok |].
  unfold token_of in Htok. unfold require_token.
  now rewrite H, Htok, startswith_bearer.
Qed.

(** ** The seeded user and the login *)

Context {app : AppCollaborators}.

Definition default_email : string := "analyst@anomalyse.bank".

Lemma find_app_split {A} (f : A -> bool) (l l' : list A) :
  find f (l ++ l') = match find f l with
                     | Some x => Some x
                     | None => find f l'
                     end.
Proof.
  induction l as [| x l IH]; cbn; [reflexivity |].
  now destruct (f x).
Qed.

(** X9. Seeding the default analyst is idempotent and never touches an
    existing account: after it a user with the default email exists,
    running it again changes nothing, it adds at most one user, and
    every email that was registered still resolves to the same user, so
    an analyst who is already there keeps the password hash they had. *)
Theorem seed_default_user_idempotent :
  forall (users : list User.t),
    let seeded := seed_default_user users in
    (exists u, user_by_email seeded default_email = Some u)
    /\ seed_default_user seeded = seeded
    /\ (List.length seeded <= S (List.length users))%nat
    /\ (forall email u, user_by_email users email = Some u ->
                        user_by_email seeded email = Some u)
    /\ (forall u, user_by_email users default_email = Some u ->
                  seeded = users).
Proof.
  intros users. cbv zeta. unfold seed_default_user, default_email.
  destruct (user_by_email users "analyst@anomalyse.bank") as [u |] eqn:Hu.
  - split; [now exists u |]. rewrite Hu.
    split; [reflexivity |]. split; [lia |]. split; [auto | reflexivity].
  - assert (Hnew : user_by_email
                     (users ++ [ {| User.id := next_user_id users;
                                    User.email := "analyst@anomalyse.bank";
                                    User.password_hash := hash_password "password123";
                                    User.role := "analyst" |} ])
                     "analyst@anomalyse.bank"
                   = Some {| User.id := next_user_id users;
                             User.email := "analyst@anomalyse.bank";
                             User.password_hash := hash_password "password123";
                             User.role := "analyst" |}).
    { unfold user_by_email in *. rewrite find_app_split, Hu. reflexivity. }
    split; [eexists; exact Hnew |]. rewrite Hnew.
    split; [reflexivity |].
    split; [rewrite length_app; cbn; lia |].
    split; [| intros u H; discriminate H].
    intros email u H. unfold user_by_email in *.
    now rewrite find_app_split, H.
Qed.

(** X10. [login] gives the same answer for an unknown email and for a
    wrong password, the 401 [Invalid credentials], and it answers with a
    token exactly when the email is registered and the password verifies
    against the stored hash; the token is then the one created for the
    email of the request, of type bearer. *)
Theorem login_outcomes :
  forall (users : list User.t) (payload : LoginRequest),
    (forall e, login users payload = Raise e ->
               e = HTTPException 401 "Invalid credentials")
    /\ (forall r, login users payload = Return r <->
          r = {| access_token := create_access_token (login_email payload);
                 token_type := "bearer" |}
          /\ exists u, user_by_email users (login_email payload) = Some u
                       /\ verify_password (login_password payload)
                            (User.password_hash u) = true).
Proof.
  intros users payload. unfold login.
  destruct (user_by_email users (login_email payload)) as [u |].
  - destruct (verify_password (login_password payload) (User.password_hash u))
      eqn:Hv; cbn [negb].
    + split; [intros e H; discriminate H |].
      intros r. split.
      * intros H. injection H as <-. split; [reflexivity |]. now exists u.
      * intros [-> _]. reflexivity.
    + split; [intros e H; now injection H as <- |].
      intros r. split; [intros H; discriminate H |].
      intros [_ [u' [Hu' Hv']]]. injection Hu' as <-. congruence.
  - split; [intros e H; now injection H as <- |].
    intros r. split; [intros H; discriminate H |].
    intros [_ [u' [Hu' _]]]. discriminate Hu'.
Qed.

(** X11. On an installation without the analyst, the seeded account can
    log in with the default password and the token it gets opens the
    protected routes: provided a password verifies against its own hash
    and the token created for the analyst has no blanks and decodes,
    [login] returns that token and [require_token] accepts the header
    built from it. *)
Theorem seeded_login_is_authorized :
  forall (users : list User.t) (w : World) (payload_ok : TokenPayload),
    user_by_email users default_email = None ->
    verify_password "password123" (hash_password "password123") = true ->
    no_blank (create_access_token default_email) = true ->
    decode_token (create_access_token default_email) = inr payload_ok ->
    let tok := create_access_token default_email in
    login (seed_default_user users)
      {| login_email := default_email; login_password := "password123" |}
      = Return {| access_token := tok; token_type := "bearer" |}
    /\ authorized ("Bearer " ++ tok) = true
    /\ fst (require_token ("Bearer " ++ tok) w) = Return tt.
Proof.
  intros users w payload_ok Hnone Hverify Hblank Hdecode. cbv zeta.
  assert (Hauth : authorized ("Bearer " ++ create_access_token default_email)
                  = true).
  { unfold authorized, token_of. rewrite startswith_bearer, replace_bearer_prefix.
    unfold PyStr.replace, PyStr.strip.
    rewrite (replace_bearer_blank _ Hblank), (lstrip_no_blank _ Hblank),
      (rstrip_no_blank _ Hblank), Hdecode.
    now rewrite orb_true_r. }
  split; [| split; [exact Hauth |]].
  - unfold login, seed_default_user. fold default_email. rewrite Hnone.
    cbn [login_email login_password].
    unfold user_by_email in *. rewrite find_app_split, Hnone.
    cbn [find User.email]. unfold default_email at 1 2.
    rewrite String.eqb_refl. cbn [User.password_hash]. now rewrite Hverify.
  - destruct (require_token_run ("Bearer " ++ create_access_token default_email) w)
      as [evs [Hrun _]].
    now rewrite Hrun, Hauth.
Qed.

(** ** Clearing the table *)

(** X12. [clear_transactions] empties the table and reports how many
    rows it held; it does so only behind the token check, and a commit
    that fails deletes nothing: a rejected header gives 401 and a failed
    commit gives 500, the table being as before in both cases. *)
Theorem clear_transactions_outcomes :
  forall (authorization : string) (w : World),
    let r := clear_transactions_route authorization w in
    (authorized authorization = false ->
       response_status (fst r) = 401 /\ committed (snd r) = committed w)
    /\ (authorized authorization = true -> db_fault w = None ->
          fst r = Return {| clear_success := true;
                            deleted := List.length (committed w) |}
          /\ committed (snd r) = []
          /\ pending (snd r) = [])
    /\ (authorized authorization = true ->
        forall msg, db_fault w = Some msg ->
          response_status (fst r) = 500 /\ committed (snd r) = committed w).
Proof.
  intros authorization w. cbv zeta.
  unfold clear_transactions_route, bind.
  destruct (require_token_run authorization w) as [evs [Hrun _]].
  rewrite Hrun.
  destruct (authorized authorization).
  - split; [intros H; discriminate H |].
    unfold get_db, clear_transactions, bind, log. cbn.
    split.
    + intros _ Hfault. rewrite Hfault. cbn. rewrite app_nil_r. now repeat split.
    + intros _ msg Hfault. rewrite Hfault. cbn. now split.
  - split; [intros _; cbn; now split |].
    split; [intros H; discriminate H | intros H; discriminate H].
Qed.

(** ** The listing of the transactions *)

(** A stored flag that is read as one legacy flag: plain text, text that
    looks like JSON and does not parse, or a JSON list whose first
    element is not an object. *)
Definition read_as_legacy (s : string) : Prop :=
  (PyStr.startswith s "[" = false /\ PyStr.startswith s "{" = false)
  \/ json_loads s = None
  \/ exists x rest, json_loads s = Some (JList (x :: rest))
                    /\ json_get x "type" = None.

Lemma json_get_none (x : Json) (k k' : string) :
  json_get x k = None -> json_get x k' = None.
Proof. destruct x; cbn; intros H; (reflexivity || discriminate H). Qed.

Lemma row_flags_legacy (r : TransactionModel.t) (c : ascii) (s : string) :
  TransactionModel.flag_type r = Some (String c s) ->
  read_as_legacy (String c s) ->
  row_flags r =
    (legacy_flags (String c s) (TransactionModel.flag_reason r),
     JStr (String c s), json_of_option (TransactionModel.flag_reason r)).
Proof.
  intros Hft Hlegacy. unfold row_flags. rewrite Hft.
  cbn [truthy or_empty andb json_of_option fst snd].
  destruct (PyStr.startswith (String c s) "[" || PyStr.startswith (String c s) "{")
    eqn:Hlooks; [| reflexivity].
  unfold parse_json_flags.
  destruct Hlegacy as [[H1 H2] | [Hnone | [x [rest [Hlist Hget]]]]].
  - rewrite H1, H2 in Hlooks. discriminate Hlooks.
  - now rewrite Hnone.
  - rewrite Hlist, Hget. reflexivity.
Qed.

(** X13. A row whose flag is stored the old way is listed with one flag
    made of the two columns: when [flag_type] is plain text, or looks
    like JSON and does not parse, or is a JSON list that does not start
    with an object, the listing shows the single flag with that type
    and with the stored reason, or the empty reason when none is stored,
    and [flag_type] and [flag_reason] are the columns themselves. *)
Theorem legacy_flag_listed :
  forall (r : TransactionModel.t) (c : ascii) (s : string) (risk : float),
    TransactionModel.flag_type r = Some (String c s) ->
    read_as_legacy (String c s) ->
    float_of_int (TransactionModel.risk_score r) = Some risk ->
    exists t,
      transaction_out r = Some t
      /\ TransactionOut.flags t =
           [[("type", String c s);
             ("reason", or_empty (TransactionModel.flag_reason r))]]
      /\ TransactionOut.flag_type t = Some (String c s)
      /\ TransactionOut.flag_reason t = TransactionModel.flag_reason r
      /\ TransactionOut.riskScore t = risk.
Proof.
  intros r c s risk Hft Hlegacy Hrisk. unfold transaction_out.
  rewrite (row_flags_legacy r c s Hft Hlegacy), Hrisk.
  destruct (TransactionModel.flag_reason r) as [reason |];
    cbn; eexists; (split; [reflexivity |]); cbn; auto.
Qed.

(** X14. A row whose flag is a JSON list of objects is listed with the
    flags of that list, and its [flag_type] and [flag_reason] are the
    [type] and [reason] of the first flag: the column [flag_reason] is
    not consulted, and a first flag without a reason gives no reason. *)
Theorem json_flags_listed :
  forall (r : TransactionModel.t) (c : ascii) (s : string) (risk : float)
         (first : list (string * Json)) (rest : list Json)
         (fl : list (list (string * string))) (ft fr : option string),
    TransactionModel.flag_type r = Some (String c s) ->
    PyStr.startswith (String c s) "[" = true ->
    json_loads (String c s) = Some (JList (JDict first :: rest)) ->
    float_of_int (TransactionModel.risk_score r) = Some risk ->
    as_flags (JDict first :: rest) = Some fl ->
    as_optional_str (dict_get first "type") = Some ft ->
    as_optional_str (dict_get first "reason") = Some fr ->
    exists t,
      transaction_out r = Some t
      /\ TransactionOut.flags t = fl
      /\ List.length (TransactionOut.flags t) = S (List.length rest)
      /\ TransactionOut.flag_type t = ft
      /\ TransactionOut.flag_reason t = fr.
Proof.
  intros r c s risk first rest fl ft fr Hft Hlooks Hloads Hrisk Hfl Htype Hreason.
  unfold transaction_out, row_flags. rewrite Hft.
  cbn [truthy or_empty andb]. rewrite Hlooks. cbn [orb].
  unfold parse_json_flags. rewrite Hloads. cbn [json_get].
  rewrite Hrisk, Htype, Hreason, Hfl.
  eexists. split; [reflexivity |]. cbn. repeat split.
  clear - Hfl. revert fl Hfl.
  assert (Hlen : forall items out, as_flags items = Some out ->
                                   List.length out = List.length items).
  { induction items as [| x items IH]; intros out H; cbn in H.
    - now injection H as <-.
    - destruct (as_str_dict x); [| discriminate].
      destruct (as_flags items) as [ds |]; [| discriminate].
      injection H as <-. cbn. now rewrite (IH ds eq_refl). }
  intros fl Hfl. now rewrite (Hlen _ _ Hfl).
Qed.

(** X15. A flag stored as JSON that is not a list, or as the empty list,
    is listed without any flag: the listing shows no flags at all, while
    [flag_type] is still the stored text. *)
Theorem json_object_flag_dropped :
  forall (r : TransactionModel.t) (c : ascii) (s : string) (risk : float)
         (parsed : Json),
    TransactionModel.flag_type r = Some (String c s) ->
    PyStr.startswith (String c s) "[" || PyStr.startswith (String c s) "{" = true ->
    json_loads (String c s) = Some parsed ->
    (forall x rest, parsed <> JList (x :: rest)) ->
    float_of_int (TransactionModel.risk_score r) = Some risk ->
    exists t,
      transaction_out r = Some t
      /\ TransactionOut.flags t = []
      /\ TransactionOut.flag_type t = Some (String c s)
      /\ TransactionOut.flag_reason t = TransactionModel.flag_reason r.
Proof.
  intros r c s risk parsed Hft Hlooks Hloads Hshape Hrisk.
  unfold transaction_out, row_flags. rewrite Hft.
  cbn [truthy or_empty andb]. rewrite Hlooks.
  unfold parse_json_flags. rewrite Hloads.
  assert (Hparse : match parsed with
                   | JList [] => True
                   | JList (_ :: _) => False
                   | _ => True
                   end).
  { destruct parsed as [| | | | [| x rest] |]; try exact I.
    now apply (Hshape x rest). }
  destruct parsed as [| | | | [| x rest] |]; try destruct Hparse;
    cbn [json_of_option fst snd]; rewrite Hrisk;
    destruct (TransactionModel.flag_reason r); cbn;
    eexists; (split; [reflexivity |]); cbn; auto.
Qed.

Lemma transactions_out_spec (rows_ : list TransactionModel.t) :
  match transactions_out rows_ with
  | Some out => Forall2 (fun r t => transaction_out r = Some t) rows_ out
  | None => exists r, In r rows_ /\ transaction_out r = None
  end.
Proof.
  induction rows_ as [| r rest IH]; cbn; [constructor |].
  destruct (transaction_out r) as [t |] eqn:Ht.
  - destruct (transactions_out rest) as [out |]; cbn.
    + now constructor.
    + destruct IH as [r' [Hin Hnone]]. exists r'. split; [now right | exact Hnone].
  - exists r. split; [now left | exact Ht].
Qed.

(** X16. The listing answers with every stored row, newest first, or it
    fails as a whole: it returns exactly when every row converts, and
    then its entries are those of the rows ordered by descending
    timestamp, one for one; a single row that does not convert makes the
    request fail with status 500.  The table is not changed either way. *)
Theorem get_transactions_all_or_error :
  forall (w : World),
    snd (get_transactions w) = w
    /\ ((forall r, In r (committed w) -> transaction_out r <> None) ->
        exists out,
          fst (get_transactions w) = Return out
          /\ Forall2 (fun r t => transaction_out r = Some t)
               (order_by_timestamp_desc (committed w)) out
          /\ List.length out = List.length (committed w)
          /\ StronglySorted newer_or_equal
               (order_by_timestamp_desc (committed w)))
    /\ ((exists r, In r (committed w) /\ transaction_out r = None) ->
        response_status (fst (get_transactions w)) = 500).
Proof.
  intros w. unfold get_transactions. cbn [fst snd].
  pose proof (transactions_out_spec (order_by_timestamp_desc (committed w)))
    as Hspec.
  split; [reflexivity |]. split.
  - intros Hall.
    destruct (transactions_out (order_by_timestamp_desc (committed w)))
      as [out |].
    + exists out. split; [reflexivity |]. split; [exact Hspec |].
      split; [| apply order_by_sorted].
      rewrite <- (order_by_length (committed w)).
      symmetry. eapply Forall2_length. exact Hspec.
    + destruct Hspec as [r [Hin Hnone]].
      apply (proj1 (order_by_In _ _)) in Hin.
      now destruct (Hall r Hin).
  - intros [r [Hin Hnone]].
    destruct (transactions_out (order_by_timestamp_desc (committed w)))
      as [out |]; [| reflexivity].
    exfalso. apply (proj2 (order_by_In _ _)) in Hin.
    clear - Hspec Hin Hnone.
    induction Hspec as [| r' t rows_ out Hr' Hrest IH]; [destruct Hin |].
    destruct Hin as [-> | Hin]; [congruence | now apply IH].
Qed.

(** X17. What an upload stores can always be listed: a row that is Safe
    or Suspicious without flags, as [upload_csv] writes it, converts
    whenever its risk score converts to a float, and it is listed with
    no flags, no flag type and no flag reason. *)
Theorem uploaded_row_listed :
  forall (r : TransactionModel.t) (risk : float),
    scored_row r ->
    float_of_int (TransactionModel.risk_score r) = Some risk ->
    transaction_out r =
      Some {| TransactionOut.id := TransactionModel.id r;
              TransactionOut.timestamp := isoformat (TransactionModel.timestamp r);
              TransactionOut.amount := TransactionModel.amount r;
              TransactionOut.user_id := TransactionModel.user_id r;
              TransactionOut.city := TransactionModel.city r;
              TransactionOut.category := TransactionModel.category r;
              TransactionOut.riskScore := risk;
              TransactionOut.status := TransactionModel.status r;
              TransactionOut.flag_type := None;
              TransactionOut.flag_reason := None;
              TransactionOut.flags := [] |}.
Proof.
  intros r risk [_ [Hft [Hfr _]]] Hrisk.
  unfold transaction_out, row_flags. rewrite Hft, Hfr, Hrisk. reflexivity.
Qed.

(** ** The dashboard metrics *)

Lemma list_sum_cons (n : nat) (l : list nat) :
  list_sum (n :: l) = (n + list_sum l)%nat.
Proof. reflexivity. Qed.

Lemma list_sum_map_add {K} (f g : K -> nat) (keys : list K) :
  list_sum (map (fun k => f k + g k)%nat keys)
  = (list_sum (map f keys) + list_sum (map g keys))%nat.
Proof.
  induction keys as [| k keys IH]; [reflexivity |].
  cbn [map]. rewrite !list_sum_cons, IH. lia.
Qed.

Section Grouping.

Context {X K : Type}.
Variable key : X -> K.
Variable eqb : K -> K -> bool.
Hypothesis eqb_eq : forall a b, eqb a b = true <-> a = b.
Variable P : X -> bool.

Lemma no_group (k0 : K) (keys : list K) :
  ~ In k0 keys ->
  list_sum (map (fun k => if eqb k0 k then 1 else 0)%nat keys) = O.
Proof.
  induction keys as [| k keys IH]; intros Hnotin; [reflexivity |].
  cbn [map]. rewrite list_sum_cons.
  destruct (eqb k0 k) eqn:E.
  - apply eqb_eq in E. subst k. exfalso. apply Hnotin. now left.
  - rewrite IH; [reflexivity |]. intros H. apply Hnotin. now right.
Qed.

Lemma one_group (k0 : K) (keys : list K) :
  NoDup keys -> In k0 keys ->
  list_sum (map (fun k => if eqb k0 k then 1 else 0)%nat keys) = 1%nat.
Proof.
  induction 1 as [| k keys Hnotin Hnodup IH]; intros Hin; [destruct Hin |].
  cbn [map]. rewrite list_sum_cons.
  destruct (eqb k0 k) eqn:E.
  - apply eqb_eq in E. subst k. now rewrite (no_group _ _ Hnotin).
  - destruct Hin as [-> | Hin].
    + assert (Hrefl : eqb k0 k0 = true) by now apply eqb_eq.
      congruence.
    + now rewrite IH.
Qed.

(** Counting group by group counts every row once. *)
Lemma groups_partition (keys : list K) (l : list X) :
  NoDup keys -> (forall x, In x l -> In (key x) keys) ->
  list_sum (map (fun k => List.length
                            (filter (fun x => eqb (key x) k && P x) l)) keys)
  = List.length (filter P l).
Proof.
  intros Hnodup. induction l as [| x l IH]; intros Hkeys.
  - cbn [filter List.length]. clear.
    induction keys as [| k keys IH]; [reflexivity |].
    cbn [map]. now rewrite list_sum_cons, IH.
  - assert (IH' := IH (fun y Hy => Hkeys y (or_intror Hy))).
    cbn [filter]. destruct (P x) eqn:Hx.
    + cbn [List.length]. rewrite <- IH'.
      rewrite map_ext
        with (g := fun k => ((if eqb (key x) k then 1 else 0)
                             + List.length
                                 (filter (fun y => eqb (key y) k && P y) l))%nat).
      * rewrite list_sum_map_add.
        now rewrite (one_group (key x) keys Hnodup (Hkeys x (or_introl eq_refl))).
      * intros k. cbn [filter]. now destruct (eqb (key x) k).
    + rewrite <- IH'. apply f_equal. apply map_ext. intros k.
      now rewrite andb_false_r.
Qed.

End Grouping.

Lemma insert_day_In (d x : Z) (days : list Z) :
  In x (insert_day d days) <-> x = d \/ In x days.
Proof.
  induction days as [| y days IH]; cbn; [intuition |].
  destruct (Z.ltb_spec d y); [cbn; intuition |].
  destruct (Z.eqb_spec d y) as [-> |]; cbn; [intuition |].
  rewrite IH. intuition.
Qed.

Lemma insert_day_sorted (d : Z) (days : list Z) :
  StronglySorted Z.lt days -> StronglySorted Z.lt (insert_day d days).
Proof.
  induction 1 as [| y days Hsorted IH Hy]; cbn; [repeat constructor |].
  destruct (Z.ltb_spec d y) as [Hlt | Hge].
  - constructor; [now constructor |].
    constructor; [exact Hlt |].
    rewrite Forall_forall in Hy |- *. intros x Hx. specialize (Hy x Hx). lia.
  - destruct (Z.eqb_spec d y) as [-> | Hne]; [now constructor |].
    constructor; [exact IH |].
    rewrite Forall_forall in Hy |- *. intros x Hx.
    apply insert_day_In in Hx. destruct Hx as [-> | Hx]; [lia | now apply Hy].
Qed.

Lemma days_of_sorted (table : list TransactionModel.t) :
  StronglySorted Z.lt (days_of table).
Proof.
  unfold days_of. induction table as [| r table IH]; cbn; [constructor |].
  now apply insert_day_sorted.
Qed.

Lemma days_of_In (table : list TransactionModel.t) (d : Z) :
  In d (days_of table) <->
  exists r, In r table /\ sql_date (TransactionModel.timestamp r) = d.
Proof.
  unfold days_of. induction table as [| r table IH]; cbn.
  - split; [intros [] | intros [r [[] _]]].
  - rewrite insert_day_In, IH. split.
    + intros [-> | [r' [Hin Hd]]]; [now exists r; auto |].
      exists r'. auto.
    + intros [r' [[<- | Hin] Hd]]; [now left |]. right. now exists r'.
Qed.

Lemma sorted_lt_NoDup (l : list Z) : StronglySorted Z.lt l -> NoDup l.
Proof.
  induction 1 as [| x l Hsorted IH Hx]; constructor; [| exact IH].
  intros Hin. rewrite Forall_forall in Hx. specialize (Hx x Hin). lia.
Qed.

Lemma trend_sum (table : list TransactionModel.t) (s : string) :
  list_sum (map (fun d => count_on table d s) (days_of table))
  = count_status table s.
Proof.
  unfold count_on, count_status.
  apply (groups_partition
           (fun r => sql_date (TransactionModel.timestamp r)) Z.eqb Z.eqb_eq
           (fun r => String.eqb (TransactionModel.status r) s)).
  - apply sorted_lt_NoDup, days_of_sorted.
  - intros r Hr. apply days_of_In. now exists r.
Qed.

(** The order of the groups of a status: byte by byte. *)
Definition status_lt (a b : string) : Prop := String.compare a b = Lt.

Lemma status_lt_trans (a b c : string) :
  status_lt a b -> status_lt b c -> status_lt a c.
Proof.
  unfold status_lt. intros Hab Hbc.
  apply String_as_OT.cmp_lt in Hab, Hbc. apply String_as_OT.cmp_lt.
  exact (String_as_OT.lt_trans _ _ _ Hab Hbc).
Qed.

Lemma status_lt_irrefl (a : string) : ~ status_lt a a.
Proof.
  unfold status_lt. intros H.
  assert (Heq : String.compare a a = Eq) by now apply String_as_OT.cmp_eq.
  congruence.
Qed.

Lemma insert_status_In (s x : string) (l : list string) :
  In x (insert_status s l) <-> x = s \/ In x l.
Proof.
  induction l as [| y l IH]; cbn; [intuition |].
  destruct (String.compare s y) eqn:E; cbn.
  - apply String.compare_eq_iff in E. subst y. intuition.
  - intuition.
  - rewrite IH. intuition.
Qed.

Lemma insert_status_sorted (s : string) (l : list string) :
  StronglySorted status_lt l -> StronglySorted status_lt (insert_status s l).
Proof.
  induction 1 as [| y l Hsorted IH Hy]; cbn; [repeat constructor |].
  destruct (String.compare s y) eqn:E.
  - now constructor.
  - constructor; [now constructor |].
    constructor; [exact E |].
    rewrite Forall_forall in Hy |- *. intros x Hx.
    exact (status_lt_trans _ _ _ E (Hy x Hx)).
  - constructor; [exact IH |].
    rewrite Forall_forall in Hy |- *. intros x Hx.
    apply insert_status_In in Hx. destruct Hx as [-> | Hx]; [| now apply Hy].
    unfold status_lt. rewrite String.compare_antisym, E. reflexivity.
Qed.

(** The groups of the distribution come in strictly ascending order. *)
Lemma statuses_of_sorted (table : list TransactionModel.t) :
  StronglySorted status_lt (statuses_of table).
Proof.
  unfold statuses_of. induction table as [| r table IH]; cbn; [constructor |].
  now apply insert_status_sorted.
Qed.

Lemma statuses_of_In (table : list TransactionModel.t) (s : string) :
  In s (statuses_of table) <->
  exists r, In r table /\ TransactionModel.status r = s.
Proof.
  unfold statuses_of. induction table as [| r table IH]; cbn.
  - split; [intros [] | intros [r [[] _]]].
  - rewrite insert_status_In, IH. split.
    + intros [-> | [r' [Hin Hs]]]; [now exists r; auto |].
      exists r'. auto.
    + intros [r' [[<- | Hin] Hs]]; [now left |]. right. now exists r'.
Qed.

Lemma statuses_of_NoDup (table : list TransactionModel.t) :
  NoDup (statuses_of table).
Proof.
  induction (statuses_of_sorted table) as [| x l Hsorted IH Hx];
    constructor; [| exact IH].
  intros Hin. rewrite Forall_forall in Hx.
  exact (status_lt_irrefl x (Hx x Hin)).
Qed.

Lemma distribution_sum (table : list TransactionModel.t) :
  list_sum (map (fun s => count_status table s) (statuses_of table))
  = List.length table.
Proof.
  pose proof (groups_partition TransactionModel.status String.eqb String.eqb_eq
                (fun _ => true) (statuses_of table) table)
    as H.
  assert (Hall : List.length (filter (fun _ : TransactionModel.t => true) table)
                 = List.length table).
  { clear. induction table; cbn; [reflexivity | now f_equal]. }
  rewrite Hall in H. rewrite <- H.
  - apply f_equal. apply map_ext. intros s. unfold count_status.
    apply f_equal. apply filter_ext. intros r. now rewrite andb_true_r.
  - apply statuses_of_NoDup.
  - intros r Hr. apply statuses_of_In. now exists r.
Qed.

(** X18. The numbers of the dashboard add up: the total is the size of
    the table, the flagged count is at most the total, the fraud counts
    of the trend sum to the flagged count, its safe counts sum to the
    number of Safe rows, and the counts of the status distribution sum
    to the total.  When every row is Safe or Suspicious, as uploads write
    them, the trend accounts for every row. *)
Theorem metrics_add_up :
  forall (table : list TransactionModel.t),
    let m := metrics_of table in
    totalTransactions m = List.length table
    /\ (flaggedTransactions m <= totalTransactions m)%nat
    /\ list_sum (map fraudCount (fraudTrend m)) = flaggedTransactions m
    /\ list_sum (map safeCount (fraudTrend m)) = count_status table "Safe"
    /\ list_sum (map snd (riskDistribution m)) = totalTransactions m
    /\ (Forall (fun r => TransactionModel.status r = "Safe"
                         \/ TransactionModel.status r = "Suspicious") table ->
        (list_sum (map fraudCount (fraudTrend m))
         + list_sum (map safeCount (fraudTrend m)))%nat = totalTransactions m).
Proof.
  intros table. cbv zeta. unfold metrics_of, fraud_trend, risk_distribution.
  cbn [totalTransactions flaggedTransactions fraudTrend riskDistribution].
  rewrite !map_map. cbn [fraudCount safeCount snd].
  rewrite !trend_sum, distribution_sum.
  split; [reflexivity |].
  split; [unfold count_status; apply filter_length_le |].
  split; [reflexivity |]. split; [reflexivity |]. split; [reflexivity |].
  intros Hall. unfold count_status.
  induction Hall as [| r table Hr Hrest IH]; [reflexivity |].
  cbn [filter List.length].
  destruct Hr as [-> | ->]; cbn [String.eqb Ascii.eqb Bool.eqb List.length];
    cbn; lia.
Qed.

(** X19. The groups of the dashboard are well formed: the trend has one
    row per day on which a transaction is stored, in strictly ascending
    order of the day; the distribution has one entry per status that
    occurs, each with the number of rows of that status, which is at
    least one. *)
Theorem metrics_groups :
  forall (table : list TransactionModel.t),
    let m := metrics_of table in
    StronglySorted Z.lt (map trend_date (fraudTrend m))
    /\ (forall d, In d (map trend_date (fraudTrend m)) <->
          exists r, In r table /\ sql_date (TransactionModel.timestamp r) = d)
    /\ NoDup (map fst (riskDistribution m))
    /\ (forall s, In s (map fst (riskDistribution m)) <->
          exists r, In r table /\ TransactionModel.status r = s)
    /\ (forall s n, In (s, n) (riskDistribution m) ->
          n = count_status table s /\ (1 <= n)%nat).
Proof.
  intros table. cbv zeta. unfold metrics_of, fraud_trend, risk_distribution.
  cbn [fraudTrend riskDistribution].
  rewrite !map_map. cbn [trend_date fst]. rewrite !map_id.
  split; [apply days_of_sorted |].
  split; [apply days_of_In |].
  split; [apply statuses_of_NoDup |].
  pose proof (statuses_of_In table) as Hin.
  split; [exact Hin |].
  intros s n H. apply in_map_iff in H. destruct H as [s' [Heq Hs']].
  injection Heq as -> <-. split; [reflexivity |].
  apply Hin in Hs'. destruct Hs' as [r [Hr Hs]].
  unfold count_status.
  assert (Hf : In r (filter (fun r => String.eqb (TransactionModel.status r) s)
                       table)).
  { apply filter_In. split; [exact Hr |]. now apply String.eqb_eq. }
  destruct (filter _ table); [destruct Hf | cbn; lia].
Qed.

(** ** What a handler depends on *)

(** A computation that answers alike in worlds related by [R] and keeps
    them related. *)
Definition respects (R : World -> World -> Prop) {A} (c : M A) : Prop :=
  forall w w', R w w' ->
    fst (c w) = fst (c w') /\ R (snd (c w)) (snd (c w')).

Section Respects.

Variable R : World -> World -> Prop.

Hypothesis R_log : forall ev w w', R w w' -> R (emit [ev] w) (emit [ev] w').
Hypothesis R_model : forall w w', R w w' -> model_file w = model_file w'.

Lemma respects_ret {A} (a : A) : respects R (ret a).
Proof. intros w w' H. now split. Qed.

Lemma respects_raise {A} (e : exn) : respects R (@raise A e).
Proof. intros w w' H. now split. Qed.

Lemma respects_log (ev : Event) : respects R (log ev).
Proof. intros w w' H. split; [reflexivity | now apply R_log]. Qed.

Lemma respects_bind {A B} (c : M A) (k : A -> M B) :
  respects R c -> (forall a, respects R (k a)) -> respects R (bind c k).
Proof.
  intros Hc Hk w w' H. unfold bind. destruct (Hc w w' H) as [Hfst Hsnd].
  destruct (c w) as [[a | e] w1], (c w') as [[a' | e'] w1'];
    cbn in Hfst, Hsnd; try discriminate Hfst.
  - injection Hfst as <-. now apply Hk.
  - injection Hfst as <-. now split.
Qed.

Lemma respects_try {A} (c : M A) (handler : exn -> M A) :
  respects R c -> (forall e, respects R (handler e)) ->
  respects R (try_except c handler).
Proof.
  intros Hc Hh w w' H. unfold try_except. destruct (Hc w w' H) as [Hfst Hsnd].
  destruct (c w) as [[a | e] w1], (c w') as [[a' | e'] w1'];
    cbn in Hfst, Hsnd; try discriminate Hfst.
  - injection Hfst as <-. now split.
  - injection Hfst as <-. now apply Hh.
Qed.

Lemma respects_of_option {A} (msg : string) (o : option A) :
  respects R (of_option msg o).
Proof. destruct o; [apply respects_ret | apply respects_raise]. Qed.

Lemma respects_of_sum {A} (r : string + A) : respects R (of_sum r).
Proof. destruct r; [apply respects_raise | apply respects_ret]. Qed.

Lemma respects_model_path_exists : respects R model_path_exists.
Proof.
  intros w w' H. unfold model_path_exists. cbn.
  now rewrite (R_model w w' H).
Qed.

Lemma respects_joblib_load : respects R joblib_load.
Proof.
  unfold joblib_load. apply respects_bind; [apply respects_log |]. intros _.
  intros w w' H. rewrite (R_model w w' H).
  destruct (model_file w'); cbn; now split.
Qed.

End Respects.

Ltac respecting :=
  repeat lazymatch goal with
    | |- respects _ (ret _) => apply respects_ret
    | |- respects _ (raise _) => apply respects_raise
    | |- respects _ (of_option _ _) => apply respects_of_option
    | |- respects _ (of_sum _) => apply respects_of_sum
    | |- respects _ (log _) => apply respects_log; assumption
    | |- respects _ model_path_exists =>
        apply respects_model_path_exists; assumption
    | |- respects _ joblib_load => apply respects_joblib_load; assumption
    | |- respects _ (bind _ _) => apply respects_bind; [| intros ?]
    | |- respects _ (try_except _ _) => apply respects_try; [| intros ?]
    | |- respects _ (if ?b then _ else _) => destruct b
    | |- respects _ (let '(_, _) := ?x in _) => destruct x
    end.

(** The stored rows of the user [uid] strictly before the time [ts]. *)
Definition earlier_rows (uid : string) (ts : Z)
           (table : list TransactionModel.t) : list TransactionModel.t :=
  filter (fun r => String.eqb (TransactionModel.user_id r) uid
                   && (TransactionModel.timestamp r <? ts))
         table.

(** Two worlds with the same model file in which the user of the request
    has the same rows before the time of the request, when its timestamp
    is read as one. *)
Definition same_history (txn : PredictionRequest.t) (w w' : World) : Prop :=
  model_file w = model_file w'
  /\ forall ts,
       to_datetime (CStr (PredictionRequest.timestamp txn)) = Some ts ->
       earlier_rows (PredictionRequest.user_id txn) ts (committed w)
       = earlier_rows (PredictionRequest.user_id txn) ts (committed w').

Lemma respects_after_ret (R : World -> World -> Prop) {A B} (a : A)
      (h : exn -> M A) (k : A -> M B) :
  respects R (k a) -> respects R (bind (try_except (ret a) h) k).
Proof. intros H w w' Hw. exact (H w w' Hw). Qed.

Lemma respects_after_raise (R : World -> World -> Prop) {A B} (e e' : exn)
      (k : A -> M B) :
  respects R (bind (try_except (raise e) (fun _ => raise e')) k).
Proof. intros w w' Hw. now split. Qed.

Lemma predict_fraud_respects (txn : PredictionRequest.t) :
  respects (same_history txn) (predict_fraud txn).
Proof.
  set (R := same_history txn).
  assert (R_log : forall ev a b, R a b -> R (emit [ev] a) (emit [ev] b))
    by (intros ev a b H; exact H).
  assert (R_model : forall a b, R a b -> model_file a = model_file b)
    by (intros a b [H _]; exact H).
  unfold predict_fraud.
  apply respects_bind; [now apply respects_model_path_exists |].
  intros present. destruct (negb present); [apply respects_raise |].
  apply respects_bind.
  { apply respects_try; [now apply respects_joblib_load |].
    intros e. apply respects_raise. }
  intros pipeline.
  destruct (to_datetime (CStr (PredictionRequest.timestamp txn)))
    as [ts |] eqn:Hts; cbn [of_option].
  2: { apply respects_after_raise. }
  apply respects_after_ret.
  apply respects_bind.
  - unfold query_history.
    apply respects_bind; [now apply respects_log |].
    intros _ wa wb Hab. cbn [fst snd]. split; [| exact Hab].
    destruct (ts =? NaT); [reflexivity |].
    unfold select_history. destruct Hab as [_ Hab].
    specialize (Hab ts Hts). unfold earlier_rows in Hab. now rewrite Hab.
  - intros history_rows.
    unfold predict_from_frame, call_preprocess_data, iloc_last,
      predict_last_row, call_predict, call_predict_proba.
    respecting.
Qed.

(** X20. A prediction depends on the stored rows of its own user before
    its own timestamp and on nothing else in the table: in two worlds
    with the same model file in which that user has the same rows before
    the time of the request, whatever else is stored, for other users or
    for this user at that time and later, the request gets the same
    answer. *)
Theorem prediction_sees_own_history_only :
  forall (authorization : string) (txn : PredictionRequest.t) (w w' : World),
    model_file w = model_file w' ->
    (forall ts,
        to_datetime (CStr (PredictionRequest.timestamp txn)) = Some ts ->
        earlier_rows (PredictionRequest.user_id txn) ts (committed w)
        = earlier_rows (PredictionRequest.user_id txn) ts (committed w')) ->
    fst (post_predict authorization txn w)
    = fst (post_predict authorization txn w').
Proof.
  intros authorization txn w w' Hmodel Hrows.
  unfold post_predict, get_db.
  destruct (predict_fraud_respects txn
              (set_session (committed w) [] w)
              (set_session (committed w') [] w')) as [Hfst _].
  { split; [exact Hmodel | exact Hrows]. }
  destruct (predict_fraud txn (set_session (committed w) [] w)) as [r1 w1].
  destruct (predict_fraud txn (set_session (committed w') [] w')) as [r2 w2].
  exact Hfst.
Qed.

(** Two worlds that agree on model file, storage fault and counter of
    identifiers, have the same pending objects, and whose tables are two
    given tables extended by the same rows. *)
Definition same_batch (tbl tbl' : list TransactionModel.t) (w w' : World)
  : Prop :=
  model_file w = model_file w'
  /\ db_fault w = db_fault w'
  /\ uuid_count w = uuid_count w'
  /\ pending w = pending w'
  /\ exists new_txns, committed w = (tbl ++ new_txns)%list
                      /\ committed w' = (tbl' ++ new_txns)%list.

Lemma upload_respects (tbl tbl' : list TransactionModel.t) (file_ : UploadFile) :
  respects (same_batch tbl tbl') (upload_csv file_).
Proof.
  assert (R_log : forall ev a b, same_batch tbl tbl' a b ->
                    same_batch tbl tbl' (emit [ev] a) (emit [ev] b))
    by (intros ev a b H; exact H).
  assert (R_model : forall a b, same_batch tbl tbl' a b ->
                      model_file a = model_file b)
    by (intros a b [H _]; exact H).
  assert (Hrows : forall df probs normal_idx preds i,
             respects (same_batch tbl tbl')
               (score_rows df probs normal_idx i preds)).
  { intros df probs normal_idx preds.
    induction preds as [| pred rest IH]; intros i.
    - unfold score_rows. respecting.
    - change (score_rows df probs normal_idx i (pred :: rest))
        with (t <- score_row df probs normal_idx i pred ;;
              ts <- score_rows df probs normal_idx (S i) rest ;;
              ret (t :: ts)).
      apply respects_bind; [| intros t; apply respects_bind;
                                [apply IH | intros; apply respects_ret]].
      unfold score_row, risk_and_status, iloc_cell. respecting.
      unfold new_uuid. intros wa wb [H1 [H2 [H3 [H4 H5]]]]. cbn.
      rewrite H3. split; [reflexivity |].
      unfold same_batch. cbn. now repeat split. }
  unfold upload_csv, upload_frame, call_preprocess_data, call_predict,
    call_predict_proba, normal_index. cbv zeta.
  respecting; try apply Hrows.
  - unfold db_add_all. apply respects_bind; [apply respects_log; assumption |].
    intros _ wa wb [H1 [H2 [H3 [H4 H5]]]]. cbn.
    split; [reflexivity |]. unfold same_batch. cbn.
    rewrite H4. now repeat split.
  - unfold db_commit. apply respects_bind; [apply respects_log; assumption |].
    intros _ wa wb [H1 [H2 [H3 [H4 [new_txns [H5 H6]]]]]]. rewrite H2, H4.
    destruct (db_fault wb) as [msg |] eqn:Hfault;
      [| destruct (forallb storable (pending wb))]; cbn.
    + split; [reflexivity |]. unfold same_batch.
      repeat split; try assumption; [congruence |]. now exists new_txns.
    + split; [reflexivity |]. unfold same_batch. cbn.
      repeat split; try assumption; [congruence |].
      exists (new_txns ++ pending wb)%list.
      rewrite H5, H6, !app_assoc. now split.
    + split; [reflexivity |]. unfold same_batch.
      repeat split; try assumption; [congruence |]. now exists new_txns.
  - unfold db_rollback. apply respects_bind; [apply respects_log; assumption |].
    intros _ wa wb [H1 [H2 [H3 [H4 H5]]]]. cbn.
    split; [reflexivity |]. unfold same_batch. cbn. now repeat split.
Qed.

(** X21. An upload is scored without looking at what is stored: with the
    same file, model file, storage fault and counter of identifiers, the
    answer and the rows that are added are the same whatever the table
    holds, each table being extended by the same new rows. *)
Theorem upload_ignores_stored_rows :
  forall (file_ : UploadFile) (w w' : World),
    model_file w = model_file w' ->
    db_fault w = db_fault w' ->
    uuid_count w = uuid_count w' ->
    fst (get_db (upload_csv file_) w) = fst (get_db (upload_csv file_) w')
    /\ exists new_txns,
         committed (snd (get_db (upload_csv file_) w))
           = (committed w ++ new_txns)%list
         /\ committed (snd (get_db (upload_csv file_) w'))
              = (committed w' ++ new_txns)%list.
Proof.
  intros file_ w w' Hmodel Hfault Huuid.
  destruct (upload_respects (committed w) (committed w') file_
              (set_session (committed w) [] w)
              (set_session (committed w') [] w'))
    as [Hfst [_ [_ [_ [_ [new_txns [H1 H2]]]]]]].
  { repeat split; cbn; try assumption. exists []. now rewrite !app_nil_r. }
  unfold get_db.
  destruct (upload_csv file_ (set_session (committed w) [] w)) as [r1 w1].
  destruct (upload_csv file_ (set_session (committed w') [] w')) as [r2 w2].
  cbn in *. split; [exact Hfst |]. now exists new_txns.
Qed.

(** X22. After an upload that succeeds, the dashboard counts the new
    rows: the total grows by [rowsProcessed] and the flagged count by at
    most that; after an upload that fails, both are as before. *)
Theorem upload_then_metrics :
  forall (file_ : UploadFile) (w : World),
    let r := get_db (upload_csv file_) w in
    let before := metrics_of (committed w) in
    let after := metrics_of (committed (snd r)) in
    match fst r with
    | Return res =>
        totalTransactions after
          = (totalTransactions before + rowsProcessed res)%nat
        /\ (flaggedTransactions before <= flaggedTransactions after
            <= flaggedTransactions before + rowsProcessed res)%nat
    | Raise _ =>
        totalTransactions after = totalTransactions before
        /\ flaggedTransactions after = flaggedTransactions before
    end.
Proof.
  intros file_ w. cbv zeta.
  assert (Hat : atomic (committed w) (upload_csv file_)
                  (stored_batch (committed w)))
    by apply upload_csv_atomic.
  specialize (Hat (set_session (committed w) [] w) eq_refl eq_refl).
  unfold get_db.
  destruct (upload_csv file_ (set_session (committed w) [] w)) as [[res | e] w1];
    cbn [fst snd set_session committed].
  - destruct Hat as [new_txns [Hc [_ [Hlen _]]]]. rewrite Hc.
    unfold metrics_of, count_status.
    cbn [totalTransactions flaggedTransactions].
    rewrite filter_app, !length_app, Hlen.
    pose proof (filter_length_le
                  (fun r => String.eqb (TransactionModel.status r) "Suspicious")
                  new_txns).
    split; lia.
  - destruct Hat as [Hc _]. now rewrite Hc.
Qed.

End Behaviour.

(** * The further properties on concrete requests *)

Module MoreRuns.

Import Fixtures AppFixtures.

#[local] Existing Instance Fixtures.collab.
#[local] Existing Instance AppFixtures.app.

(** X2 at a prediction that the two-class model flags. *)
Lemma predict_response_consistent_witness :
  let resp := {| PredictionResponse.is_fraud := true;
                 PredictionResponse.risk_score := 100;
                 PredictionResponse.status := "Suspicious" |} in
  PredictionResponse.status resp =
    (if PredictionResponse.is_fraud resp then "Suspicious" else "Safe")
  /\ (PredictionResponse.is_fraud resp = true <->
      PredictionResponse.status resp = "Suspicious").
Proof.
  apply (predict_response_consistent ""
           (request "2024-01-03T00:00:00" "u1" 5000)
           (world (Loadable pipeline) table2 None)).
  vm_compute. reflexivity.
Defined.

(** X5 at an upload without a header. *)
Lemma upload_error_statuses_witness :
  upload_error (HTTPException 401 "Missing bearer token")
  /\ (response_status (@Raise UploadResult
                         (HTTPException 401 "Missing bearer token")) = 401 ->
      authorized "" = false).
Proof.
  apply (upload_error_statuses "" (upload "batch.csv" "good")
           (world (Loadable pipeline) table2 None)).
  vm_compute. reflexivity.
Defined.

Lemma frame_good_aligned : aligned frame_good.
Proof. unfold aligned. cbn. repeat constructor. Defined.

(** X6 at the two-row frame, which has no [Fraud_Type] column. *)
Lemma with_fraud_type_preserves_witness :
  cell_at (with_fraud_type frame_good) 1 "Amount" = cell_at frame_good 1 "Amount"
  /\ cell_at (with_fraud_type frame_good) 1 "Fraud_Type" = Some (CInt 0).
Proof.
  destruct (with_fraud_type_preserves frame_good frame_good_aligned)
    as [_ [_ [Hcells [Hnew _]]]].
  split.
  - apply Hcells. reflexivity.
  - apply Hnew; [reflexivity | cbn; lia].
Defined.

(** X7 at the token that the stand-in for [decode_token] accepts. *)
Lemma token_round_trip_witness :
  token_of "Bearer signed.jwt.token" = "signed.jwt.token".
Proof.
  exact (proj1 (token_round_trip "signed.jwt.token"
                  (world Missing [] None) eq_refl)).
Defined.

(** X8 at a header that names the development token after two
    prefixes. *)
Lemma repeated_bearer_prefix_witness :
  require_token ("Bearer " ++ dev_header) (world Missing [] None)
  = require_token dev_header (world Missing [] None).
Proof.
  exact (proj2 (repeated_bearer_prefix dev_header (world Missing [] None)
                  eq_refl)).
Defined.

(** X11 on an installation without users. *)
Lemma seeded_login_is_authorized_witness :
  login (seed_default_user [])
    {| login_email := default_email; login_password := "password123" |}
  = Return {| access_token := "signed.jwt.token"; token_type := "bearer" |}.
Proof.
  exact (proj1 (seeded_login_is_authorized [] (world Missing [] None)
                  "analyst@anomalyse.bank" eq_refl eq_refl eq_refl eq_refl)).
Defined.

Lemma velocity_is_legacy : read_as_legacy "velocity".
Proof. left. split; reflexivity. Defined.

(** X13 at a flag stored as plain text. *)
Lemma legacy_flag_listed_witness :
  exists t,
    transaction_out legacy_row = Some t
    /\ TransactionOut.flags t =
         [[("type", "velocity"); ("reason", "five in a minute")]].
Proof.
  destruct (legacy_flag_listed legacy_row "v" "elocity" 40
              eq_refl velocity_is_legacy eq_refl)
    as [t [Hout [Hflags _]]].
  exists t. split; [exact Hout | exact Hflags].
Defined.

(** X14 at a flag stored as a JSON list of one object. *)
Lemma json_flags_listed_witness :
  exists t,
    transaction_out json_row = Some t
    /\ TransactionOut.flags t =
         [[("type", "velocity"); ("reason", "five in a minute")]]
    /\ TransactionOut.flag_reason t = Some "five in a minute".
Proof.
  destruct (json_flags_listed json_row "[" json_flag_list_tail 40
              [("type", JStr "velocity"); ("reason", JStr "five in a minute")]
              []
              [[("type", "velocity"); ("reason", "five in a minute")]]
              (Some "velocity") (Some "five in a minute"))
    as [t [Hout [Hflags [_ [_ Hreason]]]]];
    try (vm_compute; reflexivity).
  exists t. repeat split; assumption.
Defined.

Lemma object_is_no_list :
  forall x rest, JDict [("type", JStr "velocity")] <> JList (x :: rest).
Proof. intros x rest H. discriminate H. Defined.

(** X15 at a flag stored as a JSON object. *)
Lemma json_object_flag_dropped_witness :
  exists t,
    transaction_out object_row = Some t /\ TransactionOut.flags t = [].
Proof.
  destruct (json_object_flag_dropped object_row "{" json_flag_object_tail 40
              (JDict [("type", JStr "velocity")]))
    as [t [Hout [Hflags _]]];
    try (vm_compute; reflexivity); try exact object_is_no_list.
  exists t. split; [exact Hout | exact Hflags].
Defined.

Lemma stored_is_scored : scored_row (stored "a" 1 "u1").
Proof. unfold scored_row. cbn. auto. Defined.

(** X17 at a row as an upload writes it. *)
Lemma uploaded_row_listed_witness :
  option_map TransactionOut.flags (transaction_out (stored "a" 1 "u1"))
  = Some [].
Proof.
  rewrite (uploaded_row_listed (stored "a" 1 "u1") 0 stored_is_scored);
    [reflexivity | vm_compute; reflexivity].
Defined.

(** A row of the user on the fourth of January. *)
Definition later_row : TransactionModel.t :=
  stored "c" 1704326400000000 "u1".

Lemma later_rows_invisible :
  forall ts,
    to_datetime (CStr "2024-01-03T00:00:00") = Some ts ->
    earlier_rows "u1" ts table2
    = earlier_rows "u1" ts (table2 ++ [later_row; other_user_row]).
Proof.
  intros ts Hts. vm_compute in Hts. injection Hts as <-.
  vm_compute. reflexivity.
Defined.

(** X20: a later row of the user and a row of another user do not change
    the answer. *)
Lemma prediction_sees_own_history_only_witness :
  fst (post_predict "" (request "2024-01-03T00:00:00" "u1" 5000)
         (world (Loadable pipeline) table2 None))
  = fst (post_predict "" (request "2024-01-03T00:00:00" "u1" 5000)
           (world (Loadable pipeline)
              (table2 ++ [later_row; other_user_row]) None)).
Proof.
  exact (prediction_sees_own_history_only ""
           (request "2024-01-03T00:00:00" "u1" 5000)
           (world (Loadable pipeline) table2 None)
           (world (Loadable pipeline)
              (table2 ++ [later_row; other_user_row]) None)
           eq_refl later_rows_invisible).
Defined.

(** A request with an empty timestamp: [pd.to_datetime] gives [NaT], the
    history query raises and the answer is a status 500; nothing was
    preprocessed. *)
Lemma predict_blank_timestamp :
  let r := post_predict "" (request "" "u1" 5000)
             (world (Loadable pipeline) table2 None) in
  response_status (fst r) = 500
  /\ trace (snd r) = [EvLoad; EvQuery "u1" NaT].
Proof. cbv zeta. split; vm_compute; reflexivity. Qed.

(** A request with a timestamp that is no date. *)
Lemma predict_unreadable_timestamp :
  post_predict "" (request "3" "u1" 5000)
    (world (Loadable pipeline) table2 None)
  = (Raise (HTTPException 400 "Invalid timestamp format"),
     emit [EvLoad] (world (Loadable pipeline) table2 None)).
Proof. vm_compute. reflexivity. Qed.

(** A batch with an empty timestamp in its second row: the rows are
    scored, the commit refuses them, and nothing is stored. *)
Lemma upload_blank_timestamp :
  let r := get_db (upload_csv (upload "batch.csv" "blank-time"))
             (world (Loadable pipeline) table2 None) in
  fst r = Raise (HTTPException 500
                   "Database error: cannot convert float NaN to integer")
  /\ committed (snd r) = table2
  /\ pending (snd r) = [].
Proof. cbv zeta. repeat split; vm_compute; reflexivity. Qed.

(** X21: the same file against an empty and against a filled table. *)
Lemma upload_ignores_stored_rows_witness :
  fst (get_db (upload_csv (upload "batch.csv" "good"))
         (world (Loadable pipeline) [] None))
  = fst (get_db (upload_csv (upload "batch.csv" "good"))
           (world (Loadable pipeline) table2 None)).
Proof.
  exact (proj1 (upload_ignores_stored_rows (upload "batch.csv" "good")
                  (world (Loadable pipeline) [] None)
                  (world (Loadable pipeline) table2 None)
                  eq_refl eq_refl eq_refl)).
Defined.

End MoreRuns.
